(** * FAST-Pathology: the model-execution orchestrator and the project store

    A shallow embedding of [source/logic/ProcessManager.cpp] and
    [source/logic/Project.cpp].  Pure code is embedded as functions, stateful
    code by explicit state passing in a small state-and-outcome monad, and
    C++ exceptions by an outcome type.  Strings are [string], [std::map] and
    [std::unordered_map] are [gmap string _], [int] values are [Z] within the
    32-bit range.

    Collaborators that are not part of the two files (FAST's network,
    generator and renderer objects, Qt's file access, the C++ run-time
    library's floating point) are inputs of the embedding: a [World] record
    gives what the host answers, and every external call may raise the
    exception the world's [throws] oracle names for it.  Purely informational
    console output (the dump of the metadata map, the list of files found) is
    left out; every diagnostic that a branch of the code prints is kept. *)

From Stdlib Require Import ZArith String Ascii List Lia Reals Lra.
From stdpp Require Import gmap strings list pretty sorting.

Open Scope string_scope.
Open Scope Z_scope.

(** * Part I: the embedding *)

(** ** Exceptions and outcomes *)

(** The exceptions the embedded code can raise.  All of them derive from
    [std::exception]: [std::stoi]/[std::stof] raise [invalid_argument] or
    [out_of_range], [std::string::substr] raises [out_of_range], and FAST's
    own [Exception] carries a message. *)
Inductive exn : Type :=
| invalid_argument (what_arg : string)
| out_of_range (what_arg : string)
| Exception (msg : string).

(** [e.what()] *)
Definition what (e : exn) : string :=
  match e with
  | invalid_argument w => w
  | out_of_range w => w
  | Exception m => m
  end.

(** How a piece of code ends. *)
Inductive Out (A : Type) : Type :=
| Val (a : A)       (* it completes and yields [a] *)
| Raise (e : exn)   (* an exception propagates out of it *)
| Return_           (* a [return;] leaves the enclosing function *)
| Undef.            (* undefined behaviour: reading past the end of a
                       vector, signed overflow, a cast of a float that no
                       [int] represents; the embedding says nothing more *)
Arguments Val {A} a.
Arguments Raise {A} e.
Arguments Return_ {A}.
Arguments Undef {A}.

Definition obind {A B : Type} (o : Out A) (k : A → Out B) : Out B :=
  match o with
  | Val a => k a
  | Raise e => Raise e
  | Return_ => Return_
  | Undef => Undef
  end.

Notation "'let?' x ':=' o 'in' k" := (obind o (fun x => k))
  (at level 10, x name, o at level 100, k at level 200).

(** Code with a state [S]: the outcome together with the state it leaves. *)
Definition M (S A : Type) : Type := S → Out A * S.

Definition ret {S A : Type} (a : A) : M S A := fun st => (Val a, st).

Definition bind {S A B : Type} (m : M S A) (k : A → M S B) : M S B :=
  fun st =>
    match m st with
    | (Val a, st') => k a st'
    | (Raise e, st') => (Raise e, st')
    | (Return_, st') => (Return_, st')
    | (Undef, st') => (Undef, st')
    end.

Definition lift {S A : Type} (o : Out A) : M S A := fun st => (o, st).

Definition modify {S : Type} (f : S → S) : M S unit := fun st => (Val tt, f st).

Definition gets {S A : Type} (f : S → A) : M S A := fun st => (Val (f st), st).

Notation "'let!' x ':=' m 'in' k" := (bind m (fun x => k))
  (at level 10, x name, m at level 100, k at level 200).
Notation "'run!' m 'in' k" := (bind m (fun _ => k))
  (at level 10, m at level 100, k at level 200).

(** ** The C++ library functions the code calls *)

Definition INT_MIN : Z := -2147483648.
Definition INT_MAX : Z := 2147483647.

(** The value of an [int] expression: signed overflow is undefined. *)
Definition int_ (z : Z) : Out Z :=
  if (INT_MIN <=? z) && (z <=? INT_MAX) then Val z else Undef.

(** [std::isspace] in the "C" locale. *)
Definition isspace (c : ascii) : bool :=
  let n := nat_of_ascii c in
  (n =? 32)%nat || ((9 <=? n)%nat && (n <=? 13)%nat).

Fixpoint skip_spaces (s : string) : string :=
  match s with
  | String c r => if isspace c then skip_spaces r else s
  | EmptyString => s
  end.

Definition digit_of (c : ascii) : option Z :=
  let n := nat_of_ascii c in
  if (48 <=? n)%nat && (n <=? 57)%nat then Some (Z.of_nat n - 48) else None.

(** The longest run of decimal digits at the head of [s], as a number;
    [acc] is [None] until a digit has been read. *)
Fixpoint read_digits (s : string) (acc : option Z) : option Z * string :=
  match s with
  | String c r =>
      match digit_of c with
      | Some d => read_digits r (Some (10 * default 0 acc + d))
      | None => (acc, s)
      end
  | EmptyString => (acc, s)
  end.

Definition read_sign (s : string) : bool * string :=
  match s with
  | String "-" r => (true, r)
  | String "+" r => (false, r)
  | _ => (false, s)
  end.

(** [std::stoi(s)] (base 10): leading white space, an optional sign, then
    digits; what follows the digits is ignored.  No digit:
    [std::invalid_argument]; a value no [int] holds: [std::out_of_range]. *)
Definition stoi (s : string) : Out Z :=
  let '(neg, s1) := read_sign (skip_spaces s) in
  match (read_digits s1 None).1 with
  | None => Raise (invalid_argument "stoi")
  | Some n =>
      let v := if neg then - n else n in
      if (INT_MIN <=? v) && (v <=? INT_MAX) then Val v
      else Raise (out_of_range "stoi")
  end.

(** [std::to_string(int)] *)
Definition to_string (i : Z) : string := pretty i.

(** [s.find(pat) != std::string::npos] *)
Definition found (pat s : string) : bool :=
  match String.index 0 pat s with Some _ => true | None => false end.

(** [v.back()] and [v.front()]: undefined on an empty vector. *)
Definition back (v : list string) : Out string :=
  match v with [] => Undef | _ => Val (List.last v "") end.

Definition front (v : list string) : Out string :=
  match v with [] => Undef | x :: _ => Val x end.

(** [v[i]] without bounds check. *)
Definition at_ (v : list string) (i : nat) : Out string :=
  match v !! i with Some x => Val x | None => Undef end.

(** [v.resize(n)] on a vector of strings: truncates, or pads with empty
    strings. *)
Definition resize (n : nat) (v : list string) : list string :=
  take n v ++ replicate (n - length v) "".

(** [m[k]] on a map of strings, read as a value: the stored string, or the
    empty string (which [operator[]] also inserts; no later [count] or
    iteration of the code looks at a key that was inserted this way). *)
Definition get (m : gmap string string) (k : string) : string :=
  default "" (m !! k).

(** [std::find(begin, end, x) != end] on a sequence of strings. *)
Definition contains (l : list string) (x : string) : bool :=
  existsb (String.eqb x) l.

(** ** Engine resolver: [ProcessManager::selectOptimalInferenceEngine] *)

(** The chain of [if]/[else if] of lines 171-219.  [acceptedModels] holds the
    extensions found on disk, each with its leading dot; [inference_engines]
    is the backend list that [identifySystem] built. *)
Definition select_engine (acceptedModels inference_engines : list string)
  : string * string :=
  if contains acceptedModels ".onnx" && contains inference_engines "TensorRT"
  then ("TensorRT", "onnx")
  else if contains acceptedModels ".uff" && contains inference_engines "TensorRT"
  then ("TensorRT", "uff")
  else if contains acceptedModels ".onnx" && contains inference_engines "OpenVINO"
  then ("OpenVINO", "onnx")
  else if contains acceptedModels ".xml" && contains inference_engines "OpenVINO"
  then ("OpenVINO", "xml")
  else if contains acceptedModels ".pb" && contains inference_engines "TensorFlow"
  then ("TensorFlow", "pb")
  else ("", "").

(** The specification's reading of the resolver: a fixed priority list of
    (backend, format) candidates, searched over two sets. *)
Definition priority : list (string * string) :=
  [("TensorRT", "onnx"); ("TensorRT", "uff"); ("OpenVINO", "onnx");
   ("OpenVINO", "xml"); ("TensorFlow", "pb")].

Definition candidate_ok (formats backends : gset string)
    (c : string * string) : bool :=
  bool_decide ("." +:+ c.2 ∈ formats) && bool_decide (c.1 ∈ backends).

Definition resolve_spec (formats backends : gset string) : string * string :=
  match List.find (candidate_ok formats backends) priority with
  | Some c => c
  | None => ("", "")
  end.

(** ** Low-resolution level choice (lines 306-335 of [pixelClassifier]) *)

Section LowResolution.

(** [metadata] is the image's OpenSlide property map, [modelMetadata] the
    model's configuration map. *)
Variable metadata modelMetadata : gmap string string.

(** The [for] loop of lines 315-324 at level [i] with [n] levels left: the
    value it leaves in [currLvl] when it breaks ([Some (i - 1)]), [None] when
    it runs to the end.  The right operand of [||] is evaluated only when the
    left one is false. *)
Fixpoint scan_levels (n : nat) (i inputWidth inputHeight : Z) : Out (option Z) :=
  match n with
  | O => Val None
  | S n' =>
      let? w := stoi (get metadata ("openslide.level[" +:+ to_string i +:+ "].width")) in
      let? w2 := int_ (inputWidth * 2) in
      if w <=? w2 then Val (Some (i - 1))
      else
        let? h := stoi (get metadata ("openslide.level[" +:+ to_string i +:+ "].height")) in
        let? h2 := int_ (inputHeight * 2) in
        if h <=? h2 then Val (Some (i - 1))
        else scan_levels n' (i + 1) inputWidth inputHeight
  end.

(** Lines 311-327: the value of [currLvl] when line 329 is reached.  The
    guard [if (!breakFlag)] of line 325 is commented out in the source, so
    the assignment of line 327 is unconditional. *)
Definition low_res_currLvl : Out Z :=
  let? levelCount := stoi (get metadata "openslide.level-count") in
  let? inputWidth := stoi (get modelMetadata "input_img_size_x") in
  let? inputHeight := stoi (get modelMetadata "input_img_size_y") in
  let? _ := scan_levels (Z.to_nat levelCount) 0 inputWidth inputHeight in
  int_ (levelCount - 1).

(** The same lines as the specification words them: level [i - 1] at the
    first level [i] that violates the bound, the coarsest level only when the
    scan finds none. *)
Definition low_res_currLvl_spec : Out Z :=
  let? levelCount := stoi (get metadata "openslide.level-count") in
  let? inputWidth := stoi (get modelMetadata "input_img_size_x") in
  let? inputHeight := stoi (get modelMetadata "input_img_size_y") in
  let? found_at := scan_levels (Z.to_nat levelCount) 0 inputWidth inputHeight in
  match found_at with
  | Some l => Val l
  | None => int_ (levelCount - 1)
  end.

End LowResolution.

(** ** The state of one run of [ProcessManager::pixelClassifier] *)

(** What the run has configured on a network object. *)
Record Network : Type := {
  engine : string;              (* [getInferenceEngine()->getName()] *)
  device_cpu : bool;            (* [setDeviceType(InferenceDeviceType::CPU)] was called *)
  model_file : option string;   (* the path given to [load] *)
}.

Definition fresh_network : Network :=
  {| engine := ""; device_cpu := false; model_file := None |}.

(** [renderers] is the renderer map of the visible image (name to renderer
    class), [cout] the lines printed, [network] and [currNetwork] the two
    network objects of the function. *)
Record RunState : Type := {
  renderers : gmap string string;
  cout : list string;
  network : Network;
  currNetwork : Network;
}.

Definition set_renderers (f : gmap string string → gmap string string) (st : RunState) : RunState :=
  {| renderers := f (renderers st); cout := cout st;
     network := network st; currNetwork := currNetwork st |}.

Definition set_cout (f : list string → list string) (st : RunState) : RunState :=
  {| renderers := renderers st; cout := f (cout st);
     network := network st; currNetwork := currNetwork st |}.

Definition set_network (f : Network → Network) (st : RunState) : RunState :=
  {| renderers := renderers st; cout := cout st;
     network := f (network st); currNetwork := currNetwork st |}.

Definition set_currNetwork (f : Network → Network) (st : RunState) : RunState :=
  {| renderers := renderers st; cout := cout st;
     network := network st; currNetwork := f (currNetwork st) |}.

(** [std::cout << s << std::endl] *)
Definition print (s : string) : M RunState unit :=
  modify (set_cout (fun out => (out ++ [s])%list)).

(** Modelled from the spec: [WholeSlideImage::has_renderer] and
    [WholeSlideImage::insert_renderer] are declared outside the two files;
    the specification has the sink registered on the target image under the
    model's name, a no-op if the name is already present. *)
Definition has_renderer (name : string) : M RunState bool :=
  gets (fun st => bool_decide (is_Some (renderers st !! name))).

(** Modelled from the spec: [WholeSlideImage::insert_renderer] registers the
    renderer class under the name unless the name is present. *)
Definition insert_renderer (name type : string) : M RunState unit :=
  modify (set_renderers (fun r =>
    match r !! name with Some _ => r | None => <[name := type]> r end)).

(** ** [ProcessManager::pixelClassifier] *)

(** The warning of line 295 and the diagnostic of line 416. *)
Definition level_warning : string :=
  "magnification_level was not properly defined in the model config file. Defaults to using image plane 0.".

Definition cpu_diagnostic : string :=
  "CPU only was selected, but was not able to find any CPU devices...".

(** Single-precision floating point, as the C++ library provides it:
    [std::stof], [std::log], [/], [std::round], the conversion [(float)i] and
    the cast [(int)x]. *)
Record Floats (F : Type) : Type := {
  stof : string → Out F;
  flog : F → F;
  fdiv : F → F → F;
  fround : F → F;
  float_of_int : Z → F;
  int_of_float : F → Out Z;
}.
Arguments stof {F} _ _.
Arguments flog {F} _ _.
Arguments fdiv {F} _ _ _.
Arguments fround {F} _ _.
Arguments float_of_int {F} _ _.
Arguments int_of_float {F} _ _.

(** What the host answers during one run. *)
Record World (F : Type) : Type := {
  splitCustom : string → string → list string;    (* [source/utils/utilities.h], not among the files *)
  models_filepath : string;                       (* [_models_filepath] *)
  inference_engines : list string;                (* [_inference_engines] *)
  model_metadata : string → gmap string string;   (* [_models[name]->get_model_metadata()], the model being in the catalogue *)
  image_metadata : gmap string string;            (* [current_image_object->get_metadata()] *)
  magn_lvl : F;                                   (* [get_magnification_level()] *)
  model_files : string → list string;             (* [entryList] of the model's directory *)
  anchors_lines : string → list string;           (* the lines [std::getline] reads from a path *)
  preferred_extension : string → string;          (* [getModelFileExtension(getPreferredModelFormat())] of an engine *)
  throws : string → list string → option exn;     (* the exception an external call raises, if any *)
}.
Arguments splitCustom {F} _ _ _.
Arguments models_filepath {F} _.
Arguments inference_engines {F} _.
Arguments model_metadata {F} _ _.
Arguments image_metadata {F} _.
Arguments magn_lvl {F} _.
Arguments model_files {F} _ _.
Arguments anchors_lines {F} _ _.
Arguments preferred_extension {F} _ _.
Arguments throws {F} _ _ _.

Section Assembler.

Context {F : Type} (fl : Floats F) (w : World F).

(** An external call: it raises what the world says, or completes. *)
Definition ext (name : string) (args : list string) : M RunState unit :=
  lift (match throws w name args with Some e => Raise e | None => Val tt end).

Definition network_setInferenceEngine (name : string) : M RunState unit :=
  run! ext "network->setInferenceEngine" [name] in
  modify (set_network (fun _ =>
    {| engine := name; device_cpu := false; model_file := None |})).

Definition network_setDeviceTypeCPU : M RunState unit :=
  run! ext "network->getInferenceEngine()->setDeviceType" ["CPU"] in
  modify (set_network (fun n =>
    {| engine := engine n; device_cpu := true; model_file := model_file n |})).

Definition network_load (path : string) : M RunState unit :=
  run! ext "network->load" [path] in
  modify (set_network (fun n =>
    {| engine := engine n; device_cpu := device_cpu n; model_file := Some path |})).

Definition currNetwork_setInferenceEngine (name : string) : M RunState unit :=
  run! ext "currNetwork->setInferenceEngine" [name] in
  modify (set_currNetwork (fun _ =>
    {| engine := name; device_cpu := false; model_file := None |})).

Definition currNetwork_load (path : string) : M RunState unit :=
  run! ext "currNetwork->load" [path] in
  modify (set_currNetwork (fun n =>
    {| engine := engine n; device_cpu := device_cpu n; model_file := Some path |})).

(** Lines 146-158 and 349-361: the extensions of the model's files. *)
Fixpoint accepted_of (name : string) (files : list string) : Out (list string) :=
  match files with
  | [] => Val []
  | currentModel :: rest =>
      if found name currentModel then
        let? e := back (splitCustom w currentModel (name +:+ ".")) in
        let? more := accepted_of name rest in
        Val (("." +:+ e) :: more)
      else accepted_of name rest
  end.

Definition acceptedModels (name : string) : Out (list string) :=
  accepted_of name (model_files w name).

(** Lines 140-220. *)
Definition selectOptimalInferenceEngine (model_name : string) : Out (string * string) :=
  let? accepted := acceptedModels model_name in
  Val (select_engine accepted (inference_engines w)).

(** Lines 288-298.  The two operands of the outer division are evaluated
    left to right here; C++ leaves their order open, and each can only
    raise. *)
Definition patch_lvl_model (modelMetadata : gmap string string) : M RunState Z :=
  if negb (String.eqb (get modelMetadata "magnification_level") "") then
    let! m := lift (stoi (get modelMetadata "magnification_level")) in
    let! ds := lift (stof fl (get (image_metadata w) "openslide.level[1].downsample")) in
    lift (int_of_float fl
            (fdiv fl (flog fl (fdiv fl (magn_lvl w) (float_of_int fl m)))
                     (flog fl (fround fl ds))))
  else
    run! print level_warning in
    ret 0.

(** Lines 306-343. *)
Definition low_resolution (modelMetadata : gmap string string) : M RunState Z :=
  let! currLvl := lift (low_res_currLvl (image_metadata w) modelMetadata) in
  run! print ("Optimal patch level: " +:+ to_string currLvl) in
  if currLvl <? 0 then
    run! print ("Automatic chosen patch level for low_res is invalid: " +:+ to_string currLvl) in
    lift Return_
  else
    run! ext "access->getLevelAsImage" [to_string currLvl] in
    run! ext "resizer->setInputData" [] in
    run! ext "resizer->setWidth" [get modelMetadata "input_img_size_x"] in
    run! ext "resizer->setHeight" [get modelMetadata "input_img_size_y"] in
    ret currLvl.

(** Lines 396-419: the re-check of the CPU-only flag. *)
Definition cpu_override (modelMetadata : gmap string string)
    (accepted : list string) : M RunState unit :=
  let! cpu := lift (stoi (get modelMetadata "cpu")) in
  if cpu =? 1 then
    if contains accepted ".pb" && contains (inference_engines w) "TensorFlow" then
      run! print "GPU is disabled! (with TensorFlow)" in
      run! network_setInferenceEngine "TensorFlow" in
      network_setDeviceTypeCPU
    else if contains accepted ".xml" && contains (inference_engines w) "OpenVINO" then
      run! print "GPU is disabled! (with OpenVINO)" in
      run! network_setInferenceEngine "OpenVINO" in
      network_setDeviceTypeCPU
    else
      print cpu_diagnostic
  else ret tt.

(** Lines 422-427: the engine preselected in the model's metadata.  The
    result is the new value of [chosenIE]. *)
Definition preselected_engine (modelMetadata : gmap string string)
    (chosenIE : string) : M RunState string :=
  if negb (bool_decide (modelMetadata !! "IE" = None)
           || String.eqb (get modelMetadata "IE") "none") then
    run! print ("Preselected IE was used: " +:+ get modelMetadata "IE") in
    run! network_setInferenceEngine (get modelMetadata "IE") in
    let! n := gets network in
    ret (preferred_extension w (engine n))
  else ret chosenIE.

Definition stoi_of (modelMetadata : gmap string string) (key : string) : M RunState Z :=
  lift (stoi (get modelMetadata key)).

Definition stoi_at (v : list string) (i : nat) : M RunState Z :=
  lift (let? s := at_ v i in stoi s).

(** Lines 429-468: input and output nodes, by engine family. *)
Definition configure_nodes (modelMetadata : gmap string string)
    (chosenIE : string) : M RunState unit :=
  let! n := gets network in
  let problem := get modelMetadata "problem" in
  if String.eqb (String.substring 0 10 (engine n)) "TensorFlow" then
    let! y := stoi_of modelMetadata "input_img_size_y" in
    let! x := stoi_of modelMetadata "input_img_size_x" in
    let! c := stoi_of modelMetadata "nb_channels" in
    run! ext "network->setInputNode"
           [get modelMetadata "input_node"; "1"; to_string y; to_string x; to_string c] in
    if String.eqb problem "classification" then
      let! k := stoi_of modelMetadata "nb_classes" in
      ext "network->setOutputNode" [get modelMetadata "output_node"; "1"; to_string k]
    else if String.eqb problem "segmentation" then
      let! y' := stoi_of modelMetadata "input_img_size_y" in
      let! x' := stoi_of modelMetadata "input_img_size_x" in
      let! k := stoi_of modelMetadata "nb_classes" in
      ext "network->setOutputNode"
        [get modelMetadata "output_node"; "1"; to_string y'; to_string x'; to_string k]
    else if String.eqb problem "object_detection" then
      let! k := stoi_of modelMetadata "nb_classes" in
      ext "network->setOutputNode" [get modelMetadata "output_node"; "1"; to_string k]
    else ret tt
  else if String.eqb (engine n) "TensorRT" && String.eqb chosenIE "uff" then
    let! c := stoi_of modelMetadata "nb_channels" in
    let! y := stoi_of modelMetadata "input_img_size_y" in
    let! y' := stoi_of modelMetadata "input_img_size_y" in
    run! ext "network->setInputNode"
           [get modelMetadata "input_node"; "1"; to_string c; to_string y; to_string y'] in
    let! k := stoi_of modelMetadata "nb_classes" in
    ext "network->setOutputNode" [get modelMetadata "output_node"; "1"; to_string k]
  else ret tt.

(** Lines 470-473: the extension of the file that is loaded, and the load. *)
Definition load_model (process_name chosenIE : string) : M RunState unit :=
  let! n := gets network in
  let chosenIE' :=
    if negb (String.eqb (engine n) "TensorRT") && negb (String.eqb (engine n) "OpenVINO")
    then preferred_extension w (engine n)
    else chosenIE in
  network_load (models_filepath w +:+ "/" +:+ process_name +:+ "/" +:+ process_name
                +:+ "." +:+ chosenIE').

(** Lines 393-474: what runs once an engine was found. *)
Definition configure_network (process_name : string)
    (modelMetadata : gmap string string) (accepted : list string)
    (chosenIE : string) : M RunState unit :=
  run! cpu_override modelMetadata accepted in
  let! chosenIE' := preselected_engine modelMetadata chosenIE in
  run! configure_nodes modelMetadata chosenIE' in
  load_model process_name chosenIE'.

(** Lines 475-548: the input of the network. *)
Definition connect_input (modelMetadata : gmap string string)
    (patch_level : Z) : M RunState unit :=
  run! ext "PatchGenerator::New" [] in
  if String.eqb (get modelMetadata "resolution") "low" then
    run! ext "resizer->update" [] in
    ext "network->setInputData" []
  else
    run!
      (if String.eqb (get modelMetadata "tissue_threshold") "none" then
         print "No tissue segmentation filtering will be applied before this analysis."
       else if negb (String.eqb (get modelMetadata "tissue_threshold") "") then
         run! print ("Threshold was defined: " +:+ get modelMetadata "tissue_threshold") in
         run! ext "TissueSegmentation::New" [] in
         run! ext "tissueSegmentation->setInputData" [] in
         let! t := stoi_of modelMetadata "tissue_threshold" in
         run! ext "tissueSegmentation->setThreshold" [to_string t] in
         run! ext "generator->setInputConnection" ["1"] in
         print "tissue_threshold was defined, so is performing thresholding as preprocessing step."
       else
         print "The tissue_threshold has not been properly defined in the model config file, and thus the method will use any existing segmentation masks as filtering (if available).") in
    let! y := stoi_of modelMetadata "input_img_size_y" in
    let! x := stoi_of modelMetadata "input_img_size_x" in
    run! ext "generator->setPatchSize" [to_string y; to_string x] in
    run! ext "generator->setPatchLevel" [to_string patch_level] in
    run!
      (if String.eqb (get modelMetadata "mask_threshold") "" then
         print "No mask_threshold variable exists. Defaults to 0.5."
       else
         run! print ("Setting mask_threshold to: " +:+ get modelMetadata "mask_threshold") in
         let! _ := lift (stof fl (get modelMetadata "mask_threshold")) in
         ext "generator->setMaskThreshold" [get modelMetadata "mask_threshold"]) in
    run!
      (if String.eqb (get modelMetadata "patch_overlap") "" then
         print "No patch_overlap variable exists. Defaults to 0."
       else
         let! _ := lift (stof fl (get modelMetadata "patch_overlap")) in
         ext "generator->setOverlap" [get modelMetadata "patch_overlap"]) in
    run! ext "generator->setInputData" ["0"] in
    ext "network->setInputConnection" [].

(** Lines 556-559 and 706-709: [(float)stoi(v[0]) / (float)stoi(v[1])] of the
    split scale factor, handed to [setScaleFactor] of [object]. *)
Definition set_scale_factor (object : string)
    (modelMetadata : gmap string string) : M RunState unit :=
  let scale_factor := splitCustom w (get modelMetadata "scale_factor") "/" in
  let! num := stoi_at scale_factor 0 in
  let! den := stoi_at scale_factor 1 in
  ext (object +:+ "->setScaleFactor") [to_string num; to_string den].

(** Lines 550-560. *)
Definition scale_input (modelMetadata : gmap string string) : M RunState unit :=
  if String.eqb (get modelMetadata "scale_factor") "" then
    print "scale_factor not defined. Defaults to using using no intensity normalization/scaling in preprocessing."
  else set_scale_factor "network" modelMetadata.

(** The colour loops of lines 580-585, 631-636 and 768-774, at class [i]
    with [n] classes left. *)
Fixpoint set_colors (setter : string) (colors : list string) (n i : nat) : M RunState unit :=
  match n with
  | O => ret tt
  | S n' =>
      let! c := lift (at_ colors i) in
      let rgb := splitCustom w c "," in
      let! r := stoi_at rgb 0 in
      let! g := stoi_at rgb 1 in
      let! b := stoi_at rgb 2 in
      run! ext setter [to_string (Z.of_nat i); to_string r; to_string g; to_string b] in
      set_colors setter colors n' (S i)
  end.

Definition class_colors (setter : string) (modelMetadata : gmap string string) : M RunState unit :=
  let colors := splitCustom w (get modelMetadata "class_colors") ";" in
  let! nb_classes := stoi_of modelMetadata "nb_classes" in
  set_colors setter colors (Z.to_nat nb_classes) 0.

(** Lines 693-702: the two levels of three anchors of one line of the
    anchor file, [cntr] counting from [0] to [5]. *)
Fixpoint read_anchors (anchorVector : list string) (n cntr : nat) : M RunState unit :=
  match n with
  | O => ret tt
  | S n' =>
      let! a := lift (at_ anchorVector cntr) in
      let currentPair := splitCustom w a "," in
      let! _ := stoi_at currentPair 0 in
      let! _ := stoi_at currentPair 1 in
      read_anchors anchorVector n' (S cntr)
  end.

(** Lines 688-703: the [while (std::getline(infile, anchorStr))] loop. *)
Fixpoint read_anchor_file (lines : list string) : M RunState unit :=
  match lines with
  | [] => ret tt
  | anchorStr :: rest =>
      run! read_anchors (resize 6 (splitCustom w anchorStr " ")) 6 0 in
      read_anchor_file rest
  end.

Definition model_path (process_name extension : string) : string :=
  models_filepath w +:+ "/" +:+ process_name +:+ "/" +:+ process_name +:+ "." +:+ extension.

(** Lines 671-735: the object-detection tail, on a network object of its
    own. *)
Definition object_detection (process_name : string)
    (modelMetadata : gmap string string) : M RunState unit :=
  run! ext "BoundingBoxNetwork::New" [] in
  run! modify (set_currNetwork (fun _ => fresh_network)) in
  run!
    (if String.eqb (get modelMetadata "pred_threshold") "" then
       print "No pred_threshold variable exists. Defaults to 0.1."
     else
       let! _ := lift (stof fl (get modelMetadata "nms_threshold")) in
       ext "currNetwork->setThreshold" [get modelMetadata "nms_threshold"]) in
  run! print ("Current anchor file path: " +:+ model_path process_name "anchors") in
  run! read_anchor_file (anchors_lines w (model_path process_name "anchors")) in
  run! ext "currNetwork->setAnchors" [] in
  run! set_scale_factor "currNetwork" modelMetadata in
  run! currNetwork_setInferenceEngine "OpenVINO" in
  let! n := gets currNetwork in
  run! currNetwork_load (model_path process_name (preferred_extension w (engine n))) in
  run! ext "currNetwork->setInputConnection" [] in
  run! ext "NonMaximumSuppression::New" [] in
  run!
    (if String.eqb (get modelMetadata "nms_threshold") "" then
       print "No nms_threshold variable exists. Defaults to 0.5."
     else
       let! _ := lift (stof fl (get modelMetadata "nms_threshold")) in
       ext "nms->setThreshold" [get modelMetadata "nms_threshold"]) in
  run! ext "nms->setInputConnection" [] in
  run! ext "BoundingBoxSetAccumulator::New" [] in
  run! ext "boxAccum->setInputConnection" [] in
  run! ext "BoundingBoxRenderer::New" [] in
  run! ext "boxRenderer->setInputConnection" [] in
  insert_renderer (get modelMetadata "model_name") "BoundingBoxRenderer".

(** Lines 562-802: the tail of the pipeline, by problem and resolution.  Each
    branch ends with the registration of its renderer. *)
Definition register_result (process_name : string)
    (modelMetadata : gmap string string) (currLvl : Z) : M RunState unit :=
  let problem := get modelMetadata "problem" in
  let resolution := get modelMetadata "resolution" in
  if String.eqb problem "classification" && String.eqb resolution "high" then
    run! ext "PatchStitcher::New" [] in
    run! ext "stitcher->setInputConnection" [] in
    run! ext "HeatmapRenderer::New" [] in
    let! interpolation := stoi_of modelMetadata "interpolation" in
    run! ext "someRenderer->setInterpolation" [to_string interpolation] in
    run! ext "someRenderer->setInputConnection" [] in
    run! ext "someRenderer->setMaxOpacity" ["0.6"] in
    run! class_colors "someRenderer->setChannelColor" modelMetadata in
    insert_renderer (get modelMetadata "model_name") "HeatmapRenderer"
  else if String.eqb problem "segmentation" && String.eqb resolution "high" then
    run! ext "PatchStitcher::New" [] in
    run! ext "stitcher->setInputConnection" [] in
    run! ext "SegmentationRenderer::New" [] in
    run! ext "someRenderer->setOpacity" ["0.7"; "1.0"] in
    run! class_colors "someRenderer->setColor" modelMetadata in
    run! ext "someRenderer->setInputConnection" [] in
    insert_renderer (get modelMetadata "model_name") "SegmentationRenderer"
  else if String.eqb problem "object_detection" && String.eqb resolution "high" then
    object_detection process_name modelMetadata
  else if String.eqb problem "segmentation" && String.eqb resolution "low" then
    run! ext "access->getLevelAsImage" [to_string currLvl] in
    run! ext "ImageResizer::New" [] in
    run! ext "resizer2->setInputConnection" [] in
    run! ext "resizer2->setWidth" [] in
    run! ext "resizer2->setHeight" [] in
    run! ext "resizer2->update" [] in
    run! ext "currMap->setSpacing" [] in
    run! ext "SegmentationRenderer::New" [] in
    run! ext "someRenderer->setOpacity" ["0.4"] in
    run! class_colors "someRenderer->setColor" modelMetadata in
    run! ext "someRenderer->setInputData" [] in
    run! ext "someRenderer->update" [] in
    insert_renderer (get modelMetadata "model_name") "SegmentationRenderer"
  else ret tt.

(** Lines 363-371: the network object. *)
Definition new_network (modelMetadata : gmap string string) : M RunState unit :=
  run! ext "NeuralNetwork::New" [] in
  run! (if String.eqb (get modelMetadata "problem") "segmentation"
           && (String.eqb (get modelMetadata "resolution") "high"
               || String.eqb (get modelMetadata "resolution") "low")
        then ext "SegmentationNetwork::New" [] else ret tt) in
  modify (set_network (fun _ => fresh_network)).

(** Lines 373-803: engine selection and, when an engine was found
    ([checkFlag]), the rest of the pipeline. *)
Definition run_model (process_name : string) (modelMetadata : gmap string string)
    (accepted : list string) (patch_level currLvl : Z) : M RunState unit :=
  let! optimal_set := lift (selectOptimalInferenceEngine process_name) in
  if String.eqb optimal_set.2 "" then ret tt
  else
    run! network_setInferenceEngine optimal_set.1 in
    run! print "Model was found." in
    run! configure_network process_name modelMetadata accepted optimal_set.2 in
    run! connect_input modelMetadata patch_level in
    run! scale_input modelMetadata in
    register_result process_name modelMetadata currLvl.

(** Lines 275-805: the body of the [try] block. *)
Definition pixelClassifier_try (process_name : string) : M RunState unit :=
  let modelMetadata := model_metadata w process_name in
  run! ext "DataManager::GetInstance()->get_visible_image" [] in
  let! present := has_renderer (get modelMetadata "model_name") in
  if present then ret tt
  else
    let! patch_level := patch_lvl_model modelMetadata in
    run! print ("Curr patch level: " +:+ to_string patch_level) in
    run! ext "current_image_object->get_image_pyramid" [] in
    run! ext "currImage->getAccess" [] in
    run! ext "ImageResizer::New" [] in
    let! currLvl :=
      (if String.eqb (get modelMetadata "resolution") "low"
       then low_resolution modelMetadata else ret 0) in
    let! accepted := lift (acceptedModels process_name) in
    run! new_network modelMetadata in
    run! run_model process_name modelMetadata accepted patch_level currLvl in
    print "Inference thread is finished...".

(** Lines 271-811: the [catch (const std::exception& e)] of the function
    turns every exception of the body into a printed line. *)
Definition pixelClassifier (process_name : string) : M RunState unit :=
  fun st =>
    match pixelClassifier_try process_name st with
    | (Raise e, st') =>
        print ("Exception caught in the inference process: " +:+ what e) st'
    | (Return_, st') => (Val tt, st')
    | r => r
    end.

End Assembler.

(** ** Floating point read as real arithmetic

    The instance of the floating-point operations used to state the
    patch-level arithmetic: [float] values are real numbers and rounding
    error is left out. *)

Module RealFloat.

(** [(int)x] on a real: truncation toward zero. *)
Definition Rtrunc (x : R) : Z :=
  if Rle_dec 0 x then Int_part x else - Int_part (- x).

(** [(int)x] is undefined when the truncated value is no [int]. *)
Definition int_of_float (x : R) : Out Z := int_ (Rtrunc x).

(** Rounding to the nearest integer, halves away from zero. *)
Definition Rnearest (x : R) : Z :=
  if Rle_dec 0 x then Int_part (x + / 2) else - Int_part (- x + / 2).

(** [std::round] *)
Definition fround (x : R) : R := IZR (Rnearest x).

(** The digits after the decimal point: numerator and denominator of what
    was read so far. *)
Fixpoint read_fraction (s : string) (num den : Z) : Z * Z * string :=
  match s with
  | String c r =>
      match digit_of c with
      | Some d => read_fraction r (10 * num + d) (10 * den)
      | None => (num, den, s)
      end
  | EmptyString => (num, den, s)
  end.

Definition starts_with_any (cs : list ascii) (s : string) : bool :=
  match s with
  | String c _ => bool_decide (c ∈ cs)
  | EmptyString => false
  end.

Definition FLT_MAX : Z := 340282346638528859811704183484516925440.

(** The decimal number at the head of [s]: sign, numerator and denominator
    (a power of ten).  White space, sign, digits, an optional point and more
    digits are read; exponents, hexadecimal notation and the words [inf]
    and [nan] are outside this instance ([Undef]).  Without a digit,
    [std::stof] raises [std::invalid_argument]; beyond the range of [float],
    [std::out_of_range]. *)
Definition parse_decimal (s : string) : Out (bool * Z * Z) :=
  let '(neg, s1) := read_sign (skip_spaces s) in
  let '(ip, s2) := read_digits s1 None in
  let '(num, den, s3) :=
    match s2 with
    | String "." r => read_fraction r (default 0 ip) 1
    | _ => (default 0 ip, 1, s2)
    end in
  if bool_decide (ip = None) && (den =? 1) then
    if starts_with_any ["i"; "I"; "n"; "N"]%char s1 then Undef
    else Raise (invalid_argument "stof")
  else if starts_with_any ["e"; "E"; "x"; "X"]%char s3 then Undef
  else if FLT_MAX * den <? num then Raise (out_of_range "stof")
  else Val (neg, num, den).

(** [std::stof] *)
Definition stof (s : string) : Out R :=
  let? d := parse_decimal s in
  let '(neg, num, den) := d in
  Val (if neg : bool then (- (IZR num / IZR den))%R else (IZR num / IZR den)%R).

(** The floating-point operations over the reals. *)
Definition ops : Floats R :=
  Build_Floats R stof ln Rdiv fround IZR int_of_float.

End RealFloat.

(** ** The project store ([Project.cpp]) *)

(** Modelled from the spec: [WholeSlideImage] is declared outside the two
    files; a project needs the file path the image was opened from
    ([get_filename]) and whether a stored thumbnail was handed to its
    constructor. *)
Record WholeSlideImage : Type := {
  get_filename : string;
  with_thumbnail : bool;
}.

(** [std::shared_ptr<WholeSlideImage>]: [None] is the null pointer. *)
Definition shared_ptr (A : Type) : Type := option A.

Record Project : Type := {
  _root_folder : string;
  _temporary_dir_flag : bool;
  _images : gmap string (shared_ptr WholeSlideImage);
}.

Definition set_images (f : gmap string (shared_ptr WholeSlideImage) →
                           gmap string (shared_ptr WholeSlideImage))
    (p : Project) : Project :=
  {| _root_folder := _root_folder p;
     _temporary_dir_flag := _temporary_dir_flag p;
     _images := f (_images p) |}.

(** [this->_images[name]]: [operator[]] inserts a null pointer under a key
    that is absent. *)
Definition images_index (name : string) : M Project (shared_ptr WholeSlideImage) :=
  fun p =>
    match _images p !! name with
    | Some img => (Val img, p)
    | None => (Val None, set_images (insert name None) p)
    end.

(** Lines 60-65.  When the [if] fails, control reaches the closing brace of
    a function that returns a value: undefined behaviour. *)
Definition getImage (name : string) : M Project (shared_ptr WholeSlideImage) :=
  let! is_found := gets (fun p => bool_decide (is_Some (_images p !! name))) in
  if is_found then images_index name
  else lift Undef.

(** Lines 84-87. *)
Definition emptyProject : M Project unit := modify (set_images (fun _ => ∅)).

(** The files of the host: path to content.  A path is looked up with runs
    of slashes read as one slash, as the operating system does. *)
Fixpoint normalize (path : string) : string :=
  match path with
  | String "/" (String "/" _ as rest) => normalize rest
  | String c rest => String c (normalize rest)
  | EmptyString => EmptyString
  end.

Definition read_file (fs : gmap string string) (path : string) : option string :=
  fs !! normalize path.

Definition write_file (path content : string) (fs : gmap string string)
  : gmap string string :=
  <[normalize path := content]> fs.

Definition newline : string := String (ascii_of_nat 10) EmptyString.

(** The pieces of a text between line feeds; the last piece is what follows
    the last line feed (empty when the text ends with one). *)
Fixpoint pieces (text : string) : list string :=
  match text with
  | EmptyString => [EmptyString]
  | String c rest =>
      if Ascii.eqb c (ascii_of_nat 10) then EmptyString :: pieces rest
      else match pieces rest with
           | p :: ps => String c p :: ps
           | [] => [String c EmptyString]
           end
  end.

(** A line without the carriage return that may end it. *)
Fixpoint strip_cr (line : string) : string :=
  match line with
  | String c EmptyString =>
      if Ascii.eqb c (ascii_of_nat 13) then EmptyString else line
  | String c rest => String c (strip_cr rest)
  | EmptyString => EmptyString
  end.

(** [QTextStream::readLine] until [atEnd]: the lines of a text, without
    their end-of-line characters and without a last empty piece. *)
Definition read_lines (text : string) : list string :=
  let ps := pieces text in
  strip_cr <$> match List.last ps "" with
               | EmptyString => removelast ps
               | _ => ps
               end.

Section ProjectFiles.

Variable splitCustom : string → string → list string.

(** Line 188: the name of the thumbnail of an image file. *)
Definition thumbnail_name (filename : string) : Out string :=
  let? base := back (splitCustom filename "/") in
  at_ (splitCustom base ".") 0.

(** Lines 183-191: one image file per image of the project. *)
Fixpoint saveThumbnails (root : string)
    (images : list (string * shared_ptr WholeSlideImage))
    (fs : gmap string string) : Out (gmap string string) :=
  match images with
  | [] => Val fs
  | (_, None) :: _ => Undef
  | (_, Some wsi) :: rest =>
      let? name := thumbnail_name (get_filename wsi) in
      saveThumbnails root rest
        (write_file (root +:+ "/thumbnails/" +:+ name +:+ ".png")
                    ("thumbnail of " +:+ get_filename wsi) fs)
  end.

(** Lines 174-178: the text written to the manifest. *)
Fixpoint manifest (images : list (string * shared_ptr WholeSlideImage)) : Out string :=
  match images with
  | [] => Val ""
  | (_, None) :: _ => Undef
  | (uid, Some wsi) :: rest =>
      let? more := manifest rest in
      Val (uid +:+ "," +:+ get_filename wsi +:+ newline +:+ more)
  end.

(** Lines 165-181.  [file.resize(0)] and [open(ReadWrite)] leave an empty
    file at the path (the root folder exists); the images are written in the
    order of the map. *)
Definition saveProject (p : Project) (fs : gmap string string)
  : Out (gmap string string) :=
  let overall_filename := _root_folder p +:+ "/project.txt" in
  let? text := manifest (map_to_list (_images p)) in
  saveThumbnails (_root_folder p) (map_to_list (_images p))
    (write_file overall_filename text fs).

(** Lines 145-152: [fileNames] after the lines of the manifest. *)
Fixpoint parse_manifest (lines : list string) (fileNames : gmap string string)
  : Out (gmap string string) :=
  match lines with
  | [] => Val fileNames
  | line :: rest =>
      let? uid := front (splitCustom line ",") in
      let? filename := back (splitCustom line ",") in
      parse_manifest rest (<[uid := filename]> fileNames)
  end.

(** Lines 113-127, as a value: the image stored under [uid_name]. *)
Definition includeImageFromProject (root : string) (fs : gmap string string)
    (uid_name image_filepath : string) : shared_ptr WholeSlideImage :=
  let thumbnail_filename := root +:+ "/thumbnails" +:+ uid_name +:+ ".png" in
  Some {| get_filename := image_filepath;
          with_thumbnail := bool_decide (is_Some (read_file fs thumbnail_filename)) |}.

(** Lines 134-163. *)
Definition loadProject (fs : gmap string string) : M Project unit :=
  run! emptyProject in
  let! root := gets _root_folder in
  let projectFileName := "project.txt" in
  let! fileNames :=
    lift (match read_file fs (root +:+ projectFileName) with
          | Some text => parse_manifest (read_lines text) ∅
          | None => Val ∅
          end) in
  modify (set_images (fun images =>
    map_imap (fun uid filename => Some (includeImageFromProject root fs uid filename))
             fileNames ∪ images)).

End ProjectFiles.

(** ** Reloading results ([Project::loadResults]) *)

(** A renderer rebuilt from disk: its class, the payload file it is
    connected to, and the attributes set on it, in the order they were set. *)
Record Renderer : Type := {
  class_name : string;
  payload : string;
  attributes : list (string * string);
}.

(** One result set: the files of [<results>/<image>/<pipeline>/<output>/],
    name and content, in the order the directory lists them. *)
Definition ResultSet : Type := list (string * string).

(** [results/<image>/]: pipeline directories, each with its output
    directories, in directory order. *)
Definition ResultTree : Type := list (string * list (string * ResultSet)).

(** FAST's [join] of path components. *)
Definition join (a b : string) : string := a +:+ "/" +:+ b.

(** [filename.substr(filename.rfind('.'))]: the text from the last dot on;
    without a dot [rfind] is [npos] and [substr] raises. *)
Fixpoint from_last_dot (filename : string) : option string :=
  match filename with
  | EmptyString => None
  | String c rest =>
      match from_last_dot rest with
      | Some e => Some e
      | None => if Ascii.eqb c "."%char then Some filename else None
      end
  end.

Definition extension (filename : string) : Out string :=
  match from_last_dot filename with
  | Some e => Val e
  | None => Raise (out_of_range "basic_string::substr")
  end.

(** Lines 262-271: the renderer class for a payload file, if any. *)
Definition renderer_class (ext : string) : option string :=
  if String.eqb ext ".tiff" then Some "SegmentationRenderer"
  else if String.eqb ext ".mhd" then Some "SegmentationRenderer"
  else if String.eqb ext ".hdf5" then Some "HeatmapRenderer"
  else None.

(** [line.substr(pos)] *)
Definition substr_from (pos : nat) (line : string) : Out string :=
  if (String.length line <? pos)%nat then Raise (out_of_range "basic_string::substr")
  else Val (String.substring pos (String.length line - pos) line).

Definition lookup_file (name : string) (files : ResultSet) : option string :=
  snd <$> List.find (fun f => String.eqb (fst f) name) files.

Section LoadResults.

(** FAST's [trim] and [split] (on blanks), and what [getAttribute(name)]
    followed by [parseInput(values)] raises on a renderer of a class. *)
Variable trim : string → string.
Variable split : string → list string.
Variable attribute_error : string → string → string → option exn.

(** Lines 278-296: one pass of the [do] body on a line that [std::getline]
    read.  [None]: the [break] of line 285. *)
Definition replay_line (r : Renderer) (raw : string) : Out (option Renderer) :=
  let line := trim raw in
  let tokens := split line in
  let? t0 := at_ tokens 0 in
  if negb (String.eqb t0 "Attribute") then Val None
  else if (length tokens <? 3)%nat then
    Raise (Exception ("Expecting at least 3 items on attribute line when parsing object "
                      +:+ class_name r +:+ " but got " +:+ line))
  else
    let? name := at_ tokens 1 in
    let pos := match String.index 0 name line with
               | Some i => (i + String.length name)%nat
               | None => (String.length name - 1)%nat
               end in
    let? rest := substr_from pos line in
    let attributeValues := trim rest in
    match attribute_error (class_name r) name attributeValues with
    | Some e => Raise e
    | None =>
        Val (Some {| class_name := class_name r; payload := payload r;
                     attributes := (attributes r ++ [(name, attributeValues)])%list |})
    end.

(** Lines 277-297: the [do ... while (!file.eof())] loop over the pieces of
    the attribute file; the read of the last piece sets [eof]. *)
Fixpoint replay (r : Renderer) (ps : list string) : Out Renderer :=
  match ps with
  | [] => Val r
  | raw :: rest =>
      let? next := replay_line r raw in
      match next with
      | None => Val r
      | Some r' => replay r' rest
      end
  end.

(** Lines 259-300: one file of a result set.  [view] is the list of
    renderers of the view. *)
Definition load_file (folder : string) (files : ResultSet) (filename : string)
  : M (list Renderer) unit :=
  let path := join folder filename in
  let! ext := lift (extension filename) in
  match renderer_class ext with
  | None => ret tt
  | Some cls =>
      let renderer := {| class_name := cls; payload := path; attributes := [] |} in
      match lookup_file "attributes.txt" files with
      | None => lift (Raise (Exception ("Error reading " +:+ join folder "attributes.txt")))
      | Some text =>
          let! renderer' := lift (replay renderer (pieces text)) in
          modify (fun view => (view ++ [renderer'])%list)
      end
  end.

Fixpoint load_files (folder : string) (files : ResultSet) (names : list string)
  : M (list Renderer) unit :=
  match names with
  | [] => ret tt
  | filename :: rest =>
      run! load_file folder files filename in
      load_files folder files rest
  end.

(** Lines 256-302: the output directories of one pipeline. *)
Fixpoint load_outputs (folder : string) (outputs : list (string * ResultSet))
  : M (list Renderer) unit :=
  match outputs with
  | [] => ret tt
  | (dataName, files) :: rest =>
      run! load_files (join folder dataName) files (fst <$> files) in
      load_outputs folder rest
  end.

Fixpoint load_pipelines (saveFolder : string) (tree : ResultTree)
  : M (list Renderer) unit :=
  match tree with
  | [] => ret tt
  | (pipelineName, outputs) :: rest =>
      run! load_outputs (join saveFolder pipelineName) outputs in
      load_pipelines saveFolder rest
  end.

(** Lines 249-304.  [results] is [None] when the image has no result
    directory ([isDir] fails).  No [try] surrounds the loops: an exception
    leaves the function. *)
Definition loadResults (root wsi_uid : string) (results : option ResultTree)
  : M (list Renderer) unit :=
  let saveFolder := join (join root "results") wsi_uid in
  match results with
  | None => ret tt
  | Some tree => load_pipelines saveFolder tree
  end.

End LoadResults.

(** ** Instances used on concrete inputs *)

(** FAST's [split] on single blanks, empty parts dropped, and [trim] of
    white space at both ends, for concrete attribute files. *)
Fixpoint split_blank (s : string) (cur : string) : list string :=
  match s with
  | EmptyString => if String.eqb cur "" then [] else [cur]
  | String c rest =>
      if Ascii.eqb c " "%char then
        (if String.eqb cur "" then split_blank rest ""
         else cur :: split_blank rest "")
      else split_blank rest (cur +:+ String c EmptyString)
  end.

Definition fast_split (s : string) : list string :=
  match split_blank s "" with
  | [] => [""]
  | l => l
  end.

Fixpoint trim_left (s : string) : string :=
  match s with
  | String c rest => if isspace c then trim_left rest else s
  | EmptyString => s
  end.

Definition fast_trim (s : string) : string :=
  String.rev (trim_left (String.rev (trim_left s))).

(** Modelled from the spec: [splitCustom] of [source/utils/utilities.h] is
    not among the files; the specification describes the splitting as
    exact, case-sensitive substring splitting.  [skip] counts the
    characters of a matched delimiter that are still to be dropped.  Every
    call site passes a delimiter that is not empty. *)
Fixpoint split_go (delimiter s cur : string) (skip : nat) : list string :=
  match s with
  | EmptyString => [cur]
  | String c rest =>
      match skip with
      | S k => split_go delimiter rest cur k
      | O =>
          if String.prefix delimiter s
          then cur :: split_go delimiter rest "" (String.length delimiter - 1)
          else split_go delimiter rest (cur +:+ String c EmptyString) 0
      end
  end.

Definition splitCustom_model (s delimiter : string) : list string :=
  split_go delimiter s "" 0.

(** A three-level pyramid of 4096, 1024 and 256 pixels a side, and a model
    that takes 512 by 512 pixels. *)
Definition pyramid3 : gmap string string :=
  list_to_map
    [("openslide.level-count", "3");
     ("openslide.level[0].width", "4096"); ("openslide.level[0].height", "4096");
     ("openslide.level[1].width", "1024"); ("openslide.level[1].height", "1024");
     ("openslide.level[1].downsample", "4.0002");
     ("openslide.level[2].width", "256"); ("openslide.level[2].height", "256")].

Definition model512 : gmap string string :=
  list_to_map [("input_img_size_x", "512"); ("input_img_size_y", "512")].

(** A project of one slide, kept under a root folder. *)
Definition slide : WholeSlideImage :=
  {| get_filename := "/data/slide1.svs"; with_thumbnail := false |}.

Definition one_slide_project : Project :=
  {| _root_folder := "/home/user/study";
     _temporary_dir_flag := false;
     _images := {[ "slide1" := Some slide ]} |}.

(** Three result sets of one pipeline; the attribute file of the second has
    a line of two tokens. *)
Definition good_first : string * ResultSet :=
  ("a_mask", [("a_mask.mhd", "payload"); ("attributes.txt", "Attribute opacity 0.4" +:+ newline)]).

Definition bad_second : string * ResultSet :=
  ("b_mask", [("attributes.txt", "Attribute onlyonetoken" +:+ newline); ("b_mask.mhd", "payload")]).

Definition good_third : string * ResultSet :=
  ("c_heat", [("attributes.txt", "Attribute opacity 0.6" +:+ newline); ("c_heat.hdf5", "payload")]).

Definition no_attribute_error : string → string → string → option exn :=
  fun _ _ _ => None.

Definition a_mask_renderer : Renderer :=
  {| class_name := "SegmentationRenderer";
     payload := "/home/user/study/results/slide1/tumor/a_mask/a_mask.mhd";
     attributes := [("opacity", "0.4")] |}.

Definition c_heat_renderer : Renderer :=
  {| class_name := "HeatmapRenderer";
     payload := "/home/user/study/results/slide1/tumor/c_heat/c_heat.hdf5";
     attributes := [("opacity", "0.6")] |}.

(** The extension FAST's engines prefer. *)
Definition fast_preferred_extension (engine_name : string) : string :=
  if String.eqb engine_name "TensorFlow" then "pb"
  else if String.eqb engine_name "OpenVINO" then "xml"
  else if String.eqb engine_name "TensorRT" then "uff"
  else if String.eqb engine_name "ONNXRuntime" then "onnx"
  else "".

(** A host where no external call raises: the model's metadata, the files
    of its directory and the installed engines are given. *)
Definition host (modelMetadata : gmap string string) (files engines : list string)
  : World R :=
  {| splitCustom := splitCustom_model;
     models_filepath := "/home/user/fastpathology/data/Models";
     inference_engines := engines;
     model_metadata := fun _ => modelMetadata;
     image_metadata := pyramid3;
     magn_lvl := 40%R;
     model_files := fun _ => files;
     anchors_lines := fun _ => ["10,14 23,27 37,58 81,82 135,169 344,319"];
     preferred_extension := fast_preferred_extension;
     throws := fun _ _ => None |}.

Definition start : RunState :=
  {| renderers := ∅; cout := []; network := fresh_network; currNetwork := fresh_network |}.

(** A high-resolution segmentation model. *)
Definition tumor_model : gmap string string :=
  list_to_map
    [("model_name", "tumor"); ("name", "tumor"); ("problem", "segmentation");
     ("resolution", "high"); ("input_img_size_x", "256"); ("input_img_size_y", "256");
     ("nb_channels", "3"); ("nb_classes", "2"); ("class_colors", "0,0,0;255,0,0");
     ("scale_factor", "1/255"); ("tissue_threshold", "none"); ("cpu", "0")].

(** A high-resolution object-detection model. *)
Definition nuclei_model : gmap string string :=
  list_to_map
    [("model_name", "nuclei"); ("name", "nuclei"); ("problem", "object_detection");
     ("resolution", "high"); ("input_img_size_x", "256"); ("input_img_size_y", "256");
     ("nb_channels", "3"); ("nb_classes", "1"); ("scale_factor", "1/255");
     ("tissue_threshold", "none"); ("cpu", "0")].

(** ** The rest of [Project.cpp] and of [ProcessManager.cpp] *)

(** ** The image map of a project: iteration, indexing, inclusion *)

(** The order in which a [std::map] with string keys is iterated: keys
    ascending, compared character by character as unsigned values
    ([std::less<std::string>]). *)
Definition key_le {V : Type} (a b : string * V) : Prop := String.leb a.1 b.1 = true.

#[global] Instance key_le_dec {V : Type} : RelDecision (@key_le V) :=
  fun a b => decide (String.leb a.1 b.1 = true).

Definition in_key_order {V : Type} (m : gmap string V) : list (string * V) :=
  merge_sort key_le (map_to_list m).

(** Lines 67-75. *)
Definition getAllWsiUids (p : Project) : list string :=
  (in_key_order (_images p)).*1.

(** The conversion of an [int] to [size_t] (64 bits) in
    [i >= _images.size()]. *)
Definition to_size_t (i : Z) : Z := i mod 2 ^ 64.

(** Lines 241-247, [Project::getImage(int)].  [std::advance] by a negative
    count on [begin()] is undefined. *)
Definition getImage_int (i : Z) : M Project (shared_ptr WholeSlideImage) :=
  let! n := gets (fun p => Z.of_nat (size (_images p))) in
  if n <=? to_size_t i then
    lift (Raise (Exception "Out of bounds in Project::getImage"))
  else
    let! entries := gets (fun p => in_key_order (_images p)) in
    lift (if i <? 0 then Undef
          else match entries !! Z.to_nat i with
               | Some it => Val it.2
               | None => Undef
               end).

(** Lines 129-132. *)
Definition removeImage (uid : string) : M Project unit :=
  modify (set_images (delete uid)).

(** Lines 97-106: the [while] loop on the values that [rand()] returns from
    now on.  [None]: the loop is still running after all of [draws]. *)
Fixpoint fresh_name (images : gmap string (shared_ptr WholeSlideImage))
    (img_name_short : string) (draws : list Z) : option string :=
  match draws with
  | [] => None
  | r :: rest =>
      let rand_int := Z.rem r 10000 in
      let new_name := img_name_short +:+ "#" +:+ to_string rand_int in
      if bool_decide (images !! new_name = None) then Some new_name
      else fresh_name images img_name_short rest
  end.

Section ProjectImages.

Variable splitCustom : string → string → list string.

(** Line 92. *)
Definition short_name (image_filepath : string) : Out string :=
  let? base := back (splitCustom image_filepath "/") in
  front (splitCustom base ".").

(** Lines 89-111.  The image is built without a thumbnail; [None] when the
    loop of lines 97-106 does not end within [draws]. *)
Definition includeImage (draws : list Z) (image_filepath : string) (p : Project)
  : option (Out string * Project) :=
  let image := Some {| get_filename := image_filepath; with_thumbnail := false |} in
  match short_name image_filepath with
  | Val img_name_short =>
      let in_use := bool_decide (is_Some (_images p !! img_name_short)) in
      match (if in_use then fresh_name (_images p) img_name_short draws
             else Some img_name_short) with
      | Some uid => Some (Val uid, set_images (insert uid image) p)
      | None => None
      end
  | Raise e => Some (Raise e, p)
  | Return_ => Some (Return_, p)
  | Undef => Some (Undef, p)
  end.

End ProjectImages.

(** A project that holds an image under [slide1] and under every name
    [slide1#0] ... [slide1#9999]. *)
Definition crowded_names : list (string * shared_ptr WholeSlideImage) :=
  (fun k => ("slide1" +:+ "#" +:+ to_string k, Some slide)) <$> seqZ 0 10000.

Definition crowded_project : Project :=
  {| _root_folder := "/home/user/study";
     _temporary_dir_flag := false;
     _images := <["slide1" := Some slide]> (list_to_map crowded_names) |}.

(** Whether a path ends with a slash. *)
Fixpoint ends_with_slash (path : string) : bool :=
  match path with
  | EmptyString => false
  | String c EmptyString => Ascii.eqb c "/"
  | String _ rest => ends_with_slash rest
  end.

(** Whether a path starts with a slash. *)
Definition starts_with_slash (path : string) : bool :=
  match path with
  | String c _ => Ascii.eqb c "/"
  | EmptyString => false
  end.

Section Thumbnail.

Variable splitCustom : string → string → list string.

(** Lines 193-203: the files after the call and the lines it prints. *)
Definition saveThumbnail (p : Project) (wsi_uid : string) (fs : gmap string string)
  : Out (gmap string string * list string) :=
  match _images p !! wsi_uid with
  | Some (Some wsi) =>
      let? name := thumbnail_name splitCustom (get_filename wsi) in
      let dump_filename := _root_folder p +:+ "/thumbnails/" +:+ name +:+ ".png" in
      Val (write_file dump_filename ("thumbnail of " +:+ get_filename wsi) fs, [])
  | Some None => Undef
  | None =>
      Val (fs, ["Requested saving thumbnail for WSI named: " +:+ wsi_uid
                +:+ ", which is not in the project..."])
  end.

End Thumbnail.

(** ** Saving results ([Project::saveResults]) *)

(** FAST's [DataObject], as [saveResults] uses it: the function reads the
    name of its class, and its exporter writes its content. *)
Record DataObject : Type := {
  getNameOfClass : string;
  exported : string;
}.

(** A renderer of a pipeline: the name of its class and the text
    [attributesToString] gives. *)
Record PipelineRenderer : Type := {
  renderer_getNameOfClass : string;
  attributesToString : string;
}.

Record Pipeline : Type := {
  getName : string;
  getRenderers : list PipelineRenderer;
}.

(** Lines 232-237: the text of [attributes.txt]. *)
Fixpoint attributes_text (rs : list PipelineRenderer) : string :=
  match rs with
  | [] => ""
  | renderer :: rest =>
      if negb (String.eqb (renderer_getNameOfClass renderer) "ImagePyramidRenderer")
      then attributesToString renderer +:+ attributes_text rest
      else attributes_text rest
  end.

(** Lines 207-237, for one entry of [pipelineData]: the folder, the files
    written to it in the order they are written, and the lines printed.
    [createDirectories] and the exporters are taken to complete. *)
Definition save_data (root wsi_uid : string) (pipeline : Pipeline)
    (data : string * DataObject) : string * ResultSet * list string :=
  let dataTypeName := getNameOfClass data.2 in
  let dataName := data.1 in
  let saveFolder :=
    join (join (join (join root "results") wsi_uid) (getName pipeline)) dataName in
  let saving := "Saving " +:+ dataTypeName +:+ " data to " +:+ saveFolder in
  let attributes := ("attributes.txt", attributes_text (getRenderers pipeline)) in
  if String.eqb dataTypeName "ImagePyramid" then
    (saveFolder, [(data.1 +:+ ".tiff", exported data.2); attributes], [saving])
  else if String.eqb dataTypeName "Image" then
    (saveFolder, [(data.1 +:+ ".mhd", exported data.2); attributes], [saving])
  else if String.eqb dataTypeName "Tensor" then
    (saveFolder, [(data.1 +:+ ".hdf5", exported data.2); attributes], [saving])
  else
    (saveFolder, [attributes], [saving; "Unsupported data to export " +:+ dataTypeName]).

(** Lines 205-239: one folder per entry of [pipelineData], in the order of
    the map. *)
Definition saveResults (root wsi_uid : string) (pipeline : Pipeline)
    (pipelineData : gmap string DataObject) : list (string * ResultSet * list string) :=
  save_data root wsi_uid pipeline <$> in_key_order pipelineData.

(** ** The folders of a project (lines 24-58 and 77-82) *)

(** The names between the slashes of a path; [cur] is the name being
    read. *)
Fixpoint path_parts (path cur : string) : list string :=
  match path with
  | EmptyString => if String.eqb cur "" then [] else [cur]
  | String c rest =>
      if Ascii.eqb c "/" then
        (if String.eqb cur "" then path_parts rest ""
         else cur :: path_parts rest "")
      else path_parts rest (cur +:+ String c EmptyString)
  end.

(** The directories of the host, each as the list of its names from the
    root of the file system (which always exists). *)
Definition Dirs : Type := gset (list string).

(** [QDir(path).exists()] *)
Definition dir_exists (path : string) (ds : Dirs) : bool :=
  let d := path_parts path "" in
  bool_decide (d = [] ∨ d ∈ ds).

(** [QDir().mkdir(path)]: creates the directory when it does not exist and
    its parent does; parents are not created. *)
Definition mkdir (path : string) (ds : Dirs) : Dirs :=
  let d := path_parts path "" in
  if bool_decide ((d ≠ []) ∧ (d ∉ ds) ∧ (removelast d = [] ∨ removelast d ∈ ds))
  then {[ d ]} ∪ ds else ds.

(** [QDir().mkpath(path)]: creates the directory and every parent that is
    missing. *)
Definition mkpath (path : string) (ds : Dirs) : Dirs :=
  let d := path_parts path "" in
  list_to_set ((fun n => take n d) <$> seq 1 (length d)) ∪ ds.

(** [QDir().rmdir(path)]: removes the directory when it exists and holds
    neither a directory nor a file. *)
Definition rmdir (path : string) (ds : Dirs) (fs : gmap string string) : Dirs :=
  let d := path_parts path "" in
  if bool_decide (d ∈ ds
                  ∧ set_Forall (fun c => c = [] ∨ removelast c ≠ d) ds
                  ∧ map_Forall (fun k _ => removelast (path_parts k "") ≠ d) fs)
  then ds ∖ {[ d ]} else ds.

(** Lines 42-58. *)
Definition createFolderDirectoryArchitecture (p : Project) (ds : Dirs) : Dirs :=
  let ds1 := if negb (dir_exists (_root_folder p +:+ "/pipelines") ds)
             then mkdir (_root_folder p +:+ "/pipelines") ds else ds in
  let ds2 := if negb (dir_exists (_root_folder p +:+ "/results") ds1)
             then mkdir (_root_folder p +:+ "/results") ds1 else ds1 in
  if negb (dir_exists (_root_folder p +:+ "/thumbnails") ds2)
  then mkdir (_root_folder p +:+ "/thumbnails") ds2 else ds2.

(** Lines 24-33, with [QDir::tempPath()] and the digits that
    [createRandomNumbers_(8)] returns.  The [QTemporaryDir] of line 27 is a
    directory of its own, created there and removed when the constructor
    returns; the project folder is not inside it. *)
Definition Project_new (tempPath random_numbers : string) (ds : Dirs)
  : Project * Dirs * list string :=
  let root := tempPath +:+ "/project_" +:+ random_numbers in
  let ds1 := mkpath root ds in
  let p := {| _root_folder := root; _temporary_dir_flag := true; _images := ∅ |} in
  (p, createFolderDirectoryArchitecture p ds1,
   ["Temporary project folder is set to: " +:+ root]).

(** Lines 35-40: the directories after the destructor and the line it
    prints. *)
Definition Project_delete (p : Project) (ds : Dirs) (fs : gmap string string)
  : Dirs * list string :=
  (if _temporary_dir_flag p then rmdir (_root_folder p) ds fs else ds,
   ["Deleting temporary project folder: " +:+ _root_folder p]).

(** Lines 77-82. *)
Definition setRootFolder (root_folder : string) (p : Project) (ds : Dirs)
  : Project * Dirs :=
  let p' := {| _root_folder := root_folder; _temporary_dir_flag := false;
               _images := _images p |} in
  (p', createFolderDirectoryArchitecture p' ds).

(** ** [ProcessManager::identifySystem] and [ProcessManager::runProcess] *)

Section Manager.

Context {F : Type} (fl : Floats F) (w : World F).

(** Lines 78-86 and 90-97: the engine names among the files of the library
    folder; [marker] is what the file name must contain, [suffix] what ends
    the engine name. *)
Fixpoint engines_of (marker suffix : string) (tmpPaths : list string)
  : Out (list string) :=
  match tmpPaths with
  | [] => Val []
  | filePath :: rest =>
      if found marker filePath then
        let? tail := back (splitCustom w filePath marker) in
        let? name := at_ (splitCustom w tail suffix) 0 in
        let? more := engines_of marker suffix rest in
        Val (name :: more)
      else engines_of marker suffix rest
  end.

(** The line of lines 101-103. *)
Definition unsupported_kernel (kernel : string) : string :=
  "Current operating system is not using any of the supported kernels: linux and winnt. Current kernel is: "
  +:+ kernel.

(** Lines 65-105: the new value of [_inference_engines] and the lines
    printed, from [QSysInfo::productType()], [QSysInfo::kernelType()] and
    the files of the library folder. *)
Definition identifySystem (operating_system kernel : string) (tmpPaths : list string)
  : Out (list string) * list string :=
  let lines := ["Current OS is: " +:+ operating_system;
                "Current kernel is: " +:+ kernel] in
  if String.eqb kernel "linux" then
    (engines_of "libInferenceEngine" ".so" tmpPaths, lines)
  else if String.eqb kernel "winnt" || String.eqb kernel "wince" then
    (engines_of "InferenceEngine" ".dll" tmpPaths, lines)
  else (Val [], (lines ++ [unsupported_kernel kernel])%list).

(** The loops of lines 247-248 and 251-252 over the entries of the model's
    metadata. *)
Fixpoint print_entries (entries : list (string * string)) : M RunState unit :=
  match entries with
  | [] => ret tt
  | (k, v) :: rest =>
      run! print ("m[" +:+ k +:+ "] = (" +:+ v +:+ ") ") in
      print_entries rest
  end.

(** Lines 222-264.  [advanced_mode] is [_advanced_mode]. *)
Definition runProcess (advanced_mode : bool) (image_uid process_name : string)
  : M RunState unit :=
  if String.eqb process_name "tissue" then
    run! ext w "SegmentationProcess" [image_uid] in
    ext w "tissue_seg_process->segmentTissue" []
  else
    run! print ("Model name in wrapper: " +:+ process_name) in
    let modelMetadata := model_metadata w process_name in
    run! (if advanced_mode then
            let successFlag := 1 in
            if negb (successFlag =? 1) then lift Return_
            else print_entries (in_key_order modelMetadata)
          else ret tt) in
    run! print "Final model metadata config sent to pixelClassifier:" in
    run! print_entries (in_key_order modelMetadata) in
    pixelClassifier fl w process_name.

End Manager.

(** * Part II: the properties *)

(** ** Engine resolver *)

Lemma contains_elem_of (l : list string) (x : string) :
  contains l x = true ↔ x ∈ l.
Proof.
  unfold contains. rewrite existsb_exists. setoid_rewrite list_elem_of_In.
  split.
  - intros (y & Hy & Heq). apply String.eqb_eq in Heq. by subst.
  - intros Hin. exists x. split; [done | apply String.eqb_refl].
Qed.

Lemma contains_bool_decide (l : list string) (x : string) :
  contains l x = bool_decide (x ∈ (list_to_set l : gset string)).
Proof.
  destruct (contains l x) eqn:E; symmetry.
  - apply bool_decide_eq_true. apply elem_of_list_to_set.
    by apply contains_elem_of.
  - apply bool_decide_eq_false. rewrite elem_of_list_to_set.
    rewrite <- contains_elem_of. congruence.
Qed.

Lemma contains_Permutation (l l' : list string) (x : string) :
  l ≡ₚ l' → contains l x = contains l' x.
Proof.
  intros Hp. rewrite !contains_bool_decide.
  apply bool_decide_ext. rewrite !elem_of_list_to_set. by rewrite Hp.
Qed.

Lemma select_engine_spec (formats backends : list string) :
  select_engine formats backends
  = resolve_spec (list_to_set formats) (list_to_set backends).
Proof.
  unfold select_engine, resolve_spec, priority, candidate_ok. simpl.
  rewrite <- !contains_bool_decide.
  repeat (destruct (contains _ _ && contains _ _); [reflexivity |]).
  reflexivity.
Qed.

Lemma select_engine_Permutation (formats formats' backends backends' : list string) :
  formats' ≡ₚ formats → backends' ≡ₚ backends →
  select_engine formats' backends' = select_engine formats backends.
Proof.
  intros Hf Hb. unfold select_engine.
  by rewrite !(contains_Permutation _ _ _ Hf), !(contains_Permutation _ _ _ Hb).
Qed.

(** C1.  For every list of format extensions found on disk and every list of
    installed backends, the resolver returns the first candidate of the
    priority list (TensorRT, onnx), (TensorRT, uff), (OpenVINO, onnx),
    (OpenVINO, xml), (TensorFlow, pb) whose format is in the set of formats
    and whose backend is in the set of backends, and the empty pair when no
    candidate matches; listing the formats or the backends in another order
    gives the same pair; formats onnx and xml with backend OpenVINO give
    (OpenVINO, onnx). *)
Theorem select_engine_priority (formats backends : list string) :
  select_engine formats backends
    = resolve_spec (list_to_set formats) (list_to_set backends)
  ∧ (∀ formats' backends' : list string,
       formats' ≡ₚ formats → backends' ≡ₚ backends →
       select_engine formats' backends' = select_engine formats backends)
  ∧ (∀ (F : Type) (w : World F) (model_name : string),
       acceptedModels w model_name = Val formats →
       inference_engines w = backends →
       selectOptimalInferenceEngine w model_name
       = Val (resolve_spec (list_to_set formats) (list_to_set backends)))
  ∧ select_engine [".onnx"; ".xml"] ["OpenVINO"] = ("OpenVINO", "onnx").
Proof.
  split; [apply select_engine_spec |].
  split; [intros; by apply select_engine_Permutation |].
  split; [| reflexivity].
  intros F w model_name Hacc Heng.
  unfold selectOptimalInferenceEngine. rewrite Hacc, Heng. simpl.
  by rewrite select_engine_spec.
Qed.

(** The resolver applied to two listings of the same formats and backends. *)
Lemma select_engine_priority_witness :
  select_engine [".pb"; ".xml"; ".onnx"] ["TensorFlow"; "OpenVINO"]
    = ("OpenVINO", "onnx")
  ∧ select_engine [".onnx"; ".pb"; ".xml"] ["OpenVINO"; "TensorFlow"]
    = select_engine [".pb"; ".xml"; ".onnx"] ["TensorFlow"; "OpenVINO"].
Proof.
  split; [reflexivity |].
  destruct (select_engine_priority [".pb"; ".xml"; ".onnx"] ["TensorFlow"; "OpenVINO"])
    as (_ & Horder & _ & _).
  apply Horder.
  - apply (Permutation_cons_append [".pb"; ".xml"] ".onnx").
  - apply perm_swap.
Defined.

(** ** Low-resolution level choice *)

Lemma obind_Val {A B : Type} (o : Out A) (k : A → Out B) (b : B) :
  obind o k = Val b → ∃ a, o = Val a ∧ k a = Val b.
Proof. destruct o; simpl; intros H; try discriminate. eauto. Qed.

(** Whatever the scan finds, the level the code uses is the coarsest one. *)
Lemma low_res_currLvl_coarsest (metadata modelMetadata : gmap string string) (l : Z) :
  low_res_currLvl metadata modelMetadata = Val l →
  ∃ levelCount, stoi (get metadata "openslide.level-count") = Val levelCount
                ∧ l = levelCount - 1.
Proof.
  unfold low_res_currLvl. intros H.
  apply obind_Val in H as (n & Hn & H).
  apply obind_Val in H as (iw & _ & H).
  apply obind_Val in H as (ih & _ & H).
  apply obind_Val in H as (s & _ & H).
  exists n. split; [done |].
  unfold int_ in H. destruct (_ && _); congruence.
Qed.

(** C2.  On the pyramid above the scan stops at level 1, whose side of 1024
    pixels is at most twice the model's 512, so the level the specification
    selects is level 0; the code discards what the scan found and uses the
    coarsest level, 2, whose side is 256 pixels. *)
Theorem low_res_currLvl_discards_scan :
  scan_levels pyramid3 3 0 512 512 = Val (Some 0)
  ∧ low_res_currLvl_spec pyramid3 model512 = Val 0
  ∧ low_res_currLvl pyramid3 model512 = Val 2.
Proof. repeat split; vm_compute; reflexivity. Qed.

(** ** The project store *)

(** C10.  [getImage name] returns the image stored under [name] and leaves
    the project as it was when [name] is a key of the image map; for every
    other name it falls off the end of the function without a value, which
    the embedding shows as the explicit outcome [Undef]. *)
Theorem getImage_defined_iff_present (p : Project) (name : string) :
  getImage name p
  = (match _images p !! name with
     | Some img => Val img
     | None => Undef
     end, p).
Proof.
  unfold getImage, bind, gets, images_index, lift.
  destruct (_images p !! name) as [img |] eqn:E.
  - rewrite bool_decide_eq_true_2 by eauto. by rewrite E.
  - rewrite bool_decide_eq_false_2; [done |].
    intros [x Hx]. congruence.
Qed.

(** With a root folder that ends in a slash the two paths name the same
    file, and the saved project is read back. *)
Example save_then_load_with_trailing_slash :
  let p := {| _root_folder := "/home/user/study/";
              _temporary_dir_flag := false;
              _images := {[ "slide1" := Some slide ]} |} in
  match saveProject splitCustom_model p ∅ with
  | Val fs => loadProject splitCustom_model fs p = (Val tt, p)
  | _ => False
  end.
Proof. vm_compute. reflexivity. Qed.

(** C9.  Saving the one-slide project writes the manifest line
    [slide1,/data/slide1.svs] to [/home/user/study/project.txt]; loading
    from the same root reads [/home/user/studyproject.txt], a path nothing
    was written to, and leaves the project without images. *)
Theorem save_then_load_loses_images :
  match saveProject splitCustom_model one_slide_project ∅ with
  | Val fs =>
      read_file fs "/home/user/study/project.txt"
        = Some ("slide1,/data/slide1.svs" +:+ newline)
      ∧ read_file fs "/home/user/studyproject.txt" = None
      ∧ loadProject splitCustom_model fs one_slide_project
        = (Val tt, set_images (fun _ => ∅) one_slide_project)
  | _ => False
  end
  ∧ _images one_slide_project !! "slide1" = Some (Some slide).
Proof. vm_compute. repeat split. Qed.

(** ** Reloading results *)

Lemma bind_assoc {S A B C : Type} (m : M S A) (f : A → M S B) (g : B → M S C) (st : S) :
  bind (bind m f) g st = bind m (fun a => bind (f a) g) st.
Proof. unfold bind. destruct (m st) as [[a | e | |] st']; reflexivity. Qed.

Lemma bind_Val {S A B : Type} (m : M S A) (k : A → M S B) (st st' : S) (a : A) :
  m st = (Val a, st') → bind m k st = k a st'.
Proof. unfold bind. by intros ->. Qed.

Lemma bind_Raise {S A B : Type} (m : M S A) (k : A → M S B) (st st' : S) (e : exn) :
  m st = (Raise e, st') → bind m k st = (Raise e, st').
Proof. unfold bind. by intros ->. Qed.

Section LoadResultsFacts.

Variable trim : string → string.
Variable split : string → list string.
Variable attribute_error : string → string → string → option exn.

(** The result sets of a tree, each with its folder, in the order the loops
    visit them. *)
Definition result_sets (saveFolder : string) (tree : ResultTree)
  : list (string * ResultSet) :=
  tree ≫= fun po =>
    (fun o => (join (join saveFolder po.1) o.1, o.2)) <$> po.2.

(** Loading a list of result sets one after the other. *)
Fixpoint load_sets (sets : list (string * ResultSet)) : M (list Renderer) unit :=
  match sets with
  | [] => ret tt
  | (folder, files) :: rest =>
      run! load_files trim split attribute_error folder files (fst <$> files) in
      load_sets rest
  end.

Lemma load_sets_app (xs ys : list (string * ResultSet)) (view : list Renderer) :
  load_sets (xs ++ ys) view = bind (load_sets xs) (fun _ => load_sets ys) view.
Proof.
  revert view. induction xs as [| [folder files] xs IH]; intros view; simpl.
  - reflexivity.
  - rewrite bind_assoc. unfold bind.
    destruct (load_files _ _ _ _ _ _ view) as [[[] | e | |] v]; try reflexivity.
    rewrite IH. reflexivity.
Qed.

Lemma load_outputs_sets (folder : string) (outputs : list (string * ResultSet))
    (view : list Renderer) :
  load_outputs trim split attribute_error folder outputs view
  = load_sets ((fun o => (join folder o.1, o.2)) <$> outputs) view.
Proof.
  revert view. induction outputs as [| [dataName files] outputs IH]; intros view; simpl.
  - reflexivity.
  - unfold bind. destruct (load_files _ _ _ _ _ _ view) as [[[] | e | |] v]; auto.
Qed.

Lemma load_pipelines_sets (saveFolder : string) (tree : ResultTree)
    (view : list Renderer) :
  load_pipelines trim split attribute_error saveFolder tree view
  = load_sets (result_sets saveFolder tree) view.
Proof.
  revert view. induction tree as [| [pipelineName outputs] tree IH]; intros view.
  - reflexivity.
  - simpl. unfold result_sets. simpl. fold (result_sets saveFolder tree).
    rewrite load_sets_app. unfold bind.
    rewrite load_outputs_sets.
    destruct (load_sets _ view) as [[[] | e | |] v]; auto.
Qed.

(** An attribute file whose replay reaches a line that starts with
    [Attribute] and has fewer than three tokens. *)
Inductive reaches_malformed : Renderer → list string → Prop :=
| malformed_here (r : Renderer) (raw : string) (rest : list string) :
    at_ (split (trim raw)) 0 = Val "Attribute" →
    (length (split (trim raw)) < 3)%nat →
    reaches_malformed r (raw :: rest)
| malformed_later (r r' : Renderer) (raw : string) (rest : list string) :
    replay_line trim split attribute_error r raw = Val (Some r') →
    reaches_malformed r' rest →
    reaches_malformed r (raw :: rest).

Lemma replay_malformed (r : Renderer) (ps : list string) :
  reaches_malformed r ps →
  ∃ msg, replay trim split attribute_error r ps = Raise (Exception msg).
Proof.
  induction 1 as [r raw rest H0 Hlen | r r' raw rest Hline _ IH]; simpl.
  - unfold replay_line. rewrite H0. simpl.
    apply Nat.ltb_lt in Hlen. rewrite Hlen. simpl. eauto.
  - rewrite Hline. simpl. exact IH.
Qed.

(** A file of a result set for which no renderer is built. *)
Definition not_a_payload (filename : string) : Prop :=
  ∃ ext, extension filename = Val ext ∧ renderer_class ext = None.

(** A result set that cannot be loaded: the first file of its listing for
    which a renderer is built meets an attribute file that is missing or
    that reaches a malformed line. *)
Definition unloadable (files : ResultSet) : Prop :=
  ∃ before filename content others ext cls,
    files = (before ++ (filename, content) :: others)%list
    ∧ Forall (fun f => not_a_payload f.1) before
    ∧ extension filename = Val ext
    ∧ renderer_class ext = Some cls
    ∧ (lookup_file "attributes.txt" files = None
       ∨ ∃ text, lookup_file "attributes.txt" files = Some text
                 ∧ ∀ r, reaches_malformed r (pieces text)).

Lemma load_file_not_a_payload (folder : string) (files : ResultSet)
    (filename : string) (view : list Renderer) :
  not_a_payload filename →
  load_file trim split attribute_error folder files filename view = (Val tt, view).
Proof.
  intros (ext & Hext & Hcls). unfold load_file. cbv [bind lift].
  rewrite Hext. cbv beta iota. by rewrite Hcls.
Qed.

Lemma load_file_fails (folder : string) (files : ResultSet)
    (filename ext cls : string) (view : list Renderer) :
  extension filename = Val ext →
  renderer_class ext = Some cls →
  (lookup_file "attributes.txt" files = None
   ∨ ∃ text, lookup_file "attributes.txt" files = Some text
             ∧ ∀ r, reaches_malformed r (pieces text)) →
  ∃ msg, load_file trim split attribute_error folder files filename view
         = (Raise (Exception msg), view).
Proof.
  intros Hext Hcls Hattr. unfold load_file. cbv [bind lift].
  rewrite Hext. cbv beta iota. rewrite Hcls.
  destruct Hattr as [Hnone | (text & Hsome & Hbad)].
  - rewrite Hnone. eauto.
  - rewrite Hsome.
    destruct (replay_malformed _ _ (Hbad {| class_name := cls; payload := join folder filename;
                                            attributes := [] |})) as [msg ->].
    eauto.
Qed.

Lemma load_files_unloadable (folder : string) (files : ResultSet)
    (view : list Renderer) :
  unloadable files →
  ∃ msg, load_files trim split attribute_error folder files (fst <$> files) view
         = (Raise (Exception msg), view).
Proof.
  intros (before & filename & content & others & ext & cls & Hfiles & Hskip
          & Hext & Hcls & Hattr).
  destruct (load_file_fails folder files filename ext cls view Hext Hcls Hattr)
    as [msg Hmsg].
  exists msg. rewrite Hfiles at 2. rewrite fmap_app. simpl.
  clear Hfiles. induction Hskip as [| f before Hf _ IH]; simpl.
  - by rewrite (bind_Raise _ _ _ _ _ Hmsg).
  - by rewrite (bind_Val _ _ _ _ _ (load_file_not_a_payload folder files _ view Hf)).
Qed.

End LoadResultsFacts.

(** C4 (as amended).  [loadResults] has no handler of its own: when the
    loops reach a result set whose attribute file is missing, or reaches a
    line that starts with [Attribute] and has fewer than three tokens, the
    exception leaves [loadResults].  The result sets that precede it in
    directory order have been loaded and their renderers added to the view
    ([view1]); the failing set and every set after it are not loaded. *)
Theorem loadResults_aborts_at_first_failure
    (trim : string → string) (split : string → list string)
    (attribute_error : string → string → string → option exn)
    (root wsi_uid : string) (tree : ResultTree)
    (pre post : list (string * ResultSet)) (folder : string) (files : ResultSet)
    (view view1 : list Renderer) :
  result_sets (join (join root "results") wsi_uid) tree
    = (pre ++ (folder, files) :: post)%list →
  load_sets trim split attribute_error pre view = (Val tt, view1) →
  unloadable trim split attribute_error files →
  ∃ msg, loadResults trim split attribute_error root wsi_uid (Some tree) view
         = (Raise (Exception msg), view1).
Proof.
  intros Hsets Hpre Hbad. unfold loadResults.
  rewrite load_pipelines_sets, Hsets, load_sets_app.
  rewrite (bind_Val _ _ _ _ _ Hpre). simpl.
  destruct (load_files_unloadable trim split attribute_error folder files view1 Hbad)
    as [msg Hmsg].
  exists msg. by apply bind_Raise.
Qed.

(** The theorem on the three sets: the first set is in the view, the load
    ends with the exception of the second. *)
Lemma loadResults_aborts_at_first_failure_witness :
  ∃ msg,
    loadResults fast_trim fast_split no_attribute_error "/home/user/study" "slide1"
      (Some [("tumor", [good_first; bad_second; good_third])]) []
    = (Raise (Exception msg), [a_mask_renderer]).
Proof.
  apply (loadResults_aborts_at_first_failure fast_trim fast_split no_attribute_error
           "/home/user/study" "slide1" [("tumor", [good_first; bad_second; good_third])]
           [("/home/user/study/results/slide1/tumor/a_mask", good_first.2)]
           [("/home/user/study/results/slide1/tumor/c_heat", good_third.2)]
           "/home/user/study/results/slide1/tumor/b_mask" bad_second.2).
  - vm_compute. reflexivity.
  - vm_compute. reflexivity.
  - exists [("attributes.txt", "Attribute onlyonetoken" +:+ newline)],
      "b_mask.mhd", "payload", [], ".mhd", "SegmentationRenderer".
    split; [reflexivity |]. split.
    { constructor; [| constructor]. exists ".txt". split; reflexivity. }
    split; [reflexivity |]. split; [reflexivity |].
    right. exists ("Attribute onlyonetoken" +:+ newline).
    split; [vm_compute; reflexivity |].
    intros r. apply malformed_here; vm_compute; [reflexivity | lia].
Defined.

(** C4 (as stated) fails: with the malformed set listed first, the sibling
    set after it is not loaded and the view stays empty, although the
    sibling loads when it is alone. *)
Lemma loadResults_sibling_not_loaded :
  loadResults fast_trim fast_split no_attribute_error "/home/user/study" "slide1"
    (Some [("tumor", [bad_second; good_third])]) []
  = (Raise (Exception "Expecting at least 3 items on attribute line when parsing object SegmentationRenderer but got Attribute onlyonetoken"),
     [])
  ∧ loadResults fast_trim fast_split no_attribute_error "/home/user/study" "slide1"
      (Some [("tumor", [good_third])]) []
    = (Val tt, [c_heat_renderer]).
Proof. split; vm_compute; reflexivity. Qed.

(** ** [pixelClassifier]: what a run does to its state *)

(** [m] never changes the state. *)
Definition silent {A : Type} (m : M RunState A) : Prop :=
  ∀ st, (m st).2 = st.

(** [m] never changes the part [proj] of the state. *)
Definition preserves {A B : Type} (proj : RunState → B) (m : M RunState A) : Prop :=
  ∀ st, proj (m st).2 = proj st.



Lemma silent_ret {A : Type} (a : A) : silent (ret a).
Proof. by intros st. Qed.

Lemma silent_lift {A : Type} (o : Out A) : silent (lift o).
Proof. by intros st. Qed.

Lemma silent_gets {A : Type} (f : RunState → A) : silent (gets f).
Proof. by intros st. Qed.

Lemma silent_bind {A B : Type} (m : M RunState A) (k : A → M RunState B) :
  silent m → (∀ a, silent (k a)) → silent (bind m k).
Proof.
  intros Hm Hk st. unfold bind. specialize (Hm st).
  destruct (m st) as [[a | e | |] st']; simpl in *; try done.
  rewrite Hk. done.
Qed.

Lemma silent_if {A : Type} (c : bool) (m1 m2 : M RunState A) :
  silent m1 → silent m2 → silent (if c then m1 else m2).
Proof. by destruct c. Qed.

Lemma preserves_silent {A B : Type} (proj : RunState → B) (m : M RunState A) :
  silent m → preserves proj m.
Proof. intros H st. by rewrite H. Qed.

Lemma preserves_modify {B : Type} (proj : RunState → B) (f : RunState → RunState) :
  (∀ st, proj (f st) = proj st) → preserves proj (modify f).
Proof. intros H st. apply H. Qed.

Lemma preserves_bind {A B C : Type} (proj : RunState → C)
    (m : M RunState A) (k : A → M RunState B) :
  preserves proj m → (∀ a, preserves proj (k a)) → preserves proj (bind m k).
Proof.
  intros Hm Hk st. unfold bind. specialize (Hm st).
  destruct (m st) as [[a | e | |] st']; simpl in *; try done.
  by rewrite Hk.
Qed.

Lemma preserves_if {A B : Type} (proj : RunState → B) (c : bool) (m1 m2 : M RunState A) :
  preserves proj m1 → preserves proj m2 → preserves proj (if c then m1 else m2).
Proof. by destruct c. Qed.







(** What a completed [bind] went through. *)
Lemma bind_inv {S A B : Type} (m : M S A) (k : A → M S B) (st st' : S) (b : B) :
  bind m k st = (Val b, st') →
  ∃ a st1, m st = (Val a, st1) ∧ k a st1 = (Val b, st').
Proof.
  unfold bind. destruct (m st) as [[a | e | |] st1]; intros H; try discriminate.
  eauto.
Qed.

Create HintDb frame.
#[export] Hint Resolve silent_ret silent_lift silent_gets : frame.

(** Walk a piece of code made of [bind], [if] and the primitives. *)
Ltac silent_step :=
  match goal with
  | |- silent (bind _ _) => apply silent_bind; [| intros ?]
  | |- silent (if _ then _ else _) => apply silent_if
  | |- silent (match ?x with _ => _ end) => destruct x
  | |- silent _ => solve [eauto with frame]
  end.

Ltac silent_tac := repeat silent_step.

Ltac preserves_step :=
  match goal with
  | |- preserves _ (bind _ _) => apply preserves_bind; [| intros ?]
  | |- preserves _ (if _ then _ else _) => apply preserves_if
  | |- preserves _ (match ?x with _ => _ end) => destruct x
  | |- preserves _ (print _) => apply preserves_modify; intros ?; reflexivity
  | |- preserves _ (modify _) => apply preserves_modify; intros ?; reflexivity
  | |- preserves _ _ => solve [apply preserves_silent; silent_tac]
  | |- preserves _ _ => solve [eauto with frame]
  end.

Ltac preserves_tac := repeat preserves_step.

Section Frame.

Context {F : Type} (fl : Floats F) (w : World F).

Lemma silent_ext (name : string) (args : list string) : silent (ext w name args).
Proof. apply silent_lift. Qed.

Lemma silent_stoi_of (modelMetadata : gmap string string) (key : string) :
  silent (stoi_of modelMetadata key).
Proof. apply silent_lift. Qed.

Lemma silent_stoi_at (v : list string) (i : nat) : silent (stoi_at v i).
Proof. apply silent_lift. Qed.

Hint Resolve silent_ext silent_stoi_of silent_stoi_at : frame.

Lemma silent_configure_nodes (modelMetadata : gmap string string) (chosenIE : string) :
  silent (configure_nodes w modelMetadata chosenIE).
Proof. unfold configure_nodes. silent_tac. Qed.

Lemma silent_set_scale_factor (object : string) (modelMetadata : gmap string string) :
  silent (set_scale_factor w object modelMetadata).
Proof. unfold set_scale_factor. silent_tac. Qed.

Lemma silent_set_colors (setter : string) (colors : list string) (n i : nat) :
  silent (set_colors w setter colors n i).
Proof. revert i. induction n as [| n IH]; intros i; simpl; silent_tac. Qed.

Hint Resolve silent_set_colors : frame.

Lemma silent_class_colors (setter : string) (modelMetadata : gmap string string) :
  silent (class_colors w setter modelMetadata).
Proof. unfold class_colors. silent_tac. Qed.

Lemma silent_read_anchors (anchorVector : list string) (n cntr : nat) :
  silent (read_anchors w anchorVector n cntr).
Proof. revert cntr. induction n as [| n IH]; intros cntr; simpl; silent_tac. Qed.

Hint Resolve silent_read_anchors : frame.

Lemma silent_read_anchor_file (lines : list string) :
  silent (read_anchor_file w lines).
Proof. induction lines as [| l lines IH]; simpl; silent_tac. Qed.

Hint Resolve silent_configure_nodes silent_set_scale_factor silent_class_colors
  silent_read_anchor_file : frame.

(** Everything before the registration keeps the renderer map. *)
Lemma keeps_patch_lvl_model (modelMetadata : gmap string string) :
  preserves renderers (patch_lvl_model fl w modelMetadata).
Proof. unfold patch_lvl_model. preserves_tac. Qed.

Lemma keeps_low_resolution (modelMetadata : gmap string string) :
  preserves renderers (low_resolution w modelMetadata).
Proof. unfold low_resolution. preserves_tac. Qed.

Lemma keeps_configure_network (process_name : string)
    (modelMetadata : gmap string string) (accepted : list string) (chosenIE : string) :
  preserves renderers (configure_network w process_name modelMetadata accepted chosenIE).
Proof.
  unfold configure_network, cpu_override, preselected_engine, load_model,
    network_setInferenceEngine, network_setDeviceTypeCPU, network_load.
  preserves_tac.
Qed.

Lemma keeps_connect_input (modelMetadata : gmap string string) (patch_level : Z) :
  preserves renderers (connect_input fl w modelMetadata patch_level).
Proof. unfold connect_input. preserves_tac. Qed.

Lemma keeps_scale_input (modelMetadata : gmap string string) :
  preserves renderers (scale_input w modelMetadata).
Proof. unfold scale_input. preserves_tac. Qed.

Lemma keeps_new_network (modelMetadata : gmap string string) :
  preserves renderers (new_network w modelMetadata).
Proof. unfold new_network. preserves_tac. Qed.

Lemma keeps_network_setInferenceEngine (name : string) :
  preserves renderers (network_setInferenceEngine w name).
Proof. unfold network_setInferenceEngine. preserves_tac. Qed.

Lemma keeps_currNetwork_setInferenceEngine (name : string) :
  preserves renderers (currNetwork_setInferenceEngine w name).
Proof. unfold currNetwork_setInferenceEngine. preserves_tac. Qed.

Lemma keeps_currNetwork_load (path : string) :
  preserves renderers (currNetwork_load w path).
Proof. unfold currNetwork_load. preserves_tac. Qed.

Hint Resolve keeps_patch_lvl_model keeps_low_resolution keeps_configure_network
  keeps_connect_input keeps_scale_input keeps_new_network
  keeps_network_setInferenceEngine keeps_currNetwork_setInferenceEngine
  keeps_currNetwork_load : frame.






(** Without an engine the run keeps the whole state. *)
Lemma run_model_no_engine (process_name : string) (modelMetadata : gmap string string)
    (accepted : list string) (patch_level currLvl : Z) (backend : string) (st : RunState) :
  selectOptimalInferenceEngine w process_name = Val (backend, "") →
  run_model fl w process_name modelMetadata accepted patch_level currLvl st = (Val tt, st).
Proof. intros H. unfold run_model, bind, lift. by rewrite H. Qed.


End Frame.


(** ** Concrete runs *)

Example tumor_run_registers :
  let st := (pixelClassifier RealFloat.ops (host tumor_model ["tumor.onnx"] ["OpenVINO"])
               "tumor" start).2 in
  map_to_list (renderers st) = [("tumor", "SegmentationRenderer")]
  ∧ network st = {| engine := "OpenVINO"; device_cpu := false;
                    model_file := Some "/home/user/fastpathology/data/Models/tumor/tumor.onnx" |}.
Proof. vm_compute. split; reflexivity. Qed.


(** ** The engine a run configures *)

Section Engines.

Context {F : Type} (fl : Floats F) (w : World F).

Lemma silent_Val {A : Type} (m : M RunState A) (st st' : RunState) (o : Out A) :
  silent m → m st = (o, st') → st' = st.
Proof. intros Hs H. specialize (Hs st). rewrite H in Hs. done. Qed.

Lemma network_setInferenceEngine_inv (name : string) (st st' : RunState) (u : unit) :
  network_setInferenceEngine w name st = (Val u, st') →
  st' = set_network (fun _ => {| engine := name; device_cpu := false; model_file := None |}) st.
Proof.
  unfold network_setInferenceEngine. intros H.
  apply bind_inv in H as (a & st1 & Hext & Hmod).
  apply (silent_Val _ _ _ _ (silent_ext w _ _)) in Hext as ->.
  unfold modify in Hmod. congruence.
Qed.

Lemma network_setDeviceTypeCPU_inv (st st' : RunState) (u : unit) :
  network_setDeviceTypeCPU w st = (Val u, st') →
  st' = set_network (fun n => {| engine := engine n; device_cpu := true;
                                 model_file := model_file n |}) st.
Proof.
  unfold network_setDeviceTypeCPU. intros H.
  apply bind_inv in H as (a & st1 & Hext & Hmod).
  apply (silent_Val _ _ _ _ (silent_ext w _ _)) in Hext as ->.
  unfold modify in Hmod. congruence.
Qed.

Lemma network_load_inv (path : string) (st st' : RunState) (u : unit) :
  network_load w path st = (Val u, st') →
  st' = set_network (fun n => {| engine := engine n; device_cpu := device_cpu n;
                                 model_file := Some path |}) st.
Proof.
  unfold network_load. intros H.
  apply bind_inv in H as (a & st1 & Hext & Hmod).
  apply (silent_Val _ _ _ _ (silent_ext w _ _)) in Hext as ->.
  unfold modify in Hmod. congruence.
Qed.

(** The preselected engine replaces whatever was configured before. *)
Lemma preselected_engine_pinned (modelMetadata : gmap string string)
    (chosenIE chosenIE' ie : string) (st st' : RunState) :
  modelMetadata !! "IE" = Some ie → ie ≠ "none" →
  preselected_engine w modelMetadata chosenIE st = (Val chosenIE', st') →
  chosenIE' = preferred_extension w ie
  ∧ network st' = {| engine := ie; device_cpu := false; model_file := None |}.
Proof.
  intros Hie Hnone. unfold preselected_engine, get. rewrite Hie. simpl.
  destruct (String.eqb_spec ie "none") as [-> | _]; [done |]. simpl.
  intros H.
  apply bind_inv in H as ([] & st1 & _ & H).
  apply bind_inv in H as ([] & st2 & Hset & H).
  apply network_setInferenceEngine_inv in Hset as ->.
  unfold bind, gets, ret in H. simpl in H.
  injection H as <- <-. done.
Qed.

(** The file that is loaded has the extension the configured engine
    prefers, unless the engine is TensorRT or OpenVINO. *)
Lemma load_model_file (process_name chosenIE : string) (st st' : RunState) :
  load_model w process_name chosenIE st = (Val tt, st') →
  engine (network st') = engine (network st)
  ∧ model_file (network st')
    = Some (model_path w process_name
              (if negb (String.eqb (engine (network st)) "TensorRT")
                  && negb (String.eqb (engine (network st)) "OpenVINO")
               then preferred_extension w (engine (network st))
               else chosenIE)).
Proof.
  unfold load_model. intros H.
  apply bind_inv in H as (n & st1 & Hn & H).
  unfold gets in Hn. injection Hn as <- <-.
  apply network_load_inv in H as ->. done.
Qed.

End Engines.

(** C6 (as amended).  The priority search always runs first.  When it finds
    a match and the network configuration completes, a model that
    preselects an engine (key [IE] present and not [none]) ends with that
    engine configured, whatever pair the search returned, and its model file
    is the one with the extension the preselected engine prefers.  When the
    search finds no match the run configures nothing: the preselection is
    not consulted. *)
Theorem preselected_engine_used_after_search {F : Type} (fl : Floats F) (w : World F)
    (process_name : string) (modelMetadata : gmap string string)
    (accepted : list string) (chosenIE ie : string) (st st' : RunState) :
  modelMetadata !! "IE" = Some ie → ie ≠ "none" →
  configure_network w process_name modelMetadata accepted chosenIE st = (Val tt, st') →
  engine (network st') = ie
  ∧ model_file (network st')
    = Some (model_path w process_name (preferred_extension w ie))
  ∧ (∀ backend patch_level currLvl st0,
       selectOptimalInferenceEngine w process_name = Val (backend, "") →
       run_model fl w process_name modelMetadata accepted patch_level currLvl st0
       = (Val tt, st0)).
Proof.
  intros Hie Hnone H. unfold configure_network in H.
  apply bind_inv in H as ([] & st1 & _ & H).
  apply bind_inv in H as (c & st2 & Hpin & H).
  apply bind_inv in H as ([] & st3 & Hnodes & H).
  apply (silent_Val _ _ _ _ (silent_configure_nodes w _ _)) in Hnodes as ->.
  destruct (preselected_engine_pinned w _ _ _ _ _ _ Hie Hnone Hpin) as [-> Hnet].
  apply load_model_file in H as [Heng Hfile].
  rewrite Hnet in Heng, Hfile. simpl in *.
  split; [done |]. split.
  - rewrite Hfile. by destruct (negb _ && negb _).
  - intros. by eapply run_model_no_engine.
Qed.

(** The theorem on a model that preselects OpenVINO while the search
    returns (TensorRT, onnx): OpenVINO is configured and the [.xml] file is
    loaded. *)
Lemma preselected_engine_used_after_search_witness :
  let md := <["IE" := "OpenVINO"]> tumor_model in
  let w := host md ["tumor.onnx"; "tumor.xml"] ["TensorRT"; "OpenVINO"] in
  let st := (network_setInferenceEngine w "TensorRT" start).2 in
  selectOptimalInferenceEngine w "tumor" = Val ("TensorRT", "onnx")
  ∧ engine (network (configure_network w "tumor" md [".onnx"; ".xml"] "onnx" st).2)
    = "OpenVINO"
  ∧ model_file (network (configure_network w "tumor" md [".onnx"; ".xml"] "onnx" st).2)
    = Some "/home/user/fastpathology/data/Models/tumor/tumor.xml".
Proof.
  intros md w st. split; [vm_compute; reflexivity |].
  destruct (preselected_engine_used_after_search RealFloat.ops w "tumor" md
              [".onnx"; ".xml"] "onnx" "OpenVINO" st
              (configure_network w "tumor" md [".onnx"; ".xml"] "onnx" st).2)
    as (Hengine & Hfile & _).
  - vm_compute. reflexivity.
  - discriminate.
  - vm_compute. reflexivity.
  - split; [exact Hengine | exact Hfile].
Defined.

(** C6 (as stated) fails: the model preselects ONNXRuntime, which is
    installed, and ships an [.onnx] file, but the priority search has no
    candidate for that engine and returns the empty pair; the run ends
    without configuring any engine and without a renderer. *)
Lemma preselected_engine_not_used_without_match :
  let md := <["IE" := "ONNXRuntime"]> tumor_model in
  let w := host md ["tumor.onnx"] ["ONNXRuntime"] in
  let st := (pixelClassifier RealFloat.ops w "tumor" start).2 in
  md !! "IE" = Some "ONNXRuntime"
  ∧ selectOptimalInferenceEngine w "tumor" = Val ("", "")
  ∧ (pixelClassifier RealFloat.ops w "tumor" start).1 = Val tt
  ∧ network st = fresh_network
  ∧ map_to_list (renderers st) = [].
Proof. vm_compute. repeat split. Qed.

(** ** The CPU-only flag *)





(** ** Object detection and the resolved backend *)

(** [m] neither reads nor writes the network object of the main pipeline. *)
Definition ignores_network {A : Type} (m : M RunState A) : Prop :=
  ∀ f st, m (set_network f st) = ((m st).1, set_network f (m st).2).

(** [m] keeps the renderer map and both network objects. *)
Definition quiet {A : Type} (m : M RunState A) : Prop :=
  preserves renderers m ∧ preserves network m ∧ preserves currNetwork m.

Lemma ignores_ret {A : Type} (a : A) : ignores_network (ret a).
Proof. by intros f st. Qed.

Lemma ignores_lift {A : Type} (o : Out A) : ignores_network (lift o).
Proof. by intros f st. Qed.

Lemma ignores_modify (g : RunState → RunState) :
  (∀ f st, g (set_network f st) = set_network f (g st)) →
  ignores_network (modify g).
Proof. intros H f st. unfold modify. simpl. by rewrite H. Qed.

Lemma ignores_gets {A : Type} (proj : RunState → A) :
  (∀ f st, proj (set_network f st) = proj st) → ignores_network (gets proj).
Proof. intros H f st. unfold gets. simpl. by rewrite H. Qed.

Lemma ignores_bind {A B : Type} (m : M RunState A) (k : A → M RunState B) :
  ignores_network m → (∀ a, ignores_network (k a)) → ignores_network (bind m k).
Proof.
  intros Hm Hk f st. unfold bind. rewrite Hm.
  destruct (m st) as [[a | e | |] st']; simpl; try done.
  apply Hk.
Qed.

Lemma ignores_if {A : Type} (c : bool) (m1 m2 : M RunState A) :
  ignores_network m1 → ignores_network m2 → ignores_network (if c then m1 else m2).
Proof. by destruct c. Qed.

#[export] Hint Resolve ignores_ret ignores_lift : frame.

Ltac ignores_step :=
  match goal with
  | |- ignores_network (bind _ _) => apply ignores_bind; [| intros ?]
  | |- ignores_network (if _ then _ else _) => apply ignores_if
  | |- ignores_network (match ?x with _ => _ end) => destruct x
  | |- ignores_network (print _) => apply ignores_modify; intros ? ?; reflexivity
  | |- ignores_network (insert_renderer _ _) => apply ignores_modify; intros ? ?; reflexivity
  | |- ignores_network (modify _) => apply ignores_modify; intros ? ?; reflexivity
  | |- ignores_network (gets _) => apply ignores_gets; intros ? ?; reflexivity
  | |- ignores_network (ext _ _ _) => apply ignores_lift
  | |- ignores_network (stoi_at _ _) => apply ignores_lift
  | |- ignores_network (stoi_of _ _) => apply ignores_lift
  | |- ignores_network _ => solve [eauto with frame]
  end.

Ltac ignores_tac := repeat ignores_step.

Lemma preserves_eq {A B : Type} (proj : RunState → B) (m : M RunState A)
    (st st' : RunState) (o : Out A) :
  preserves proj m → m st = (o, st') → proj st' = proj st.
Proof. intros Hp H. specialize (Hp st). by rewrite H in Hp. Qed.

Lemma quiet_eq {A : Type} (m : M RunState A) (st st' : RunState) (o : Out A) :
  quiet m → m st = (o, st') →
  renderers st' = renderers st ∧ network st' = network st
  ∧ currNetwork st' = currNetwork st.
Proof.
  intros (H1 & H2 & H3) H.
  repeat split; eapply preserves_eq; eauto.
Qed.

Ltac quiet_tac := repeat split; preserves_tac.

Section Detection.

Context {F : Type} (fl : Floats F) (w : World F).

Lemma ignores_read_anchors (anchorVector : list string) (n cntr : nat) :
  ignores_network (read_anchors w anchorVector n cntr).
Proof. revert cntr. induction n as [| n IH]; intros cntr; simpl; ignores_tac. Qed.

Hint Resolve ignores_read_anchors : frame.

Lemma ignores_read_anchor_file (lines : list string) :
  ignores_network (read_anchor_file w lines).
Proof. induction lines as [| l lines IH]; simpl; ignores_tac. Qed.

Hint Resolve ignores_read_anchor_file : frame.

(** The object-detection tail does not look at the network object that the
    engine resolution configured. *)
Lemma object_detection_ignores_network (process_name : string)
    (modelMetadata : gmap string string) :
  ignores_network (object_detection fl w process_name modelMetadata).
Proof.
  unfold object_detection, set_scale_factor, currNetwork_setInferenceEngine,
    currNetwork_load.
  ignores_tac.
Qed.

End Detection.

Section DetectionResult.
Context {F : Type} (fl : Floats F) (w : World F).

Lemma currNetwork_setInferenceEngine_inv (name : string) (st st' : RunState) (u : unit) :
  currNetwork_setInferenceEngine w name st = (Val u, st') →
  st' = set_currNetwork (fun _ => {| engine := name; device_cpu := false; model_file := None |}) st.
Proof.
  unfold currNetwork_setInferenceEngine. intros H.
  apply bind_inv in H as (a & st1 & Hext & Hmod).
  apply (silent_Val _ _ _ _ (silent_ext w _ _)) in Hext as ->.
  unfold modify in Hmod. congruence.
Qed.

Lemma currNetwork_load_inv (path : string) (st st' : RunState) (u : unit) :
  currNetwork_load w path st = (Val u, st') →
  st' = set_currNetwork (fun n => {| engine := engine n; device_cpu := device_cpu n;
                                     model_file := Some path |}) st.
Proof.
  unfold currNetwork_load. intros H.
  apply bind_inv in H as (a & st1 & Hext & Hmod).
  apply (silent_Val _ _ _ _ (silent_ext w _ _)) in Hext as ->.
  unfold modify in Hmod. congruence.
Qed.

(** One step of a completed chain of [bind]s. *)
Ltac peel H Hs :=
  let a := fresh "a" in let s := fresh "s" in
  apply bind_inv in H as (a & s & Hs & H).

(** What a completed object-detection tail leaves behind. *)
Lemma object_detection_completed (process_name : string)
    (modelMetadata : gmap string string) (st st' : RunState) :
  object_detection fl w process_name modelMetadata st = (Val tt, st') →
  currNetwork st'
  = {| engine := "OpenVINO"; device_cpu := false;
       model_file := Some (model_path w process_name (preferred_extension w "OpenVINO")) |}
  ∧ network st' = network st
  ∧ renderers st'
    = match renderers st !! get modelMetadata "model_name" with
      | Some _ => renderers st
      | None => <[get modelMetadata "model_name" := "BoundingBoxRenderer"]> (renderers st)
      end.
Proof.
  unfold object_detection. intros H.
  peel H H1. peel H H2. peel H H3. peel H H4. peel H H5. peel H H6. peel H H7.
  peel H H8. peel H H9. peel H H10.
  peel H H11. peel H H12. peel H H13. peel H H14. peel H H15. peel H H16. peel H H17.
  peel H H18.
  apply (silent_Val _ _ _ _ (silent_ext w _ _)) in H1 as ->.
  unfold modify in H2. injection H2 as _ <-.
  apply quiet_eq in H3 as (R3 & N3 & C3); [| quiet_tac].
  apply quiet_eq in H4 as (R4 & N4 & C4); [| quiet_tac].
  apply (silent_Val _ _ _ _ (silent_read_anchor_file w _)) in H5 as ->.
  apply (silent_Val _ _ _ _ (silent_ext w _ _)) in H6 as ->.
  apply (silent_Val _ _ _ _ (silent_set_scale_factor w _ _)) in H7 as ->.
  apply currNetwork_setInferenceEngine_inv in H8 as ->.
  unfold gets in H9. injection H9 as <- <-.
  apply currNetwork_load_inv in H10 as ->.
  apply (silent_Val _ _ _ _ (silent_ext w _ _)) in H11 as ->.
  apply (silent_Val _ _ _ _ (silent_ext w _ _)) in H12 as ->.
  apply quiet_eq in H13 as (R13 & N13 & C13); [| quiet_tac].
  apply (silent_Val _ _ _ _ (silent_ext w _ _)) in H14 as ->.
  apply (silent_Val _ _ _ _ (silent_ext w _ _)) in H15 as ->.
  apply (silent_Val _ _ _ _ (silent_ext w _ _)) in H16 as ->.
  apply (silent_Val _ _ _ _ (silent_ext w _ _)) in H17 as ->.
  apply (silent_Val _ _ _ _ (silent_ext w _ _)) in H18 as ->.
  unfold insert_renderer, modify in H. injection H as <-.
  simpl in *. rewrite C13, N13, R13, N4, N3, R4, R3. simpl.
  done.
Qed.
End DetectionResult.

(** C8 (as amended).  The object-detection tail makes no check of the
    resolved backend and raises nothing on its account: its outcome, the
    renderer map and its own network object are the same whatever engine
    the main network object holds.  When it completes, its own network runs
    on OpenVINO with the model file of the extension OpenVINO prefers, the
    main network object is untouched, and the bounding-box renderer is
    registered under the model's name (unless the name was present). *)
Theorem object_detection_forces_OpenVINO {F : Type} (fl : Floats F) (w : World F)
    (process_name : string) (modelMetadata : gmap string string)
    (st : RunState) (resolved : Network) :
  let r := object_detection fl w process_name modelMetadata st in
  let r' := object_detection fl w process_name modelMetadata
              (set_network (fun _ => resolved) st) in
  r'.1 = r.1
  ∧ renderers r'.2 = renderers r.2
  ∧ currNetwork r'.2 = currNetwork r.2
  ∧ (r.1 = Val tt →
     engine (currNetwork r.2) = "OpenVINO"
     ∧ model_file (currNetwork r.2)
       = Some (model_path w process_name (preferred_extension w "OpenVINO"))
     ∧ network r.2 = network st
     ∧ renderers r.2
       = match renderers st !! get modelMetadata "model_name" with
         | Some _ => renderers st
         | None => <[get modelMetadata "model_name" := "BoundingBoxRenderer"]> (renderers st)
         end).
Proof.
  intros r r'. subst r r'.
  rewrite (object_detection_ignores_network fl w process_name modelMetadata).
  simpl. split; [done |]. split; [done |]. split; [done |].
  intros Hval.
  destruct (object_detection fl w process_name modelMetadata st) as [o st'] eqn:E.
  simpl in Hval. subst o.
  destruct (object_detection_completed fl w _ _ _ _ E) as (Hc & Hn & Hr).
  simpl. rewrite Hc. done.
Qed.

(** The theorem on a run whose resolved backend is TensorRT. *)
Lemma object_detection_forces_OpenVINO_witness :
  let w := host nuclei_model ["nuclei.onnx"; "nuclei.xml"] ["TensorRT"; "OpenVINO"] in
  let st := set_network (fun _ => {| engine := "TensorRT"; device_cpu := false;
                                     model_file := None |}) start in
  engine (currNetwork (object_detection RealFloat.ops w "nuclei" nuclei_model st).2)
  = "OpenVINO"
  ∧ renderers (object_detection RealFloat.ops w "nuclei" nuclei_model st).2
       !! "nuclei" = Some "BoundingBoxRenderer".
Proof.
  intros w st.
  destruct (object_detection_forces_OpenVINO RealFloat.ops w "nuclei" nuclei_model st
              fresh_network) as (_ & _ & _ & H).
  destruct H as (He & _ & _ & Hr); [vm_compute; reflexivity |].
  split; [exact He |]. rewrite Hr. reflexivity.
Defined.

(** C8 (as stated) fails: the engine resolution returns (TensorRT, onnx),
    which is not OpenVINO, and the run completes without an exception; the
    detection network has been switched to OpenVINO and the bounding-box
    renderer is registered. *)
Lemma object_detection_does_not_fail_on_other_backend :
  let w := host nuclei_model ["nuclei.onnx"; "nuclei.xml"] ["TensorRT"; "OpenVINO"] in
  let r := pixelClassifier_try RealFloat.ops w "nuclei" start in
  selectOptimalInferenceEngine w "nuclei" = Val ("TensorRT", "onnx")
  ∧ r.1 = Val tt
  ∧ engine (network r.2) = "TensorRT"
  ∧ engine (currNetwork r.2) = "OpenVINO"
  ∧ map_to_list (renderers r.2) = [("nuclei", "BoundingBoxRenderer")]
  ∧ last (cout r.2) = Some "Inference thread is finished...".
Proof. vm_compute. repeat split. Qed.

(** ** The patch level *)

Module PatchLevel.

Import RealFloat.
Local Open Scope R_scope.




















End PatchLevel.

(** * Part III: further properties of the two files *)

(** ** What a run can register *)

(** The renderer classes [pixelClassifier] registers (lines 587, 639, 732
    and 779). *)
Definition registered_classes : list string :=
  ["HeatmapRenderer"; "SegmentationRenderer"; "BoundingBoxRenderer"].

(** The renderer map after [m] is the one before it, or the one before it
    with a new entry for [name]. *)
Definition registers {A : Type} (name : string) (m : M RunState A) : Prop :=
  ∀ st,
    renderers (m st).2 = renderers st
    ∨ (renderers st !! name = None
       ∧ ∃ cls, cls ∈ registered_classes
                ∧ renderers (m st).2 = <[name := cls]> (renderers st)).

Lemma registers_of_preserves {A : Type} (name : string) (m : M RunState A) :
  preserves renderers m → registers name m.
Proof. intros H st. left. apply H. Qed.

Lemma registers_bind {A B : Type} (name : string)
    (m : M RunState A) (k : A → M RunState B) :
  preserves renderers m → (∀ a, registers name (k a)) → registers name (bind m k).
Proof.
  intros Hm Hk st. unfold bind. specialize (Hm st).
  destruct (m st) as [[a | e | |] st']; simpl in *; auto.
  destruct (Hk a st') as [H | (Hnone & cls & Hcls & H)].
  - left. congruence.
  - right. rewrite <- Hm. eauto.
Qed.

Lemma registers_then_preserves {A B : Type} (name : string)
    (m : M RunState A) (k : A → M RunState B) :
  registers name m → (∀ a, preserves renderers (k a)) → registers name (bind m k).
Proof.
  intros Hm Hk st. unfold bind. specialize (Hm st).
  destruct (m st) as [[a | e | |] st']; simpl in *; auto.
  rewrite (Hk a st'). exact Hm.
Qed.

Lemma registers_if {A : Type} (name : string) (c : bool) (m1 m2 : M RunState A) :
  registers name m1 → registers name m2 → registers name (if c then m1 else m2).
Proof. by destruct c. Qed.

Lemma registers_insert_renderer (name cls : string) :
  cls ∈ registered_classes → registers name (insert_renderer name cls).
Proof.
  intros Hcls st. unfold insert_renderer, modify. simpl.
  destruct (renderers st !! name) eqn:E; [by left |].
  right. eauto.
Qed.

Section Registration.

Context {F : Type} (fl : Floats F) (w : World F).

Hint Resolve silent_ext silent_stoi_of silent_stoi_at silent_configure_nodes
  silent_set_scale_factor silent_set_colors silent_class_colors silent_read_anchors
  silent_read_anchor_file keeps_patch_lvl_model keeps_low_resolution
  keeps_configure_network keeps_connect_input keeps_scale_input keeps_new_network
  keeps_network_setInferenceEngine keeps_currNetwork_setInferenceEngine
  keeps_currNetwork_load : frame.

Ltac registers_step :=
  match goal with
  | |- registers _ (insert_renderer _ _) =>
      apply registers_insert_renderer; unfold registered_classes; set_solver
  | |- registers _ (bind _ _) =>
      apply registers_bind; [solve [preserves_tac] | intros ?]
  | |- registers _ (if _ then _ else _) => apply registers_if
  | |- registers _ (ret _) =>
      apply registers_of_preserves, preserves_silent, silent_ret
  end.

Lemma object_detection_registers (process_name : string)
    (modelMetadata : gmap string string) :
  registers (get modelMetadata "model_name")
    (object_detection fl w process_name modelMetadata).
Proof.
  unfold object_detection.
  repeat registers_step.
Qed.

Lemma register_result_registers (process_name : string)
    (modelMetadata : gmap string string) (currLvl : Z) :
  registers (get modelMetadata "model_name")
    (register_result fl w process_name modelMetadata currLvl).
Proof.
  unfold register_result. cbv zeta.
  repeat first [apply object_detection_registers | registers_step].
Qed.

Lemma run_model_registers (process_name : string) (modelMetadata : gmap string string)
    (accepted : list string) (patch_level currLvl : Z) :
  registers (get modelMetadata "model_name")
    (run_model fl w process_name modelMetadata accepted patch_level currLvl).
Proof.
  unfold run_model.
  repeat first [apply register_result_registers | registers_step].
Qed.

Lemma pixelClassifier_try_registers (process_name : string) :
  registers (get (model_metadata w process_name) "model_name")
    (pixelClassifier_try fl w process_name).
Proof.
  unfold pixelClassifier_try, has_renderer. cbv zeta.
  repeat match goal with
         | |- registers _ (bind (run_model _ _ _ _ _ _ _) _) =>
             apply registers_then_preserves;
             [apply run_model_registers | intros; preserves_tac]
         | |- _ => registers_step
         end.
Qed.

End Registration.

(** X1.  Whatever the host answers, a call of [pixelClassifier] leaves the
    renderer map of the image as it was, or adds one entry to it: under the
    model's name, which was free, with one of the three renderer classes.
    No other entry is added, changed or removed. *)
Theorem pixelClassifier_registers_only_own_name {F : Type} (fl : Floats F) (w : World F)
    (process_name : string) (st : RunState) :
  let name := get (model_metadata w process_name) "model_name" in
  let st' := (pixelClassifier fl w process_name st).2 in
  renderers st' = renderers st
  ∨ (renderers st !! name = None
     ∧ ∃ cls, cls ∈ registered_classes
              ∧ renderers st' = <[name := cls]> (renderers st)).
Proof.
  intros name st'. subst name st'. unfold pixelClassifier.
  pose proof (pixelClassifier_try_registers fl w process_name st) as H.
  destruct (pixelClassifier_try fl w process_name st) as [[[] | e | |] st1]; exact H.
Qed.

Section Rerun.

Context {F : Type} (fl : Floats F) (w : World F).


End Rerun.


(** The four combinations of problem and resolution that have a branch in
    lines 564-802. *)
Definition supported (problem resolution : string) : Prop :=
  (problem = "classification" ∧ resolution = "high")
  ∨ (problem = "segmentation" ∧ resolution = "high")
  ∨ (problem = "object_detection" ∧ resolution = "high")
  ∨ (problem = "segmentation" ∧ resolution = "low").

Section Unsupported.

Context {F : Type} (fl : Floats F) (w : World F).

Hint Resolve silent_ext silent_stoi_of silent_stoi_at silent_configure_nodes
  silent_set_scale_factor silent_set_colors silent_class_colors silent_read_anchors
  silent_read_anchor_file keeps_patch_lvl_model keeps_low_resolution
  keeps_configure_network keeps_connect_input keeps_scale_input keeps_new_network
  keeps_network_setInferenceEngine keeps_currNetwork_setInferenceEngine
  keeps_currNetwork_load : frame.

Lemma register_result_unsupported (process_name : string)
    (modelMetadata : gmap string string) (currLvl : Z) :
  ¬ supported (get modelMetadata "problem") (get modelMetadata "resolution") →
  register_result fl w process_name modelMetadata currLvl = ret tt.
Proof.
  intros Hno. unfold register_result. cbv zeta.
  repeat match goal with
         | |- context [String.eqb ?a ?b] =>
             destruct (String.eqb_spec a b)
         end;
    simpl; try reflexivity; exfalso; apply Hno; unfold supported; tauto.
Qed.

Lemma pixelClassifier_try_unsupported (process_name : string) :
  ¬ supported (get (model_metadata w process_name) "problem")
              (get (model_metadata w process_name) "resolution") →
  preserves renderers (pixelClassifier_try fl w process_name).
Proof.
  intros Hno. unfold pixelClassifier_try, has_renderer, run_model. cbv zeta.
  repeat match goal with
         | |- preserves _ (register_result _ _ _ _ _) =>
             rewrite (register_result_unsupported _ _ _ Hno)
         | |- _ => preserves_step
         end.
Qed.

End Unsupported.

(** X3.  A model whose problem and resolution are not one of the four
    combinations the function has a branch for (classification on low
    resolution, object detection on low resolution, an unknown problem or
    resolution) never gets a renderer: whatever the host answers, the
    renderer map after the call is the one before it. *)
Theorem pixelClassifier_unsupported_registers_nothing {F : Type}
    (fl : Floats F) (w : World F) (process_name : string) (st : RunState) :
  ¬ supported (get (model_metadata w process_name) "problem")
              (get (model_metadata w process_name) "resolution") →
  renderers (pixelClassifier fl w process_name st).2 = renderers st.
Proof.
  intros Hno. unfold pixelClassifier.
  pose proof (pixelClassifier_try_unsupported fl w process_name Hno st) as H.
  destruct (pixelClassifier_try fl w process_name st) as [[[] | e | |] s1]; exact H.
Qed.

(** The models of the two runs below. *)
Definition overview_classifier : gmap string string :=
  <["problem" := "classification"]> (<["resolution" := "low"]> tumor_model).


(** The theorem on a classification model for low resolution. *)
Lemma pixelClassifier_unsupported_registers_nothing_witness :
  let w := host overview_classifier ["tumor.onnx"] ["OpenVINO"] in
  (pixelClassifier RealFloat.ops w "tumor" start).1 = Val tt
  ∧ renderers (pixelClassifier RealFloat.ops w "tumor" start).2 = renderers start.
Proof.
  intros w. split; [vm_compute; reflexivity |].
  apply (pixelClassifier_unsupported_registers_nothing RealFloat.ops w "tumor" start).
  intros H. vm_compute in H.
  decompose [and or] H; discriminate.
Defined.

(** ** The low-resolution branch on an image without levels *)

(** The two lines the branch prints before it returns (lines 329-333). *)
Definition invalid_level_lines (l : Z) : list string :=
  ["Optimal patch level: " +:+ to_string l;
   "Automatic chosen patch level for low_res is invalid: " +:+ to_string l].

(** X4.  Since the level used on low resolution is always the level count
    minus one, the branch gives up ([return;] of line 334) exactly when the
    image reports no level at all (a level count of zero or less); it then
    has printed its two lines and made no external call.  With one level or
    more it never returns early. *)
Theorem low_resolution_returns_iff_no_level {F : Type} (w : World F)
    (modelMetadata : gmap string string) (st : RunState) (n l : Z) :
  stoi (get (image_metadata w) "openslide.level-count") = Val n →
  low_res_currLvl (image_metadata w) modelMetadata = Val l →
  l = n - 1
  ∧ ((low_resolution w modelMetadata st).1 = Return_ ↔ n <= 0)
  ∧ (n <= 0 →
     low_resolution w modelMetadata st
     = (Return_, set_cout (fun out => (out ++ invalid_level_lines l)%list) st)).
Proof.
  intros Hn Hl.
  destruct (low_res_currLvl_coarsest _ _ _ Hl) as (n' & Hn' & ->).
  rewrite Hn in Hn'. injection Hn' as <-.
  split; [done |].
  unfold low_resolution. cbv [bind lift]. rewrite Hl. cbv [print modify].
  cbv beta iota.
  destruct (Z.ltb_spec (n - 1) 0) as [Hneg | Hpos].
  - split; [split; [lia | done] |].
    intros _. unfold set_cout, invalid_level_lines. simpl.
    by rewrite <- app_assoc.
  - split; [| lia].
    split; [| lia].
    cbv [ext lift bind ret].
    repeat match goal with
           | |- context [throws w ?a ?b] => destruct (throws w a b)
           end; simpl; discriminate.
Qed.

(** The theorem on an image whose level count is 0. *)
Lemma low_resolution_returns_iff_no_level_witness :
  let w := host tumor_model ["tumor.onnx"] ["OpenVINO"] in
  let empty_image :=
    {| splitCustom := splitCustom w; models_filepath := models_filepath w;
       inference_engines := inference_engines w; model_metadata := model_metadata w;
       image_metadata := {[ "openslide.level-count" := "0" ]};
       magn_lvl := magn_lvl w; model_files := model_files w;
       anchors_lines := anchors_lines w; preferred_extension := preferred_extension w;
       throws := throws w |} in
  low_resolution empty_image tumor_model start
  = (Return_, set_cout (fun out => (out ++ invalid_level_lines (-1))%list) start).
Proof.
  intros w empty_image.
  destruct (low_resolution_returns_iff_no_level empty_image tumor_model start 0 (-1))
    as (_ & _ & H).
  - vm_compute. reflexivity.
  - vm_compute. reflexivity.
  - apply H. lia.
Defined.

(** ** The file a run loads when no engine is preselected *)

Section LoadedFile.

Context {F : Type} (w : World F).

(** The engine the CPU re-check leaves configured. *)
Lemma cpu_override_engine (modelMetadata : gmap string string)
    (accepted : list string) (st st' : RunState) (cpu : Z) :
  stoi (get modelMetadata "cpu") = Val cpu →
  cpu_override w modelMetadata accepted st = (Val tt, st') →
  engine (network st')
  = if (cpu =? 1) && contains accepted ".pb" && contains (inference_engines w) "TensorFlow"
    then "TensorFlow"
    else if (cpu =? 1) && contains accepted ".xml"
            && contains (inference_engines w) "OpenVINO"
    then "OpenVINO"
    else engine (network st).
Proof.
  intros Hcpu. unfold cpu_override. intros H.
  apply bind_inv in H as (c & s & Hc & H).
  unfold lift in Hc. rewrite Hcpu in Hc. injection Hc as <- <-.
  destruct (cpu =? 1); simpl.
  - destruct (contains accepted ".pb" && contains (inference_engines w) "TensorFlow").
    + apply bind_inv in H as ([] & s1 & Hp & H).
      apply bind_inv in H as ([] & s2 & Hs & H).
      apply network_setInferenceEngine_inv in Hs as ->.
      apply network_setDeviceTypeCPU_inv in H as ->. done.
    + destruct (contains accepted ".xml" && contains (inference_engines w) "OpenVINO").
      * apply bind_inv in H as ([] & s1 & Hp & H).
        apply bind_inv in H as ([] & s2 & Hs & H).
        apply network_setInferenceEngine_inv in Hs as ->.
        apply network_setDeviceTypeCPU_inv in H as ->. done.
      * unfold print, modify in H. by injection H as <-.
  - unfold ret in H. by injection H as <-.
Qed.

Lemma preselected_engine_absent (modelMetadata : gmap string string)
    (chosenIE : string) :
  modelMetadata !! "IE" = None ∨ get modelMetadata "IE" = "none" →
  preselected_engine w modelMetadata chosenIE = ret chosenIE.
Proof.
  intros H. unfold preselected_engine.
  destruct H as [-> | ->]; [done |].
  by rewrite orb_true_r.
Qed.

End LoadedFile.

(** An engine whose model files keep the extension of the resolved pair. *)
Definition keeps_resolved_extension (engine_name : string) : bool :=
  String.eqb engine_name "TensorRT" || String.eqb engine_name "OpenVINO".

(** X5.  For a model that preselects no engine, once the network
    configuration completes, the engine is TensorFlow or OpenVINO when the
    CPU re-check switched to it and the resolved engine otherwise; the file
    loaded has the extension of the pair the search returned whenever that
    engine is TensorRT or OpenVINO, and the extension the engine prefers
    otherwise.  So a re-check that switches to OpenVINO loads the file of
    the format that was resolved for the previous engine. *)
Theorem configure_network_loaded_file {F : Type} (w : World F)
    (process_name : string) (modelMetadata : gmap string string)
    (accepted : list string) (chosenIE : string) (st st' : RunState) (cpu : Z) :
  modelMetadata !! "IE" = None ∨ get modelMetadata "IE" = "none" →
  stoi (get modelMetadata "cpu") = Val cpu →
  configure_network w process_name modelMetadata accepted chosenIE st = (Val tt, st') →
  engine (network st')
  = (if (cpu =? 1) && contains accepted ".pb" && contains (inference_engines w) "TensorFlow"
     then "TensorFlow"
     else if (cpu =? 1) && contains accepted ".xml"
             && contains (inference_engines w) "OpenVINO"
     then "OpenVINO"
     else engine (network st))
  ∧ model_file (network st')
    = Some (model_path w process_name
              (if keeps_resolved_extension (engine (network st')) then chosenIE
               else preferred_extension w (engine (network st')))).
Proof.
  intros Hpin Hcpu H. unfold configure_network in H.
  apply bind_inv in H as ([] & st1 & Hover & H).
  rewrite (preselected_engine_absent w _ _ Hpin) in H.
  apply bind_inv in H as (c & st2 & Hret & H).
  unfold ret in Hret. injection Hret as <- <-.
  apply bind_inv in H as ([] & st3 & Hnodes & H).
  apply (silent_Val _ _ _ _ (silent_configure_nodes w _ _)) in Hnodes as ->.
  apply load_model_file in H as [Heng Hfile].
  rewrite Heng, Hfile.
  split; [exact (cpu_override_engine w _ _ _ _ _ Hcpu Hover) |].
  unfold keeps_resolved_extension.
  by destruct (String.eqb (engine (network st1)) "TensorRT"),
              (String.eqb (engine (network st1)) "OpenVINO").
Qed.

(** The theorem on a model with [.uff] and [.xml] files, TensorRT and
    OpenVINO installed and the CPU flag set: OpenVINO loads the [.uff]
    file. *)
Lemma configure_network_loaded_file_witness :
  let md := <["cpu" := "1"]> tumor_model in
  let w := host md ["tumor.uff"; "tumor.xml"] ["TensorRT"; "OpenVINO"] in
  let st := (network_setInferenceEngine w "TensorRT" start).2 in
  let st' := (configure_network w "tumor" md [".uff"; ".xml"] "uff" st).2 in
  selectOptimalInferenceEngine w "tumor" = Val ("TensorRT", "uff")
  ∧ engine (network st') = "OpenVINO"
  ∧ model_file (network st')
    = Some "/home/user/fastpathology/data/Models/tumor/tumor.uff".
Proof.
  intros md w st st'. split; [vm_compute; reflexivity |].
  destruct (configure_network_loaded_file w "tumor" md [".uff"; ".xml"] "uff" st st' 1)
    as [Heng Hfile].
  - left. vm_compute. reflexivity.
  - vm_compute. reflexivity.
  - vm_compute. reflexivity.
  - split; [rewrite Heng; reflexivity |].
    rewrite Hfile, Heng. reflexivity.
Defined.

(** ** The object-detection tail: thresholds and anchors *)

(** X6.  The detection tail tests whether [pred_threshold] is empty but
    never reads its value: line 679 hands [nms_threshold] to
    [setThreshold].  Two models that agree on every other field and both
    give some prediction threshold run identically; and a model that gives a
    prediction threshold while its [nms_threshold] does not parse ends with
    the exception of [std::stof] before an anchor is read. *)
Theorem object_detection_never_reads_pred_threshold {F : Type}
    (fl : Floats F) (w : World F) (process_name : string)
    (md1 md2 : gmap string string) :
  (∀ key, key ≠ "pred_threshold" → get md1 key = get md2 key) →
  get md1 "pred_threshold" ≠ "" → get md2 "pred_threshold" ≠ "" →
  object_detection fl w process_name md1 = object_detection fl w process_name md2
  ∧ (∀ st e,
       throws w "BoundingBoxNetwork::New" [] = None →
       stof fl (get md1 "nms_threshold") = Raise e →
       object_detection fl w process_name md1 st
       = (Raise e, set_currNetwork (fun _ => fresh_network) st)).
Proof.
  intros Hagree H1 H2. split.
  - unfold object_detection, set_scale_factor.
    rewrite !(Hagree "nms_threshold"), !(Hagree "scale_factor"),
      !(Hagree "model_name") by done.
    destruct (String.eqb_spec (get md1 "pred_threshold") "") as [E1 | _]; [done |].
    destruct (String.eqb_spec (get md2 "pred_threshold") "") as [E2 | _]; [done |].
    reflexivity.
  - intros st e Hnew Hstof. unfold object_detection.
    destruct (String.eqb_spec (get md1 "pred_threshold") "") as [E1 | _]; [done |].
    cbv [bind ext lift modify]. rewrite Hnew. cbv beta iota. by rewrite Hstof.
Qed.

(** The theorem on the detection model with a prediction threshold and no
    [nms_threshold]. *)
Lemma object_detection_never_reads_pred_threshold_witness :
  let md1 := <["pred_threshold" := "0.1"]> nuclei_model in
  let md2 := <["pred_threshold" := "0.9"]> nuclei_model in
  let w := host md1 ["nuclei.xml"] ["OpenVINO"] in
  object_detection RealFloat.ops w "nuclei" md1
  = object_detection RealFloat.ops w "nuclei" md2
  ∧ (object_detection RealFloat.ops w "nuclei" md1 start).1
    = Raise (invalid_argument "stof").
Proof.
  intros md1 md2 w.
  destruct (object_detection_never_reads_pred_threshold RealFloat.ops w "nuclei" md1 md2)
    as [Hsame Hraise].
  - intros key Hkey. unfold md1, md2, get.
    by rewrite !lookup_insert_ne.
  - vm_compute. discriminate.
  - vm_compute. discriminate.
  - split; [exact Hsame |].
    rewrite (Hraise start (invalid_argument "stof")); [reflexivity | reflexivity |].
    unfold RealFloat.ops, stof, RealFloat.stof.
    assert (RealFloat.parse_decimal (get md1 "nms_threshold")
            = Raise (invalid_argument "stof")) as -> by (vm_compute; reflexivity).
    reflexivity.
Defined.

Section Anchors.

Context {F : Type} (w : World F).

(** An anchor entry that line 696-698 can read: its two first parts are
    numbers. *)
Definition pair_parses (a : string) : Prop :=
  ∃ x y, (let? s := at_ (splitCustom w a ",") 0 in stoi s) = Val x
         ∧ (let? s := at_ (splitCustom w a ",") 1 in stoi s) = Val y.

Lemma read_anchors_completes (anchorVector : list string) (n cntr : nat)
    (st st' : RunState) :
  read_anchors w anchorVector n cntr st = (Val tt, st') →
  ∀ i, (i < n)%nat → ∃ a, anchorVector !! (cntr + i)%nat = Some a ∧ pair_parses a.
Proof.
  revert cntr st. induction n as [| n IH]; intros cntr st H i Hi; [lia |].
  simpl in H.
  apply bind_inv in H as (a & s1 & Ha & H).
  apply bind_inv in H as (x & s2 & Hx & H).
  apply bind_inv in H as (y & s3 & Hy & H).
  unfold lift, at_ in Ha.
  destruct (anchorVector !! cntr) as [a' |] eqn:Ea; [| discriminate].
  injection Ha as <- <-.
  unfold stoi_at, lift in Hx, Hy.
  injection Hx as Hx <-. injection Hy as Hy <-.
  destruct i as [| i].
  - exists a'. rewrite Nat.add_0_r. split; [done |]. by exists x, y.
  - replace (cntr + S i)%nat with (S cntr + i)%nat by lia.
    eapply IH; [exact H | lia].
Qed.

Lemma resize_long (n : nat) (tokens extra : list string) :
  length tokens = n → resize n (tokens ++ extra) = tokens.
Proof.
  intros <-. unfold resize.
  rewrite take_app_length, length_app.
  replace (length tokens - (length tokens + length extra))%nat with 0%nat by lia.
  by rewrite app_nil_r.
Qed.

Lemma resize_short_lookup (n : nat) (tokens : list string) :
  (length tokens < n)%nat → resize n tokens !! length tokens = Some "".
Proof.
  intros H. unfold resize. rewrite take_ge by lia.
  rewrite lookup_app_r by lia. rewrite Nat.sub_diag.
  destruct (n - length tokens)%nat eqn:E; [lia | done].
Qed.

End Anchors.

(** X7.  Each line of the anchor file is cut to six entries: what follows
    the sixth entry of a line is ignored, and a line with fewer than six
    entries is padded with empty entries, which [std::stoi] cannot read, so
    that the tail never completes on such a line (it raises, or reads past
    the end of a vector) instead of going on with fewer anchors.
    ([splitCustom] is taken to split the empty string into one empty
    part.) *)
Theorem anchor_line_needs_six_entries {F : Type} (w : World F)
    (line : string) (rest : list string) (st : RunState) :
  splitCustom w "" "," = [""] →
  ((length (splitCustom w line " ") < 6)%nat →
   (read_anchor_file w (line :: rest) st).1 ≠ Val tt)
  ∧ (∀ line' six extra,
       splitCustom w line " " = six → length six = 6%nat →
       splitCustom w line' " " = (six ++ extra)%list →
       read_anchor_file w (line' :: rest) st = read_anchor_file w (line :: rest) st).
Proof.
  intros Hempty. split.
  - intros Hshort Hval.
    destruct (read_anchor_file w (line :: rest) st) as [o st'] eqn:E.
    simpl in Hval. subst o. cbn [read_anchor_file] in E.
    apply bind_inv in E as ([] & s1 & Hread & _).
    destruct (read_anchors_completes w _ _ _ _ _ Hread (length (splitCustom w line " ")))
      as (a & Ha & x & y & Hx & _); [lia |].
    simpl in Ha. rewrite resize_short_lookup in Ha by done.
    injection Ha as <-. rewrite Hempty in Hx. discriminate.
  - intros line' six extra Hsix Hlen Hmore. cbn [read_anchor_file].
    rewrite Hmore, Hsix, resize_long by done.
    unfold resize. rewrite take_ge by lia.
    replace (6 - length six)%nat with 0%nat by lia.
    by rewrite app_nil_r.
Qed.

(** The theorem on a line of five anchors and on a line of seven. *)
Lemma anchor_line_needs_six_entries_witness :
  let w := host nuclei_model ["nuclei.xml"] ["OpenVINO"] in
  (read_anchor_file w ["10,14 23,27 37,58 81,82 135,169"] start).1 ≠ Val tt
  ∧ read_anchor_file w ["10,14 23,27 37,58 81,82 135,169 344,319 1,1"] start
    = read_anchor_file w ["10,14 23,27 37,58 81,82 135,169 344,319"] start.
Proof.
  intros w.
  split.
  - apply (anchor_line_needs_six_entries w "10,14 23,27 37,58 81,82 135,169" [] start
             eq_refl).
    vm_compute. lia.
  - destruct (anchor_line_needs_six_entries w "10,14 23,27 37,58 81,82 135,169 344,319"
                [] start eq_refl) as [_ H].
    apply (H _ ["10,14"; "23,27"; "37,58"; "81,82"; "135,169"; "344,319"] ["1,1"]);
      vm_compute; reflexivity.
Defined.

(** ** The order of the image map *)

Lemma leb_trans (s1 s2 s3 : string) :
  String.leb s1 s2 = true → String.leb s2 s3 = true → String.leb s1 s3 = true.
Proof.
  unfold String.leb. revert s2 s3.
  induction s1 as [| a1 s1 IH]; intros [| a2 s2] [| a3 s3]; simpl; try done.
  unfold Ascii.compare.
  destruct (N.compare_spec (N_of_ascii a1) (N_of_ascii a2));
    destruct (N.compare_spec (N_of_ascii a2) (N_of_ascii a3));
    destruct (N.compare_spec (N_of_ascii a1) (N_of_ascii a3));
    try done; try lia; eauto.
Qed.

#[global] Instance key_le_total {V : Type} : Total (@key_le V).
Proof. intros a b. apply String.leb_total. Qed.

#[global] Instance key_le_trans {V : Type} : Transitive (@key_le V).
Proof. intros a b c. apply leb_trans. Qed.

Lemma in_key_order_Permutation {V : Type} (m : gmap string V) :
  in_key_order m ≡ₚ map_to_list m.
Proof. apply merge_sort_Permutation. Qed.

Lemma in_key_order_lookup {V : Type} (m : gmap string V) (k : string) (v : V) :
  (k, v) ∈ in_key_order m ↔ m !! k = Some v.
Proof. by rewrite in_key_order_Permutation, elem_of_map_to_list. Qed.

Lemma in_key_order_length {V : Type} (m : gmap string V) :
  length (in_key_order m) = size m.
Proof. by rewrite in_key_order_Permutation, length_map_to_list. Qed.

Lemma in_key_order_sorted {V : Type} (m : gmap string V) :
  StronglySorted key_le (in_key_order m).
Proof. apply StronglySorted_merge_sort; apply _. Qed.

Lemma in_key_order_NoDup {V : Type} (m : gmap string V) :
  NoDup (in_key_order m).*1.
Proof. rewrite in_key_order_Permutation. apply NoDup_fst_map_to_list. Qed.

(** ** The image map of a project *)

Lemma ltb_of_leb (a b : string) :
  String.leb a b = true → a ≠ b → String.ltb a b = true.
Proof.
  unfold String.leb, String.ltb. intros Hle Hne.
  destruct (String.compare a b) eqn:E; try done.
  by apply String.compare_eq_iff in E.
Qed.

Lemma getAllWsiUids_ascending (p : Project) :
  StronglySorted (fun a b => String.ltb a b = true) (getAllWsiUids p).
Proof.
  unfold getAllWsiUids.
  pose proof (in_key_order_sorted (_images p)) as Hs.
  pose proof (in_key_order_NoDup (_images p)) as Hn.
  induction Hs as [| a l _ IH Hall]; simpl; [constructor |].
  apply NoDup_cons in Hn as [Hnot Hn].
  constructor; [by apply IH |].
  apply Forall_fmap, Forall_forall. intros b Hb. simpl.
  apply ltb_of_leb.
  - by apply (proj1 (Forall_forall _ _) Hall).
  - intros Heq. apply Hnot. rewrite Heq. apply list_elem_of_fmap. eauto.
Qed.

Lemma getAllWsiUids_elem (p : Project) (uid : string) :
  uid ∈ getAllWsiUids p ↔ is_Some (_images p !! uid).
Proof.
  unfold getAllWsiUids. rewrite list_elem_of_fmap. split.
  - intros ([k v] & -> & Hin). apply in_key_order_lookup in Hin. eauto.
  - intros [v Hv]. exists (uid, v). split; [done |]. by apply in_key_order_lookup.
Qed.

Lemma getImage_present (p : Project) (uid : string) (img : shared_ptr WholeSlideImage) :
  _images p !! uid = Some img → getImage uid p = (Val img, p).
Proof.
  intros H. unfold getImage, bind, gets, images_index.
  rewrite bool_decide_eq_true_2 by eauto. by rewrite H.
Qed.

Definition out_of_bounds : exn := Exception "Out of bounds in Project::getImage".

(** X8.  [getAllWsiUids] lists the uids of the project in strictly
    ascending order, each uid once, and [getImage(i)] is the image stored
    under the [i]-th uid of that list; an index that is negative or not
    below the number of images raises the out-of-bounds exception (a
    negative [int] becomes a large [size_t] in the comparison) and leaves
    the project as it was. *)
Theorem getImage_int_follows_uid_order (p : Project) (i : Z) :
  INT_MIN <= i <= INT_MAX →
  Z.of_nat (size (_images p)) < 2 ^ 63 →
  StronglySorted (fun a b => String.ltb a b = true) (getAllWsiUids p)
  ∧ (∀ uid, uid ∈ getAllWsiUids p ↔ is_Some (_images p !! uid))
  ∧ (0 <= i < Z.of_nat (size (_images p)) →
     ∃ uid img, getAllWsiUids p !! Z.to_nat i = Some uid
                ∧ getImage uid p = (Val img, p)
                ∧ getImage_int i p = (Val img, p))
  ∧ (i < 0 ∨ Z.of_nat (size (_images p)) <= i →
     getImage_int i p = (Raise out_of_bounds, p)).
Proof.
  intros Hint Hsize.
  split; [apply getAllWsiUids_ascending |].
  split; [apply getAllWsiUids_elem |].
  unfold INT_MIN, INT_MAX in Hint.
  split.
  - intros Hi. unfold getImage_int, bind, gets, lift, to_size_t.
    rewrite Z.mod_small by lia.
    destruct (Z.leb_spec (Z.of_nat (size (_images p))) i) as [? | _]; [lia |].
    destruct (Z.ltb_spec i 0) as [? | _]; [lia |].
    destruct (in_key_order (_images p) !! Z.to_nat i) as [[uid img] |] eqn:E.
    + exists uid, img. unfold getAllWsiUids. rewrite list_lookup_fmap, E.
      split; [done |]. split; [| done].
      apply getImage_present, in_key_order_lookup.
      by eapply list_elem_of_lookup_2.
    + apply lookup_ge_None in E. rewrite in_key_order_length in E. lia.
  - intros Hi. unfold getImage_int, bind, gets, lift, to_size_t.
    assert (Z.of_nat (size (_images p)) <= i mod 2 ^ 64) as Hge.
    { destruct Hi as [Hneg | Hbig].
      - replace i with ((i + 2 ^ 64) + (-1) * 2 ^ 64) by lia.
        rewrite Z.mod_add by lia. rewrite Z.mod_small by lia. lia.
      - rewrite Z.mod_small by lia. lia. }
    by destruct (Z.leb_spec (Z.of_nat (size (_images p))) (i mod 2 ^ 64)) as [_ | ?]; [| lia].
Qed.

(** A project of two slides. *)
Definition two_slide_project : Project :=
  {| _root_folder := "/home/user/study";
     _temporary_dir_flag := false;
     _images := <["slide2" := Some {| get_filename := "/data/slide2.svs";
                                      with_thumbnail := false |}]>
                  (<["slide10" := Some slide]> ∅) |}.

(** The theorem on the project of two slides, at index [-1]. *)
Lemma getImage_int_follows_uid_order_witness :
  getAllWsiUids two_slide_project = ["slide10"; "slide2"]
  ∧ getImage_int 0 two_slide_project = (Val (Some slide), two_slide_project)
  ∧ getImage_int (-1) two_slide_project = (Raise out_of_bounds, two_slide_project).
Proof.
  split; [vm_compute; reflexivity |].
  split; [vm_compute; reflexivity |].
  assert (INT_MIN <= -1 <= INT_MAX) as Hint by (unfold INT_MIN, INT_MAX; lia).
  assert (Z.of_nat (size (_images two_slide_project)) < 2 ^ 63) as Hsize
    by (vm_compute; reflexivity).
  destruct (getImage_int_follows_uid_order two_slide_project (-1) Hint Hsize)
    as (_ & _ & _ & Hout).
  apply Hout. left. lia.
Defined.

(** ** Including an image *)

Lemma fresh_name_free (images : gmap string (shared_ptr WholeSlideImage))
    (short : string) (draws : list Z) (uid : string) :
  fresh_name images short draws = Some uid →
  images !! uid = None
  ∧ ∃ r, r ∈ draws ∧ uid = short +:+ "#" +:+ to_string (Z.rem r 10000).
Proof.
  induction draws as [| r draws IH]; simpl; [done |].
  case_bool_decide as Hfree.
  - intros [= <-]. split; [done |]. exists r. split; [left | done].
  - intros H. destruct (IH H) as (Hnone & r' & Hin & Heq).
    split; [done |]. exists r'. split; [by right | done].
Qed.

Lemma fresh_name_exhausted (images : gmap string (shared_ptr WholeSlideImage))
    (short : string) (draws : list Z) :
  (∀ k, 0 <= k < 10000 → is_Some (images !! (short +:+ "#" +:+ to_string k))) →
  Forall (fun r => 0 <= r) draws →
  fresh_name images short draws = None.
Proof.
  intros Hall. induction 1 as [| r draws Hr _ IH]; simpl; [done |].
  rewrite bool_decide_eq_false_2; [exact IH |].
  intros Hnone.
  destruct (Hall (Z.rem r 10000)) as [x Hx]; [| congruence].
  pose proof (Z.rem_bound_pos r 10000). lia.
Qed.

(** X9.  [includeImage] never replaces an image of the project: the uid it
    returns was free, the image map is the old one with the new image under
    that uid (one more image, every other entry as before), the uid is the
    short name of the file or, when that name was in use, the short name
    followed by [#] and a drawn number below 10000; looking the uid up gives
    the new image, and removing the uid gives back the project as it was. *)
Theorem includeImage_adds_fresh_uid (splitCustom : string → string → list string)
    (draws : list Z) (image_filepath : string) (p p' : Project) (uid : string) :
  includeImage splitCustom draws image_filepath p = Some (Val uid, p') →
  let image := Some {| get_filename := image_filepath; with_thumbnail := false |} in
  _images p !! uid = None
  ∧ _images p' = <[uid := image]> (_images p)
  ∧ size (_images p') = S (size (_images p))
  ∧ (∀ other, other ≠ uid → _images p' !! other = _images p !! other)
  ∧ (∃ short, short_name splitCustom image_filepath = Val short
              ∧ (uid = short
                 ∨ (is_Some (_images p !! short)
                    ∧ ∃ r, r ∈ draws
                           ∧ uid = short +:+ "#" +:+ to_string (Z.rem r 10000))))
  ∧ getImage uid p' = (Val image, p')
  ∧ removeImage uid p' = (Val tt, p).
Proof.
  intros H image. unfold includeImage in H.
  destruct (short_name splitCustom image_filepath) as [short | e | |] eqn:Hshort;
    try discriminate.
  assert (_images p !! uid = None
          ∧ p' = set_images (insert uid image) p
          ∧ (uid = short
             ∨ (is_Some (_images p !! short)
                ∧ ∃ r, r ∈ draws ∧ uid = short +:+ "#" +:+ to_string (Z.rem r 10000))))
    as (Hfree & -> & Hname).
  { case_bool_decide as Huse.
    - destruct (fresh_name (_images p) short draws) as [u |] eqn:Hfresh; [| discriminate].
      injection H as <- <-.
      destruct (fresh_name_free _ _ _ _ Hfresh) as [Hnone Hr]. eauto.
    - injection H as <- <-. split; [| by eauto].
      destruct (_images p !! short) eqn:E; [| done].
      exfalso. apply Huse. eauto. }
  simpl.
  split; [done |]. split; [done |].
  split; [by rewrite map_size_insert_None |].
  split; [intros other Hne; by rewrite lookup_insert_ne |].
  split; [eauto |].
  split.
  - apply getImage_present. simpl. by rewrite lookup_insert_eq.
  - unfold removeImage, modify, set_images. simpl.
    rewrite delete_insert_id by done. by destruct p.
Qed.

(** The theorem on the one-slide project and a second file named
    [slide1.svs]. *)
Lemma includeImage_adds_fresh_uid_witness :
  ∃ p', includeImage splitCustom_model [4242] "/archive/slide1.svs" one_slide_project
        = Some (Val "slide1#4242", p')
        ∧ _images p' !! "slide1" = Some (Some slide)
        ∧ removeImage "slide1#4242" p' = (Val tt, one_slide_project).
Proof.
  eexists. split; [vm_compute; reflexivity |].
  match goal with
  | |- _ ∧ removeImage _ ?q = _ =>
      destruct (includeImage_adds_fresh_uid splitCustom_model [4242] "/archive/slide1.svs"
                  one_slide_project q "slide1#4242")
        as (_ & _ & _ & Hother & _ & _ & Hremove)
  end.
  - vm_compute. reflexivity.
  - split; [| exact Hremove].
    rewrite Hother by discriminate. reflexivity.
Defined.

(** X10.  The new name is drawn among [short#0] ... [short#9999] only: when
    the short name and all of these are in use, the loop of lines 97-106
    never ends, whatever the (non-negative) values [rand()] returns. *)
Theorem includeImage_never_ends_when_names_taken
    (splitCustom : string → string → list string)
    (draws : list Z) (image_filepath : string) (p : Project) (short : string) :
  short_name splitCustom image_filepath = Val short →
  is_Some (_images p !! short) →
  (∀ k, 0 <= k < 10000 → is_Some (_images p !! (short +:+ "#" +:+ to_string k))) →
  Forall (fun r => 0 <= r) draws →
  includeImage splitCustom draws image_filepath p = None.
Proof.
  intros Hshort Huse Hall Hdraws. unfold includeImage. rewrite Hshort.
  rewrite bool_decide_eq_true_2 by done.
  by rewrite fresh_name_exhausted.
Qed.

Lemma crowded_project_full (k : Z) :
  0 <= k < 10000 → is_Some (_images crowded_project !! ("slide1" +:+ "#" +:+ to_string k)).
Proof.
  intros Hk.
  change (_images crowded_project)
    with (<["slide1" := Some slide]> (list_to_map crowded_names)
            : gmap string (shared_ptr WholeSlideImage)).
  rewrite lookup_insert_ne.
  - exists (Some slide). apply elem_of_list_to_map_1.
    + unfold crowded_names. rewrite <- list_fmap_compose.
      apply NoDup_fmap_2; [| apply NoDup_seqZ].
      intros k1 k2 H. unfold compose in H. cbn [fst] in H.
      apply (inj (String.app "slide1")), (inj (String.app "#")) in H.
      by apply (inj pretty) in H.
    + unfold crowded_names. apply list_elem_of_fmap. exists k. split; [done |].
      apply elem_of_seqZ. lia.
  - intros H. change "slide1" with ("slide1" +:+ "") in H at 1.
    apply (inj (String.app "slide1")) in H. discriminate.
Qed.

(** The theorem on the project with 10001 images of the same file name. *)
Lemma includeImage_never_ends_when_names_taken_witness :
  includeImage splitCustom_model [0; 41; 9999; 2147483647] "/archive/slide1.svs"
    crowded_project = None.
Proof.
  apply (includeImage_never_ends_when_names_taken splitCustom_model _ _ _ "slide1").
  - vm_compute. reflexivity.
  - change (_images crowded_project)
      with (<["slide1" := Some slide]> (list_to_map crowded_names)
              : gmap string (shared_ptr WholeSlideImage)).
    rewrite lookup_insert_eq. eauto.
  - apply crowded_project_full.
  - repeat constructor; lia.
Defined.

(** ** Paths of the saved files *)

Lemma normalize_cons (c : ascii) (s : string) :
  normalize (String c s)
  = if Ascii.eqb c "/" && starts_with_slash s then normalize s
    else String c (normalize s).
Proof.
  destruct (Ascii.eqb_spec c "/") as [-> | Hc].
  - destruct s as [| c' s']; [reflexivity |].
    destruct c' as [[] [] [] [] [] [] [] []]; reflexivity.
  - destruct c as [[] [] [] [] [] [] [] []]; try reflexivity.
    by destruct Hc.
Qed.

Lemma normalize_starts_with_slash (s : string) :
  starts_with_slash (normalize s) = starts_with_slash s.
Proof.
  induction s as [| c s IH]; [done |].
  rewrite normalize_cons. simpl.
  destruct (Ascii.eqb_spec c "/") as [-> | Hc]; simpl.
  - destruct (starts_with_slash s) eqn:E; [by rewrite IH | done].
  - by apply Ascii.eqb_neq.
Qed.

Lemma starts_with_slash_app (r a b : string) :
  starts_with_slash a = starts_with_slash b →
  starts_with_slash (r +:+ a) = starts_with_slash (r +:+ b).
Proof. by destruct r. Qed.

(** Two paths under the same folder name the same file only if what
    follows the folder does. *)
Lemma normalize_app_cancel (root a b : string) :
  starts_with_slash a = starts_with_slash b →
  normalize (root +:+ a) = normalize (root +:+ b) → normalize a = normalize b.
Proof.
  intros Hhead. induction root as [| c r IH]; [done |].
  change (String c r +:+ a) with (String c (r +:+ a)).
  change (String c r +:+ b) with (String c (r +:+ b)).
  rewrite !normalize_cons, (starts_with_slash_app r a b Hhead).
  destruct (Ascii.eqb c "/" && starts_with_slash (r +:+ b)); [done |].
  intros [= H]. auto.
Qed.

Lemma normalize_app_no_slash (root a : string) :
  ends_with_slash root = false →
  normalize (root +:+ a) = normalize root +:+ normalize a.
Proof.
  induction root as [| c r IH]; [done |].
  destruct r as [| c' r'].
  - intros Hc. simpl in Hc.
    change (String c "" +:+ a) with (String c a).
    rewrite (normalize_cons c a), (normalize_cons c ""), Hc. done.
  - intros Hends. change (ends_with_slash (String c' r') = false) in Hends.
    specialize (IH Hends).
    change (String c (String c' r') +:+ a) with (String c (String c' r' +:+ a)).
    rewrite (normalize_cons c (String c' r' +:+ a)), (normalize_cons c (String c' r')).
    change (starts_with_slash (String c' r' +:+ a)) with (starts_with_slash (String c' r')).
    destruct (Ascii.eqb c "/" && starts_with_slash (String c' r')); [done |].
    by rewrite IH.
Qed.

Section SavedFiles.

Variable splitCustom : string → string → list string.

Lemma saveThumbnails_frame (root : string)
    (images : list (string * shared_ptr WholeSlideImage))
    (fs fs' : gmap string string) (q : string) :
  saveThumbnails splitCustom root images fs = Val fs' →
  (∀ name, normalize (root +:+ "/thumbnails/" +:+ name +:+ ".png") ≠ normalize q) →
  read_file fs' q = read_file fs q.
Proof.
  revert fs. induction images as [| [uid [wsi |]] rest IH]; intros fs; simpl.
  - by intros [= <-].
  - destruct (thumbnail_name splitCustom (get_filename wsi)) as [name | | |]; simpl;
      try done.
    intros H Hne. rewrite (IH _ H Hne).
    unfold read_file, write_file. by rewrite lookup_insert_ne.
  - done.
Qed.

Lemma saveThumbnails_keeps (root : string)
    (images : list (string * shared_ptr WholeSlideImage))
    (fs fs' : gmap string string) (q : string) :
  saveThumbnails splitCustom root images fs = Val fs' →
  is_Some (read_file fs q) → is_Some (read_file fs' q).
Proof.
  revert fs. induction images as [| [uid [wsi |]] rest IH]; intros fs; simpl.
  - by intros [= <-].
  - destruct (thumbnail_name splitCustom (get_filename wsi)) as [name | | |]; simpl;
      try done.
    intros H Hq. apply (IH _ H).
    unfold read_file, write_file in *. rewrite lookup_insert_is_Some'. by right.
  - done.
Qed.

Lemma saveThumbnails_written (root : string)
    (images : list (string * shared_ptr WholeSlideImage))
    (fs fs' : gmap string string) (uid : string) (wsi : WholeSlideImage) :
  saveThumbnails splitCustom root images fs = Val fs' →
  (uid, Some wsi) ∈ images →
  ∃ name, thumbnail_name splitCustom (get_filename wsi) = Val name
          ∧ is_Some (read_file fs' (root +:+ "/thumbnails/" +:+ name +:+ ".png")).
Proof.
  revert fs. induction images as [| [u [x |]] rest IH]; intros fs; simpl.
  - intros _ Hin. by apply elem_of_nil in Hin.
  - destruct (thumbnail_name splitCustom (get_filename x)) as [name | | |] eqn:E; simpl;
      try done.
    intros H Hin. apply elem_of_cons in Hin as [[= -> ->] | Hin].
    + exists name. split; [done |].
      apply (saveThumbnails_keeps _ _ _ _ _ H).
      unfold read_file, write_file. rewrite lookup_insert_eq. eauto.
    + by apply (IH _ H).
  - done.
Qed.

Lemma thumbnail_path_mismatch (root uid name : string) :
  starts_with_slash uid = false →
  normalize (root +:+ "/thumbnails/" +:+ name +:+ ".png")
  ≠ normalize (root +:+ "/thumbnails" +:+ uid +:+ ".png").
Proof.
  intros Huid H. apply normalize_app_cancel in H; [| done].
  change ("/thumbnails/" +:+ name +:+ ".png")
    with ("/thumbnails" +:+ String "/" (name +:+ ".png")) in H.
  rewrite !(normalize_app_no_slash "/thumbnails") in H by done.
  apply (inj (String.app _)) in H.
  apply (f_equal starts_with_slash) in H.
  rewrite !normalize_starts_with_slash in H.
  destruct uid; simpl in *; congruence.
Qed.

Lemma manifest_path_mismatch (root uid : string) :
  normalize (root +:+ "/project.txt") ≠ normalize (root +:+ "/thumbnails" +:+ uid +:+ ".png").
Proof.
  intros H. apply normalize_app_cancel in H; [| done].
  rewrite (normalize_app_no_slash "/thumbnails") in H by done.
  apply (f_equal (String.get 1)) in H. vm_compute in H. discriminate.
Qed.

End SavedFiles.

(** A property of the value of an outcome that is known to be a value. *)
Lemma when_Val {A : Type} (o : Out A) (P : A → Prop) :
  match o with Val _ => True | _ => False end →
  (∀ a, o = Val a → P a) →
  match o with Val a => P a | _ => False end.
Proof. destruct o; auto. Qed.

Section Restored.

Variable splitCustom : string → string → list string.

(** After [saveProject], no file is where [includeImageFromProject] looks
    for the thumbnail of [uid_name], unless one was there before. *)
Lemma restored_without_thumbnail (p : Project) (fs fs' : gmap string string)
    (uid_name image_filepath : string) :
  saveProject splitCustom p fs = Val fs' →
  starts_with_slash uid_name = false →
  read_file fs (_root_folder p +:+ "/thumbnails" +:+ uid_name +:+ ".png") = None →
  includeImageFromProject (_root_folder p) fs' uid_name image_filepath
  = Some {| get_filename := image_filepath; with_thumbnail := false |}.
Proof.
  intros Hsave Huid Hnone. unfold saveProject in Hsave.
  destruct (manifest (map_to_list (_images p))) as [text | | |]; try done.
  simpl in Hsave.
  unfold includeImageFromProject. do 2 f_equal.
  apply bool_decide_eq_false_2. intros Hsome.
  rewrite (saveThumbnails_frame splitCustom _ _ _ _ _ Hsave) in Hsome.
  - unfold read_file, write_file in Hsome, Hnone.
    rewrite lookup_insert_ne in Hsome by apply manifest_path_mismatch.
    rewrite Hnone in Hsome. by destruct Hsome.
  - intros name. by apply thumbnail_path_mismatch.
Qed.

End Restored.

(** X11.  What [saveProject] writes is never found when an image is
    restored: the thumbnails are written to [<root>/thumbnails/<file
    name>.png], while [includeImageFromProject] looks for
    [<root>/thumbnails<uid>.png] (no slash, uid instead of file name).
    Every image of the project gets its thumbnail file, and yet, unless a
    file of that second name was there before, the restored image is built
    without a thumbnail. *)
Theorem saved_thumbnails_are_not_found (splitCustom : string → string → list string)
    (p : Project) (fs fs' : gmap string string) (uid_name image_filepath : string) :
  saveProject splitCustom p fs = Val fs' →
  starts_with_slash uid_name = false →
  read_file fs (_root_folder p +:+ "/thumbnails" +:+ uid_name +:+ ".png") = None →
  (∀ uid wsi, _images p !! uid = Some (Some wsi) →
     ∃ name, thumbnail_name splitCustom (get_filename wsi) = Val name
             ∧ is_Some (read_file fs' (_root_folder p +:+ "/thumbnails/" +:+ name +:+ ".png")))
  ∧ includeImageFromProject (_root_folder p) fs' uid_name image_filepath
    = Some {| get_filename := image_filepath; with_thumbnail := false |}.
Proof.
  intros Hsave Huid Hnone.
  split; [| by apply (restored_without_thumbnail splitCustom p fs)].
  unfold saveProject in Hsave.
  destruct (manifest (map_to_list (_images p))) as [text | | |]; try done.
  simpl in Hsave.
  intros uid wsi Hin.
  apply (saveThumbnails_written splitCustom _ _ _ _ uid wsi Hsave).
  by apply elem_of_map_to_list.
Qed.

(** The theorem on the one-slide project saved to an empty disk. *)
Lemma saved_thumbnails_are_not_found_witness :
  match saveProject splitCustom_model one_slide_project ∅ with
  | Val fs' =>
      is_Some (read_file fs' "/home/user/study/thumbnails/slide1.png")
      ∧ includeImageFromProject "/home/user/study" fs' "slide1" "/data/slide1.svs"
        = Some {| get_filename := "/data/slide1.svs"; with_thumbnail := false |}
  | _ => False
  end.
Proof.
  assert (read_file ∅ (_root_folder one_slide_project +:+ "/thumbnails" +:+ "slide1" +:+ ".png")
          = None) as Hnone by (vm_compute; reflexivity).
  assert (_images one_slide_project !! "slide1" = Some (Some slide)) as Himg
    by (vm_compute; reflexivity).
  assert (thumbnail_name splitCustom_model (get_filename slide) = Val "slide1") as Hslide
    by (vm_compute; reflexivity).
  apply (when_Val (saveProject splitCustom_model one_slide_project ∅)
           (fun fs' =>
              is_Some (read_file fs' "/home/user/study/thumbnails/slide1.png")
              ∧ includeImageFromProject "/home/user/study" fs' "slide1" "/data/slide1.svs"
                = Some {| get_filename := "/data/slide1.svs"; with_thumbnail := false |}));
    [vm_compute; exact I |].
  intros fs' E.
  destruct (saved_thumbnails_are_not_found splitCustom_model one_slide_project ∅ fs'
              "slide1" "/data/slide1.svs" E eq_refl Hnone) as [Hwritten Hlost].
  split; [| exact Hlost].
  destruct (Hwritten "slide1" slide Himg) as (name & Hname & Hfile).
  rewrite Hslide in Hname. injection Hname as <-. exact Hfile.
Defined.

(** X12.  With a root folder that does not end in a slash, a project that
    was saved cannot be loaded back: [saveProject] writes
    [<root>/project.txt], [loadProject] opens [<root>project.txt], and
    unless a file of that second name was there before, the load leaves the
    project without images. *)
Theorem save_then_load_without_trailing_slash
    (splitCustom : string → string → list string)
    (p : Project) (fs fs' : gmap string string) :
  ends_with_slash (_root_folder p) = false →
  read_file fs (_root_folder p +:+ "project.txt") = None →
  saveProject splitCustom p fs = Val fs' →
  is_Some (read_file fs' (_root_folder p +:+ "/project.txt"))
  ∧ loadProject splitCustom fs' p = (Val tt, set_images (fun _ => ∅) p).
Proof.
  intros Hroot Hnone Hsave. unfold saveProject in Hsave.
  destruct (manifest (map_to_list (_images p))) as [text | | |]; try done.
  simpl in Hsave.
  assert (read_file fs' (_root_folder p +:+ "project.txt") = None) as Hread.
  { rewrite (saveThumbnails_frame splitCustom _ _ _ _ _ Hsave).
    - unfold read_file, write_file in *. rewrite lookup_insert_ne; [done |].
      rewrite !(normalize_app_no_slash (_root_folder p)) by done.
      intros H. apply (inj (String.app _)) in H. vm_compute in H. discriminate.
    - intros name.
      rewrite !(normalize_app_no_slash (_root_folder p)) by done.
      intros H. apply (inj (String.app _)) in H.
      apply (f_equal starts_with_slash) in H.
      rewrite normalize_starts_with_slash in H. vm_compute in H. discriminate. }
  split.
  - apply (saveThumbnails_keeps splitCustom _ _ _ _ _ Hsave).
    unfold read_file, write_file. rewrite lookup_insert_eq. eauto.
  - unfold loadProject, bind, emptyProject, modify, gets, lift. simpl.
    rewrite Hread. simpl. unfold set_images. simpl.
    by rewrite map_imap_empty, (left_id_L ∅ (∪)).
Qed.

(** The theorem on the one-slide project saved to an empty disk. *)
Lemma save_then_load_without_trailing_slash_witness :
  match saveProject splitCustom_model one_slide_project ∅ with
  | Val fs' =>
      loadProject splitCustom_model fs' one_slide_project
      = (Val tt, set_images (fun _ => ∅) one_slide_project)
  | _ => False
  end.
Proof.
  assert (read_file ∅ (_root_folder one_slide_project +:+ "project.txt") = None) as Hnone
    by (vm_compute; reflexivity).
  apply (when_Val (saveProject splitCustom_model one_slide_project ∅)
           (fun fs' => loadProject splitCustom_model fs' one_slide_project
                       = (Val tt, set_images (fun _ => ∅) one_slide_project)));
    [vm_compute; exact I |].
  intros fs' E.
  apply (save_then_load_without_trailing_slash splitCustom_model one_slide_project ∅ fs'
           eq_refl Hnone E).
Defined.

Section ThumbnailFacts.

Variable splitCustom : string → string → list string.

Lemma saveThumbnail_writes (p : Project) (uid : string) (wsi : WholeSlideImage)
    (name : string) (fs : gmap string string) :
  _images p !! uid = Some (Some wsi) →
  thumbnail_name splitCustom (get_filename wsi) = Val name →
  saveThumbnail splitCustom p uid fs
  = Val (write_file (_root_folder p +:+ "/thumbnails/" +:+ name +:+ ".png")
           ("thumbnail of " +:+ get_filename wsi) fs, []).
Proof. intros Himg Hname. unfold saveThumbnail. by rewrite Himg, Hname. Qed.

End ThumbnailFacts.

(** X13.  Thumbnails are stored under the name of the image file, not under
    the uid: the two uids that [includeImage] gives to two files of the same
    name (in different folders) share one thumbnail file, and saving the
    thumbnail of the second replaces the thumbnail of the first.  A uid that
    is not in the project writes no file and prints one line. *)
Theorem saveThumbnail_is_keyed_by_file_name
    (splitCustom : string → string → list string) (p : Project)
    (uid1 uid2 : string) (wsi1 wsi2 : WholeSlideImage) (name : string)
    (fs : gmap string string) :
  _images p !! uid1 = Some (Some wsi1) →
  _images p !! uid2 = Some (Some wsi2) →
  thumbnail_name splitCustom (get_filename wsi1) = Val name →
  thumbnail_name splitCustom (get_filename wsi2) = Val name →
  let file := _root_folder p +:+ "/thumbnails/" +:+ name +:+ ".png" in
  (∃ fs1, saveThumbnail splitCustom p uid1 fs = Val (fs1, [])
          ∧ read_file fs1 file = Some ("thumbnail of " +:+ get_filename wsi1)
          ∧ saveThumbnail splitCustom p uid2 fs1 = saveThumbnail splitCustom p uid2 fs
          ∧ ∃ fs2, saveThumbnail splitCustom p uid2 fs1 = Val (fs2, [])
                   ∧ read_file fs2 file = Some ("thumbnail of " +:+ get_filename wsi2))
  ∧ (∀ uid, _images p !! uid = None →
       ∃ line, saveThumbnail splitCustom p uid fs = Val (fs, [line])).
Proof.
  intros H1 H2 Hn1 Hn2 file. split.
  - eexists. split; [by apply saveThumbnail_writes |].
    split; [unfold read_file, write_file; by rewrite lookup_insert_eq |].
    rewrite !(saveThumbnail_writes splitCustom p uid2 wsi2 name) by done.
    split.
    + unfold write_file. by rewrite insert_insert_eq.
    + eexists. split; [done |].
      unfold read_file, write_file. by rewrite lookup_insert_eq.
  - intros uid Hnone. eexists. unfold saveThumbnail, shared_ptr in *. by rewrite Hnone.
Qed.

(** A project with two files named [slide1.svs]. *)
Definition same_name_project : Project :=
  {| _root_folder := "/home/user/study";
     _temporary_dir_flag := false;
     _images := <["slide1#4242" := Some {| get_filename := "/archive/slide1.svs";
                                           with_thumbnail := false |}]>
                  {[ "slide1" := Some slide ]} |}.

(** The theorem on the two files named [slide1.svs]. *)
Lemma saveThumbnail_is_keyed_by_file_name_witness :
  includeImage splitCustom_model [4242] "/archive/slide1.svs" one_slide_project
  = Some (Val "slide1#4242", same_name_project)
  ∧ ∃ fs1 fs2,
      saveThumbnail splitCustom_model same_name_project "slide1" ∅ = Val (fs1, [])
      ∧ saveThumbnail splitCustom_model same_name_project "slide1#4242" fs1 = Val (fs2, [])
      ∧ read_file fs2 "/home/user/study/thumbnails/slide1.png"
        = Some "thumbnail of /archive/slide1.svs".
Proof.
  split; [vm_compute; reflexivity |].
  pose (second := {| get_filename := "/archive/slide1.svs"; with_thumbnail := false |}).
  assert (_images same_name_project !! "slide1" = Some (Some slide)) as H1
    by (vm_compute; reflexivity).
  assert (_images same_name_project !! "slide1#4242" = Some (Some second)) as H2
    by (vm_compute; reflexivity).
  assert (thumbnail_name splitCustom_model (get_filename slide) = Val "slide1") as Hn1
    by (vm_compute; reflexivity).
  assert (thumbnail_name splitCustom_model (get_filename second) = Val "slide1") as Hn2
    by (vm_compute; reflexivity).
  destruct (saveThumbnail_is_keyed_by_file_name splitCustom_model same_name_project
              "slide1" "slide1#4242" slide second "slide1" ∅ H1 H2 Hn1 Hn2)
    as [(fs1 & Hs1 & _ & _ & fs2 & Hs2 & Hread) _].
  exists fs1, fs2. split; [exact Hs1 |]. split; [exact Hs2 |]. exact Hread.
Defined.

(** ** Results saved and loaded again *)

Lemma from_last_dot_app (name suffix : string) :
  from_last_dot suffix = None →
  from_last_dot (name +:+ String "." suffix) = Some (String "." suffix).
Proof.
  intros Hs. induction name as [| c name IH].
  - simpl. by rewrite Hs.
  - change (String c name +:+ String "." suffix)
      with (String c (name +:+ String "." suffix)).
    cbn [from_last_dot]. by rewrite IH.
Qed.

Lemma extension_app (name suffix : string) :
  from_last_dot suffix = None →
  extension (name +:+ String "." suffix) = Val (String "." suffix).
Proof. intros Hs. unfold extension. by rewrite from_last_dot_app. Qed.

(** The renderer [loadResults] builds for data of a class. *)
Definition reloaded_class (dataTypeName : string) : option (string * string) :=
  if String.eqb dataTypeName "ImagePyramid" then Some (".tiff", "SegmentationRenderer")
  else if String.eqb dataTypeName "Image" then Some (".mhd", "SegmentationRenderer")
  else if String.eqb dataTypeName "Tensor" then Some (".hdf5", "HeatmapRenderer")
  else None.

Section RoundTrip.

Variable trim : string → string.
Variable split : string → list string.
Variable attribute_error : string → string → string → option exn.

Lemma load_file_attributes (folder : string) (files : ResultSet) (view : list Renderer) :
  load_file trim split attribute_error folder files "attributes.txt" view = (Val tt, view).
Proof. reflexivity. Qed.

Lemma load_file_payload (folder : string) (files : ResultSet) (name suffix cls text : string)
    (view : list Renderer) :
  from_last_dot suffix = None →
  renderer_class (String "." suffix) = Some cls →
  lookup_file "attributes.txt" files = Some text →
  load_file trim split attribute_error folder files (name +:+ String "." suffix) view
  = bind (lift (replay trim split attribute_error
                  {| class_name := cls; payload := join folder (name +:+ String "." suffix);
                     attributes := [] |} (pieces text)))
         (fun r => modify (fun v => (v ++ [r])%list)) view.
Proof.
  intros Hs Hcls Htext. unfold load_file. cbv [bind lift].
  rewrite (extension_app name suffix Hs). cbv beta iota.
  by rewrite Hcls, Htext.
Qed.

Lemma payload_is_not_attributes (name suffix : string) :
  from_last_dot suffix = None → suffix ≠ "txt" →
  String.eqb (name +:+ String "." suffix) "attributes.txt" = false.
Proof.
  intros Hs Hne. apply String.eqb_neq. intros Heq.
  pose proof (from_last_dot_app name suffix Hs) as H. rewrite Heq in H.
  vm_compute in H. congruence.
Qed.

End RoundTrip.

Section RoundTripFacts.

Variable trim : string → string.
Variable split : string → list string.
Variable attribute_error : string → string → string → option exn.

Lemma load_files_written (folder name suffix cls content text : string)
    (listed : ResultSet) (view : list Renderer) :
  from_last_dot suffix = None → suffix ≠ "txt" →
  renderer_class (String "." suffix) = Some cls →
  listed ≡ₚ [(name +:+ String "." suffix, content); ("attributes.txt", text)] →
  load_files trim split attribute_error folder listed listed.*1 view
  = bind (lift (replay trim split attribute_error
                  {| class_name := cls; payload := join folder (name +:+ String "." suffix);
                     attributes := [] |} (pieces text)))
         (fun r => modify (fun v => (v ++ [r])%list)) view.
Proof.
  intros Hs Hne Hcls Hperm.
  pose proof (payload_is_not_attributes name suffix Hs Hne) as Hnot.
  symmetry in Hperm. apply Permutation_length_2_inv in Hperm as [-> | ->];
    cbn [fmap list_fmap fst load_files].
  - unfold bind at 1.
    rewrite (load_file_payload trim split attribute_error folder _ name suffix cls text)
      by (try done; unfold lookup_file; cbn [List.find fst]; by rewrite Hnot).
    unfold bind, lift, modify, ret.
    by destruct (replay _ _ _ _ _) as [r | e | |].
  - unfold bind at 1. rewrite load_file_attributes.
    unfold bind at 1.
    rewrite (load_file_payload trim split attribute_error folder _ name suffix cls text)
      by done.
    unfold bind, lift, modify, ret.
    by destruct (replay _ _ _ _ _) as [r | e | |].
Qed.

End RoundTripFacts.

(** X14.  What [saveResults] writes for one data object, [loadResults]
    reads back as one renderer, whatever the order in which the directory
    lists the two files: an [ImagePyramid] (written as [.tiff]) or an
    [Image] (written as [.mhd]) comes back under a [SegmentationRenderer], a
    [Tensor] (written as [.hdf5]) under a [HeatmapRenderer], connected to the
    file that was written; the attributes replayed on it are those of all
    the renderers of the pipeline but the image pyramid's, which are written
    to every folder.  For any other class only [attributes.txt] is written
    and no renderer comes back. *)
Theorem saveResults_then_load_files
    (trim : string → string) (split : string → list string)
    (attribute_error : string → string → string → option exn)
    (root wsi_uid : string) (pipeline : Pipeline) (data : string * DataObject)
    (listed : ResultSet) (view : list Renderer) :
  let saved := save_data root wsi_uid pipeline data in
  let folder := saved.1.1 in
  listed ≡ₚ saved.1.2 →
  folder = join (join (join (join root "results") wsi_uid) (getName pipeline)) data.1
  ∧ load_files trim split attribute_error folder listed listed.*1 view
    = match reloaded_class (getNameOfClass data.2) with
      | Some (suffix, cls) =>
          bind (lift (replay trim split attribute_error
                        {| class_name := cls; payload := join folder (data.1 +:+ suffix);
                           attributes := [] |}
                        (pieces (attributes_text (getRenderers pipeline)))))
               (fun r => modify (fun v => (v ++ [r])%list)) view
      | None => (Val tt, view)
      end.
Proof.
  intros saved folder. subst saved folder. unfold save_data, reloaded_class.
  destruct (String.eqb (getNameOfClass data.2) "ImagePyramid");
    [| destruct (String.eqb (getNameOfClass data.2) "Image");
       [| destruct (String.eqb (getNameOfClass data.2) "Tensor")]];
    cbn [fst snd]; intros Hperm; (split; [reflexivity |]).
  - eapply (load_files_written _ _ _ _ _ "tiff" "SegmentationRenderer"); [done | done | done | exact Hperm].
  - eapply (load_files_written _ _ _ _ _ "mhd" "SegmentationRenderer"); [done | done | done | exact Hperm].
  - eapply (load_files_written _ _ _ _ _ "hdf5" "HeatmapRenderer"); [done | done | done | exact Hperm].
  - symmetry in Hperm. apply Permutation_length_1_inv in Hperm as ->. reflexivity.
Qed.

(** A pipeline that shows a slide and a heat map computed on it. *)
Definition heat_pipeline : Pipeline :=
  {| getName := "grading";
     getRenderers :=
       [{| renderer_getNameOfClass := "ImagePyramidRenderer";
           attributesToString := "Attribute sharpening true" +:+ newline |};
        {| renderer_getNameOfClass := "SegmentationRenderer";
           attributesToString := "Attribute opacity 0.4" +:+ newline |}] |}.

(** The theorem on a tensor that a pipeline showed with a segmentation
    renderer: it comes back under a heat map renderer. *)
Lemma saveResults_then_load_files_witness :
  saveResults "/home/user/study" "slide1" heat_pipeline
    {[ "heat" := {| getNameOfClass := "Tensor"; exported := "payload" |} ]}
  = [("/home/user/study/results/slide1/grading/heat",
      [("heat.hdf5", "payload"); ("attributes.txt", "Attribute opacity 0.4" +:+ newline)],
      ["Saving Tensor data to /home/user/study/results/slide1/grading/heat"])]
  ∧ load_files fast_trim fast_split no_attribute_error
      "/home/user/study/results/slide1/grading/heat"
      [("attributes.txt", "Attribute opacity 0.4" +:+ newline); ("heat.hdf5", "payload")]
      ["attributes.txt"; "heat.hdf5"] []
    = (Val tt, [{| class_name := "HeatmapRenderer";
                   payload := "/home/user/study/results/slide1/grading/heat/heat.hdf5";
                   attributes := [("opacity", "0.4")] |}]).
Proof.
  split; [vm_compute; reflexivity |].
  pose (data := ("heat", {| getNameOfClass := "Tensor"; exported := "payload" |})).
  destruct (saveResults_then_load_files fast_trim fast_split no_attribute_error
              "/home/user/study" "slide1" heat_pipeline data
              [("attributes.txt", "Attribute opacity 0.4" +:+ newline); ("heat.hdf5", "payload")]
              []) as [_ Hload].
  - apply perm_swap.
  - etrans; [exact Hload |]. vm_compute. reflexivity.
Defined.

(** ** What [loadResults] does to the view *)

(** A renderer [loadResults] can add below [saveFolder]. *)
Definition reloaded (r : Renderer) : Prop :=
  class_name r = "SegmentationRenderer" ∨ class_name r = "HeatmapRenderer".

(** [m] only adds renderers at the end of the view. *)
Definition appends {A : Type} (m : M (list Renderer) A) : Prop :=
  ∀ view, ∃ added, (m view).2 = (view ++ added)%list ∧ Forall reloaded added.

Lemma appends_ret {A : Type} (a : A) : appends (ret a).
Proof. intros view. exists []. by rewrite app_nil_r. Qed.

Lemma appends_lift {A : Type} (o : Out A) : appends (lift o).
Proof. intros view. exists []. by rewrite app_nil_r. Qed.

Lemma appends_bind {A B : Type} (m : M (list Renderer) A) (k : A → M (list Renderer) B) :
  appends m → (∀ a, appends (k a)) → appends (bind m k).
Proof.
  intros Hm Hk view. unfold bind.
  destruct (Hm view) as (added & Hview & Hok).
  destruct (m view) as [[a | e | |] view'] eqn:E; simpl in Hview; subst view'; simpl; eauto.
  destruct (Hk a (view ++ added)%list) as (more & Hview' & Hok').
  exists (added ++ more)%list. rewrite Hview', app_assoc. split; [done |].
  by apply Forall_app.
Qed.

Lemma replay_line_class (trim : string → string) (split : string → list string)
    (attribute_error : string → string → string → option exn)
    (r r' : Renderer) (raw : string) :
  replay_line trim split attribute_error r raw = Val (Some r') →
  class_name r' = class_name r ∧ payload r' = payload r.
Proof.
  unfold replay_line.
  destruct (at_ (split (trim raw)) 0) as [t0 | | |]; simpl; try done.
  destruct (negb (String.eqb t0 "Attribute")); [done |].
  destruct (length (split (trim raw)) <? 3)%nat; [done |].
  destruct (at_ (split (trim raw)) 1) as [name | | |]; simpl; try done.
  destruct (substr_from _ _) as [rest | | |]; simpl; try done.
  destruct (attribute_error _ _ _); [done |].
  by intros [= <-].
Qed.

Lemma replay_class (trim : string → string) (split : string → list string)
    (attribute_error : string → string → string → option exn)
    (ps : list string) (r r' : Renderer) :
  replay trim split attribute_error r ps = Val r' →
  class_name r' = class_name r ∧ payload r' = payload r.
Proof.
  revert r. induction ps as [| raw ps IH]; intros r; simpl.
  - by intros [= <-].
  - destruct (replay_line trim split attribute_error r raw) as [[r1 |] | | |] eqn:E;
      simpl; try done.
    + intros H. apply IH in H as [-> ->]. by apply replay_line_class in E.
    + by intros [= <-].
Qed.

Section Appends.

Variable trim : string → string.
Variable split : string → list string.
Variable attribute_error : string → string → string → option exn.

Lemma appends_load_file (folder : string) (files : ResultSet) (filename : string) :
  appends (load_file trim split attribute_error folder files filename).
Proof.
  unfold load_file. apply appends_bind; [apply appends_lift |]. intros ext.
  destruct (renderer_class ext) as [cls |] eqn:Hcls; [| apply appends_ret].
  destruct (lookup_file "attributes.txt" files) as [text |]; [| apply appends_lift].
  intros view. unfold bind, lift, modify.
  destruct (replay _ _ _ _ _) as [r | e | |] eqn:E; simpl;
    try (exists []; by rewrite app_nil_r).
  exists [r]. split; [done |]. constructor; [| done].
  apply replay_class in E as [Hc _]. simpl in Hc. unfold reloaded. rewrite Hc.
  unfold renderer_class in Hcls.
  repeat match type of Hcls with
         | (if ?c then _ else _) = _ => destruct c
         end; first [discriminate | injection Hcls as <-; auto].
Qed.

Lemma appends_load_files (folder : string) (files : ResultSet) (names : list string) :
  appends (load_files trim split attribute_error folder files names).
Proof.
  induction names as [| n names IH]; simpl; [apply appends_ret |].
  apply appends_bind; [apply appends_load_file | done].
Qed.

Lemma appends_load_outputs (folder : string) (outputs : list (string * ResultSet)) :
  appends (load_outputs trim split attribute_error folder outputs).
Proof.
  induction outputs as [| [dataName files] outputs IH]; simpl; [apply appends_ret |].
  apply appends_bind; [apply appends_load_files | done].
Qed.

Lemma appends_load_pipelines (saveFolder : string) (tree : ResultTree) :
  appends (load_pipelines trim split attribute_error saveFolder tree).
Proof.
  induction tree as [| [pipelineName outputs] tree IH]; simpl; [apply appends_ret |].
  apply appends_bind; [apply appends_load_outputs | done].
Qed.

Lemma load_files_app (folder : string) (files : ResultSet) (xs ys : list string)
    (view : list Renderer) :
  load_files trim split attribute_error folder files (xs ++ ys) view
  = bind (load_files trim split attribute_error folder files xs)
         (fun _ => load_files trim split attribute_error folder files ys) view.
Proof.
  revert view. induction xs as [| x xs IH]; intros view; simpl; [done |].
  rewrite bind_assoc. unfold bind.
  destruct (load_file _ _ _ _ _ _ view) as [[[] | e | |] v]; try reflexivity.
  by rewrite IH.
Qed.

Lemma load_file_without_dot (folder : string) (files : ResultSet) (filename : string)
    (view : list Renderer) :
  from_last_dot filename = None →
  load_file trim split attribute_error folder files filename view
  = (Raise (out_of_range "basic_string::substr"), view).
Proof. intros H. unfold load_file, bind, lift, extension. by rewrite H. Qed.

End Appends.

(** X15.  [loadResults] never removes, replaces or reorders a renderer of
    the view: whatever the result tree holds and however the call ends (also
    with an exception), the view after it is the view before it followed by
    renderers of class [SegmentationRenderer] or [HeatmapRenderer]; without a
    result directory the call completes and the view is unchanged. *)
Theorem loadResults_only_appends
    (trim : string → string) (split : string → list string)
    (attribute_error : string → string → string → option exn)
    (root wsi_uid : string) (results : option ResultTree) (view : list Renderer) :
  (∃ added,
     (loadResults trim split attribute_error root wsi_uid results view).2
     = (view ++ added)%list
     ∧ Forall reloaded added)
  ∧ (results = None →
     loadResults trim split attribute_error root wsi_uid results view = (Val tt, view)).
Proof.
  split.
  - destruct results as [tree |]; simpl.
    + apply appends_load_pipelines.
    + exists []. by rewrite app_nil_r.
  - by intros ->.
Qed.

(** X16.  A file without a dot in its name, anywhere in a result folder,
    ends [loadResults] with the [std::out_of_range] of [substr]: the result
    sets before it and the files listed before it in its own folder have
    been loaded, nothing after it is. *)
Theorem loadResults_file_without_dot
    (trim : string → string) (split : string → list string)
    (attribute_error : string → string → string → option exn)
    (root wsi_uid : string) (tree : ResultTree)
    (pre post : list (string * ResultSet)) (folder : string) (files : ResultSet)
    (before others : list string) (filename : string)
    (view view1 view2 : list Renderer) :
  result_sets (join (join root "results") wsi_uid) tree
    = (pre ++ (folder, files) :: post)%list →
  load_sets trim split attribute_error pre view = (Val tt, view1) →
  files.*1 = (before ++ filename :: others)%list →
  load_files trim split attribute_error folder files before view1 = (Val tt, view2) →
  from_last_dot filename = None →
  loadResults trim split attribute_error root wsi_uid (Some tree) view
  = (Raise (out_of_range "basic_string::substr"), view2).
Proof.
  intros Hsets Hpre Hfiles Hbefore Hdot. unfold loadResults.
  rewrite load_pipelines_sets, Hsets, load_sets_app.
  rewrite (bind_Val _ _ _ _ _ Hpre). simpl.
  apply bind_Raise. rewrite Hfiles, load_files_app.
  rewrite (bind_Val _ _ _ _ _ Hbefore). simpl.
  apply bind_Raise. by apply load_file_without_dot.
Qed.

(** A result set with a file named [README] after its payload. *)
Definition with_readme : string * ResultSet :=
  ("a_mask", [("a_mask.mhd", "payload");
              ("attributes.txt", "Attribute opacity 0.4" +:+ newline);
              ("README", "notes"); ("z_mask.mhd", "payload")]).

(** The theorem on the set with a [README] followed by a second set. *)
Lemma loadResults_file_without_dot_witness :
  loadResults fast_trim fast_split no_attribute_error "/home/user/study" "slide1"
    (Some [("tumor", [with_readme; good_third])]) []
  = (Raise (out_of_range "basic_string::substr"), [a_mask_renderer]).
Proof.
  apply (loadResults_file_without_dot fast_trim fast_split no_attribute_error
           "/home/user/study" "slide1" [("tumor", [with_readme; good_third])]
           [] [("/home/user/study/results/slide1/tumor/c_heat", good_third.2)]
           "/home/user/study/results/slide1/tumor/a_mask" with_readme.2
           ["a_mask.mhd"; "attributes.txt"] ["z_mask.mhd"] "README" [] []);
    vm_compute; reflexivity.
Defined.

(** ** The folders of a project *)

Lemma path_parts_app (root name cur : string) :
  path_parts (root +:+ String "/" name) cur
  = (path_parts root cur ++ path_parts name "")%list.
Proof.
  revert cur. induction root as [| c root IH]; intros cur.
  - simpl. by destruct (String.eqb cur "").
  - change (String c root +:+ String "/" name) with (String c (root +:+ String "/" name)).
    cbn [path_parts].
    destruct (Ascii.eqb c "/"); [| apply IH].
    destruct (String.eqb cur ""); rewrite IH; done.
Qed.

Lemma path_parts_sub (root : string) (ds : Dirs) (name : string) :
  path_parts name "" = [name] →
  path_parts (root +:+ String "/" name) "" = (path_parts root "" ++ [name])%list.
Proof. intros H. by rewrite path_parts_app, H. Qed.

(** One sub-folder of lines 46-57. *)
Definition ensure (path : string) (ds : Dirs) : Dirs :=
  if negb (dir_exists path ds) then mkdir path ds else ds.

Lemma ensure_sub (root name : string) (ds : Dirs) :
  path_parts name "" = [name] →
  ensure (root +:+ String "/" name) ds
  = if bool_decide (path_parts root "" = [] ∨ path_parts root "" ∈ ds)
    then {[ (path_parts root "" ++ [name])%list ]} ∪ ds else ds.
Proof.
  intros Hname. unfold ensure, dir_exists, mkdir.
  rewrite path_parts_app, Hname.
  set (d := (path_parts root "" ++ [name])%list).
  assert (removelast d = path_parts root "") as -> by apply removelast_last.
  assert (d ≠ []) as Hne by (unfold d; by destruct (path_parts root "")).
  destruct (decide (d ∈ ds)) as [Hin | Hout].
  - rewrite (bool_decide_eq_true_2 (d = [] ∨ d ∈ ds)) by auto. simpl.
    case_bool_decide; [| done].
    apply set_eq. intros x. rewrite elem_of_union, elem_of_singleton.
    split; [auto | by intros [-> | ?]].
  - rewrite (bool_decide_eq_false_2 (d = [] ∨ d ∈ ds)) by tauto. simpl.
    repeat case_bool_decide; try done; tauto.
Qed.

(** The three folders of a project under [root]. *)
Definition subfolders (root : string) : list (list string) :=
  (fun name => (path_parts root "" ++ [name])%list) <$> ["pipelines"; "results"; "thumbnails"].

Lemma createFolderDirectoryArchitecture_spec (p : Project) (ds : Dirs) :
  createFolderDirectoryArchitecture p ds
  = if bool_decide (path_parts (_root_folder p) "" = [] ∨ path_parts (_root_folder p) "" ∈ ds)
    then list_to_set (subfolders (_root_folder p)) ∪ ds
    else ds.
Proof.
  change (createFolderDirectoryArchitecture p ds)
    with (ensure (_root_folder p +:+ String "/" "thumbnails")
            (ensure (_root_folder p +:+ String "/" "results")
               (ensure (_root_folder p +:+ String "/" "pipelines") ds))).
  set (R := path_parts (_root_folder p) "").
  rewrite (ensure_sub _ "pipelines") by done. fold R.
  destruct (decide (R = [] ∨ R ∈ ds)) as [Hok | Hno].
  - rewrite (bool_decide_eq_true_2 _ Hok).
    rewrite (ensure_sub _ "results") by done. fold R.
    rewrite bool_decide_eq_true_2
      by (destruct Hok; [by left | right; apply elem_of_union; by right]).
    rewrite (ensure_sub _ "thumbnails") by done. fold R.
    rewrite bool_decide_eq_true_2
      by (destruct Hok; [by left | right; rewrite !elem_of_union; auto]).
    unfold subfolders. simpl. fold R.
    apply set_eq. intros x.
    rewrite !elem_of_union, !elem_of_singleton, elem_of_empty. tauto.
  - rewrite (bool_decide_eq_false_2 _ Hno).
    rewrite (ensure_sub _ "results") by done. fold R.
    rewrite (bool_decide_eq_false_2 _ Hno).
    rewrite (ensure_sub _ "thumbnails") by done. fold R.
    by rewrite (bool_decide_eq_false_2 _ Hno).
Qed.

Lemma path_parts_nonempty (path cur : string) :
  cur ≠ "" → path_parts path cur ≠ [].
Proof.
  revert cur. induction path as [| c path IH]; intros cur Hcur; simpl.
  - by destruct (String.eqb_spec cur "").
  - destruct (Ascii.eqb c "/").
    + by destruct (String.eqb_spec cur "").
    + apply IH. by destruct cur.
Qed.

Lemma mkpath_creates (path : string) (ds : Dirs) :
  path_parts path "" ≠ [] → path_parts path "" ∈ mkpath path ds.
Proof.
  intros Hne. unfold mkpath. apply elem_of_union. left.
  apply elem_of_list_to_set, list_elem_of_fmap.
  exists (length (path_parts path "")). split; [by rewrite firstn_all |].
  apply elem_of_seq. destruct (path_parts path ""); [done | simpl; lia].
Qed.

Lemma subfolder_exists (root name : string) (ds : Dirs) :
  path_parts name "" = [name] →
  (path_parts root "" ++ [name])%list ∈ ds →
  dir_exists (root +:+ String "/" name) ds = true.
Proof.
  intros Hname Hin. unfold dir_exists. rewrite path_parts_app, Hname.
  apply bool_decide_eq_true_2. by right.
Qed.

Lemma rmdir_of_parent (root name : string) (ds : Dirs) (fs : gmap string string) :
  (path_parts root "" ++ [name])%list ∈ ds → rmdir root ds fs = ds.
Proof.
  intros Hin. unfold rmdir. rewrite bool_decide_eq_false_2; [done |].
  intros (_ & Hempty & _).
  destruct (Hempty _ Hin) as [Hnil | Hparent].
  - by destruct (path_parts root "").
  - by rewrite removelast_last in Hparent.
Qed.

(** X17.  The folder that the constructor creates under the temporary path
    is never removed by the destructor: [rmdir] removes an empty directory
    only, and the constructor has put the three folders [pipelines],
    [results] and [thumbnails] into it.  Whatever directories and files
    exist, after [Project()] followed by [~Project()] the folder and its
    three sub-folders are still there. *)
Theorem temporary_project_folder_is_not_removed (tempPath random_numbers : string)
    (ds : Dirs) (fs : gmap string string) :
  let created := Project_new tempPath random_numbers ds in
  let p := created.1.1 in
  let ds1 := created.1.2 in
  _temporary_dir_flag p = true
  ∧ _root_folder p = tempPath +:+ "/project_" +:+ random_numbers
  ∧ dir_exists (_root_folder p) ds1 = true
  ∧ dir_exists (_root_folder p +:+ "/pipelines") ds1 = true
  ∧ dir_exists (_root_folder p +:+ "/results") ds1 = true
  ∧ dir_exists (_root_folder p +:+ "/thumbnails") ds1 = true
  ∧ (Project_delete p ds1 fs).1 = ds1.
Proof.
  intros created p ds1. subst created p ds1. unfold Project_new. cbn [fst snd].
  set (root := tempPath +:+ "/project_" +:+ random_numbers).
  set (p := {| _root_folder := root; _temporary_dir_flag := true; _images := ∅ |}).
  assert (path_parts root "" ≠ []) as Hne.
  { unfold root. change ("/project_" +:+ random_numbers)
      with (String "/" ("project_" +:+ random_numbers)).
    rewrite path_parts_app. intros H. apply app_eq_nil in H as [_ H].
    change (path_parts ("project_" +:+ random_numbers) "")
      with (path_parts ("roject_" +:+ random_numbers) "p") in H.
    by apply path_parts_nonempty in H. }
  pose proof (mkpath_creates root ds Hne) as Hroot.
  rewrite (createFolderDirectoryArchitecture_spec p (mkpath root ds)).
  change (_root_folder p) with root.
  rewrite bool_decide_eq_true_2 by by right.
  set (ds1 := list_to_set (subfolders root) ∪ mkpath root ds).
  assert (∀ name, name ∈ ["pipelines"; "results"; "thumbnails"] →
                  (path_parts root "" ++ [name])%list ∈ ds1) as Hsub.
  { intros name Hname. apply elem_of_union. left.
    apply elem_of_list_to_set. unfold subfolders.
    apply list_elem_of_fmap. by exists name. }
  split; [done |]. split; [done |].
  split; [unfold dir_exists; apply bool_decide_eq_true_2; right;
          apply elem_of_union; by right |].
  split; [apply (subfolder_exists root "pipelines"); [done | apply Hsub; repeat constructor] |].
  split; [apply (subfolder_exists root "results"); [done | apply Hsub; repeat constructor] |].
  split; [apply (subfolder_exists root "thumbnails"); [done | apply Hsub; repeat constructor] |].
  unfold Project_delete. cbn [fst _temporary_dir_flag p _root_folder].
  apply (rmdir_of_parent root "pipelines"), Hsub. repeat constructor.
Qed.

(** X18.  [setRootFolder] creates the three folders of a project only
    inside a folder that exists: [mkdir] creates no parent, so that with a
    root folder that is missing no directory is created at all and the
    call says nothing about it.  With a root folder that exists the three
    folders exist afterwards and a second call changes nothing.  The images
    are kept, and the destructor removes no folder of a project whose root
    was set this way. *)
Theorem setRootFolder_creates_folders_in_existing_root (root_folder : string)
    (p : Project) (ds : Dirs) :
  let r := setRootFolder root_folder p ds in
  _images r.1 = _images p
  ∧ (dir_exists root_folder ds = false → r.2 = ds)
  ∧ (dir_exists root_folder ds = true →
     dir_exists (root_folder +:+ "/pipelines") r.2 = true
     ∧ dir_exists (root_folder +:+ "/results") r.2 = true
     ∧ dir_exists (root_folder +:+ "/thumbnails") r.2 = true
     ∧ (∀ d, d ∈ ds → d ∈ r.2)
     ∧ setRootFolder root_folder r.1 r.2 = r)
  ∧ (∀ fs, (Project_delete r.1 r.2 fs).1 = r.2).
Proof.
  intros r. subst r. unfold setRootFolder. cbn [fst snd].
  set (p' := {| _root_folder := root_folder; _temporary_dir_flag := false;
                _images := _images p |}).
  rewrite (createFolderDirectoryArchitecture_spec p' ds).
  change (_root_folder p') with root_folder.
  split; [done |]. split; [| split]; [| | done].
  - unfold dir_exists. intros Hno. by rewrite Hno.
  - unfold dir_exists at 1. intros Hyes. rewrite Hyes.
    apply bool_decide_eq_true_1 in Hyes.
    set (ds1 := list_to_set (subfolders root_folder) ∪ ds).
    assert (∀ name, name ∈ ["pipelines"; "results"; "thumbnails"] →
                    (path_parts root_folder "" ++ [name])%list ∈ ds1) as Hsub.
    { intros name Hname. apply elem_of_union. left.
      apply elem_of_list_to_set. unfold subfolders.
    apply list_elem_of_fmap. by exists name. }
    split; [apply (subfolder_exists root_folder "pipelines"); [done | apply Hsub; repeat constructor] |].
    split; [apply (subfolder_exists root_folder "results"); [done | apply Hsub; repeat constructor] |].
    split; [apply (subfolder_exists root_folder "thumbnails"); [done | apply Hsub; repeat constructor] |].
    split; [intros d Hd; apply elem_of_union; by right |].
    f_equal.
    rewrite (createFolderDirectoryArchitecture_spec _ ds1).
    cbn [_root_folder].
    rewrite bool_decide_eq_true_2
      by (destruct Hyes; [by left | right; apply elem_of_union; by right]).
    unfold ds1. apply set_eq. intros x. rewrite !elem_of_union. tauto.
Qed.

(** ** A host without a supported kernel *)

Lemma select_engine_no_backend (acceptedModels : list string) :
  select_engine acceptedModels [] = ("", "").
Proof. unfold select_engine. simpl. by rewrite !andb_false_r. Qed.

Section NoBackend.

Context {F : Type} (fl : Floats F) (w : World F).

Hint Resolve silent_ext silent_stoi_of silent_stoi_at silent_configure_nodes
  silent_set_scale_factor silent_set_colors silent_class_colors silent_read_anchors
  silent_read_anchor_file keeps_patch_lvl_model keeps_low_resolution
  keeps_configure_network keeps_connect_input keeps_scale_input keeps_new_network
  keeps_network_setInferenceEngine keeps_currNetwork_setInferenceEngine
  keeps_currNetwork_load : frame.

Lemma run_model_no_backend (process_name : string) (modelMetadata : gmap string string)
    (accepted : list string) (patch_level currLvl : Z) :
  inference_engines w = [] →
  silent (run_model fl w process_name modelMetadata accepted patch_level currLvl).
Proof.
  intros Hnone st. unfold run_model, bind, lift, selectOptimalInferenceEngine.
  rewrite Hnone.
  destruct (acceptedModels w process_name) as [a | e | |]; simpl; try done.
  by rewrite select_engine_no_backend.
Qed.

Lemma pixelClassifier_try_no_backend (process_name : string) :
  inference_engines w = [] →
  preserves renderers (pixelClassifier_try fl w process_name)
  ∧ preserves currNetwork (pixelClassifier_try fl w process_name).
Proof.
  intros Hnone.
  split; unfold pixelClassifier_try, has_renderer, patch_lvl_model, low_resolution,
    new_network; cbv zeta;
    repeat match goal with
           | |- preserves _ (bind (run_model _ _ _ _ _ _ _) _) =>
               apply preserves_bind;
                 [apply preserves_silent, (run_model_no_backend _ _ _ _ _ Hnone) | intros ?]
           | |- _ => preserves_step
           end.
Qed.

End NoBackend.

(** X19.  On a host whose kernel is none of [linux], [winnt] and [wince],
    [identifySystem] finds no inference engine, whatever the library folder
    holds, and prints that the kernel is not supported.  With that engine
    list no model can run: the engine resolution gives the empty pair for
    every model and every set of model files, and [pixelClassifier]
    registers no renderer and does not touch the detection network. *)
Theorem unsupported_kernel_runs_no_model {F : Type} (fl : Floats F) (w : World F)
    (operating_system kernel : string) (tmpPaths : list string) :
  kernel ≠ "linux" → kernel ≠ "winnt" → kernel ≠ "wince" →
  (identifySystem w operating_system kernel tmpPaths).1 = Val (inference_engines w) →
  inference_engines w = []
  ∧ last (identifySystem w operating_system kernel tmpPaths).2
    = Some (unsupported_kernel kernel)
  ∧ (∀ acceptedModels, select_engine acceptedModels (inference_engines w) = ("", ""))
  ∧ (∀ process_name st,
       renderers (pixelClassifier fl w process_name st).2 = renderers st
       ∧ currNetwork (pixelClassifier fl w process_name st).2 = currNetwork st).
Proof.
  intros H1 H2 H3. unfold identifySystem.
  destruct (String.eqb_spec kernel "linux") as [? | _]; [done |].
  destruct (String.eqb_spec kernel "winnt") as [? | _]; [done |].
  destruct (String.eqb_spec kernel "wince") as [? | _]; [done |].
  simpl. intros [= Hnone]. symmetry in Hnone.
  split; [done |]. split; [done |].
  split; [intros a; rewrite Hnone; apply select_engine_no_backend |].
  intros process_name st.
  destruct (pixelClassifier_try_no_backend fl w process_name Hnone) as [Hr Hc].
  specialize (Hr st). specialize (Hc st). unfold pixelClassifier.
  by destruct (pixelClassifier_try fl w process_name st) as [[[] | e | |] st'].
Qed.

(** The theorem on a host with the [darwin] kernel. *)
Lemma unsupported_kernel_runs_no_model_witness :
  let w := host tumor_model ["tumor.onnx"] [] in
  identifySystem w "macos" "darwin" ["libInferenceEngineOpenVINO.dylib"]
  = (Val [], ["Current OS is: macos"; "Current kernel is: darwin";
              unsupported_kernel "darwin"])
  ∧ renderers (pixelClassifier RealFloat.ops w "tumor" start).2 = renderers start.
Proof.
  intros w. split; [reflexivity |].
  destruct (unsupported_kernel_runs_no_model RealFloat.ops w "macos" "darwin"
              ["libInferenceEngineOpenVINO.dylib"]) as (_ & _ & _ & H);
    try discriminate; [reflexivity |].
  apply H.
Defined.

(** On [linux] the engine names are read off the library files. *)
Example identifySystem_linux :
  identifySystem (host tumor_model [] []) "ubuntu" "linux"
    ["libFAST.so"; "libInferenceEngineOpenVINO.so"; "libInferenceEngineTensorRT.so"]
  = (Val ["OpenVINO"; "TensorRT"],
     ["Current OS is: ubuntu"; "Current kernel is: linux"]).
Proof. vm_compute. reflexivity. Qed.

(** ** What is printed never changes a run *)

(** [m] does not read what was printed before it: with [pre] printed first
    it does the same, and its own lines come after [pre]. *)
Definition ignores_cout {A : Type} (m : M RunState A) : Prop :=
  ∀ pre st, m (set_cout (app pre) st) = ((m st).1, set_cout (app pre) (m st).2).

Lemma ignores_cout_ret {A : Type} (a : A) : ignores_cout (ret a).
Proof. by intros pre st. Qed.

Lemma ignores_cout_lift {A : Type} (o : Out A) : ignores_cout (lift o).
Proof. by intros pre st. Qed.

Lemma ignores_cout_print (s : string) : ignores_cout (print s).
Proof.
  intros pre st. unfold print, modify, set_cout. simpl. by rewrite app_assoc.
Qed.

Lemma ignores_cout_modify (g : RunState → RunState) :
  (∀ pre st, g (set_cout (app pre) st) = set_cout (app pre) (g st)) →
  ignores_cout (modify g).
Proof. intros H pre st. unfold modify. simpl. by rewrite H. Qed.

Lemma ignores_cout_gets {A : Type} (proj : RunState → A) :
  (∀ pre st, proj (set_cout (app pre) st) = proj st) → ignores_cout (gets proj).
Proof. intros H pre st. unfold gets. simpl. by rewrite H. Qed.

Lemma ignores_cout_bind {A B : Type} (m : M RunState A) (k : A → M RunState B) :
  ignores_cout m → (∀ a, ignores_cout (k a)) → ignores_cout (bind m k).
Proof.
  intros Hm Hk pre st. unfold bind. rewrite Hm.
  destruct (m st) as [[a | e | |] st']; simpl; try done.
  apply Hk.
Qed.

Lemma ignores_cout_if {A : Type} (c : bool) (m1 m2 : M RunState A) :
  ignores_cout m1 → ignores_cout m2 → ignores_cout (if c then m1 else m2).
Proof. by destruct c. Qed.

Create HintDb cout.
#[export] Hint Resolve ignores_cout_ret ignores_cout_lift ignores_cout_print : cout.

Ltac ignores_cout_step :=
  match goal with
  | |- ignores_cout (bind _ _) => apply ignores_cout_bind; [| intros ?]
  | |- ignores_cout (if _ then _ else _) => apply ignores_cout_if
  | |- ignores_cout (match ?x with _ => _ end) => destruct x
  | |- ignores_cout (print _) => apply ignores_cout_print
  | |- ignores_cout (insert_renderer _ _) =>
      apply ignores_cout_modify; intros ? ?; reflexivity
  | |- ignores_cout (modify _) => apply ignores_cout_modify; intros ? ?; reflexivity
  | |- ignores_cout (gets _) => apply ignores_cout_gets; intros ? ?; reflexivity
  | |- ignores_cout (ext _ _ _) => apply ignores_cout_lift
  | |- ignores_cout (stoi_at _ _) => apply ignores_cout_lift
  | |- ignores_cout (stoi_of _ _) => apply ignores_cout_lift
  | |- ignores_cout _ => solve [eauto with cout]
  end.

Ltac ignores_cout_tac := repeat ignores_cout_step.

Section Printing.

Context {F : Type} (fl : Floats F) (w : World F).

Lemma ignores_cout_set_colors (setter : string) (colors : list string) (n i : nat) :
  ignores_cout (set_colors w setter colors n i).
Proof. revert i. induction n as [| n IH]; intros i; simpl; ignores_cout_tac. Qed.

Lemma ignores_cout_read_anchors (anchorVector : list string) (n cntr : nat) :
  ignores_cout (read_anchors w anchorVector n cntr).
Proof. revert cntr. induction n as [| n IH]; intros cntr; simpl; ignores_cout_tac. Qed.

Hint Resolve ignores_cout_set_colors ignores_cout_read_anchors : cout.

Lemma ignores_cout_read_anchor_file (lines : list string) :
  ignores_cout (read_anchor_file w lines).
Proof. induction lines as [| l lines IH]; simpl; ignores_cout_tac. Qed.

Hint Resolve ignores_cout_read_anchor_file : cout.

Lemma ignores_cout_print_entries (entries : list (string * string)) :
  ignores_cout (print_entries entries).
Proof. induction entries as [| [k v] entries IH]; simpl; ignores_cout_tac. Qed.

Lemma ignores_cout_register_result (process_name : string)
    (modelMetadata : gmap string string) (currLvl : Z) :
  ignores_cout (register_result fl w process_name modelMetadata currLvl).
Proof.
  unfold register_result, object_detection, class_colors, set_scale_factor,
    currNetwork_setInferenceEngine, currNetwork_load.
  cbv zeta. ignores_cout_tac.
Qed.

Lemma ignores_cout_configure_network (process_name : string)
    (modelMetadata : gmap string string) (accepted : list string) (chosenIE : string) :
  ignores_cout (configure_network w process_name modelMetadata accepted chosenIE).
Proof.
  unfold configure_network, cpu_override, preselected_engine, configure_nodes, load_model,
    network_setInferenceEngine, network_setDeviceTypeCPU, network_load.
  cbv zeta. ignores_cout_tac.
Qed.

Hint Resolve ignores_cout_register_result ignores_cout_configure_network : cout.

Lemma ignores_cout_run_model (process_name : string) (modelMetadata : gmap string string)
    (accepted : list string) (patch_level currLvl : Z) :
  ignores_cout (run_model fl w process_name modelMetadata accepted patch_level currLvl).
Proof.
  unfold run_model, connect_input, scale_input, set_scale_factor,
    network_setInferenceEngine.
  ignores_cout_tac.
Qed.

Hint Resolve ignores_cout_run_model : cout.





End Printing.


(** With the advanced mode on, the metadata is printed twice before the
    model runs. *)
Example runProcess_advanced_prints_twice :
  let md := list_to_map [("model_name", "tumor"); ("problem", "none")] in
  let w := host md ["tumor.onnx"] [] in
  (runProcess RealFloat.ops w true "slide1" "tumor" start).1 = Val tt
  ∧ take 6 (cout (runProcess RealFloat.ops w true "slide1" "tumor" start).2)
    = ["Model name in wrapper: tumor";
       "m[model_name] = (tumor) "; "m[problem] = (none) ";
       "Final model metadata config sent to pixelClassifier:";
       "m[model_name] = (tumor) "; "m[problem] = (none) "].
Proof. vm_compute. split; reflexivity. Qed.

(** ** The colours of the classes *)

Section Colours.

Context {F : Type} (w : World F).

(** A colour entry that lines 581-584 can read: its three first parts are
    numbers. *)
Definition colour_reads (c : string) : Prop :=
  ∃ r g b, (let? s := at_ (splitCustom w c ",") 0 in stoi s) = Val r
           ∧ (let? s := at_ (splitCustom w c ",") 1 in stoi s) = Val g
           ∧ (let? s := at_ (splitCustom w c ",") 2 in stoi s) = Val b.

Lemma set_colors_completes (setter : string) (colors : list string) (n i : nat)
    (st : RunState) :
  (∀ args, throws w setter args = None) →
  (set_colors w setter colors n i st).1 = Val tt
  ↔ ∀ k, (k < n)%nat → ∃ c, colors !! (i + k)%nat = Some c ∧ colour_reads c.
Proof.
  intros Hset. revert i. induction n as [| n IH]; intros i; simpl.
  - split; [intros _ k Hk; lia | done].
  - unfold bind at 1, lift at 1, at_ at 1.
    destruct (colors !! i) as [c |] eqn:Ec; simpl.
    + unfold bind at 1, stoi_at at 1, lift at 1.
      destruct (let? s := at_ (splitCustom w c ",") 0 in stoi s) as [r | | |] eqn:Er;
        simpl.
      2-4: split; [done |]; intros H; destruct (H 0%nat) as (c' & Hc' & r' & g' & b' & Hr' & _);
             [lia |]; rewrite Nat.add_0_r, Ec in Hc'; injection Hc' as <-; congruence.
      unfold bind at 1, stoi_at at 1, lift at 1.
      destruct (let? s := at_ (splitCustom w c ",") 1 in stoi s) as [g | | |] eqn:Eg;
        simpl.
      2-4: split; [done |]; intros H; destruct (H 0%nat) as (c' & Hc' & r' & g' & b' & _ & Hg' & _);
             [lia |]; rewrite Nat.add_0_r, Ec in Hc'; injection Hc' as <-; congruence.
      unfold bind at 1, stoi_at at 1, lift at 1.
      destruct (let? s := at_ (splitCustom w c ",") 2 in stoi s) as [b | | |] eqn:Eb;
        simpl.
      2-4: split; [done |]; intros H; destruct (H 0%nat) as (c' & Hc' & r' & g' & b' & _ & _ & Hb');
             [lia |]; rewrite Nat.add_0_r, Ec in Hc'; injection Hc' as <-; congruence.
      unfold bind at 1, ext at 1, lift at 1. rewrite Hset. simpl.
      rewrite IH. split.
      * intros H [| k] Hk.
        -- rewrite Nat.add_0_r. exists c. split; [done |]. by exists r, g, b.
        -- replace (i + S k)%nat with (S i + k)%nat by lia. apply H. lia.
      * intros H k Hk. replace (S i + k)%nat with (i + S k)%nat by lia. apply H. lia.
    + split; [done |]. intros H. destruct (H 0%nat) as (c' & Hc' & _); [lia |].
      rewrite Nat.add_0_r in Hc'. congruence.
Qed.

Lemma set_colors_past_the_end (setter : string) (colors : list string) (n i : nat)
    (st : RunState) :
  (∀ args, throws w setter args = None) →
  Forall colour_reads colors →
  (i <= length colors < i + n)%nat →
  set_colors w setter colors n i st = (Undef, st).
Proof.
  intros Hset Hall. revert i. induction n as [| n IH]; intros i Hi; [lia |].
  simpl. unfold bind at 1, lift at 1, at_ at 1.
  destruct (colors !! i) as [c |] eqn:Ec; simpl.
  - pose proof (lookup_lt_Some _ _ _ Ec) as Hlt.
    destruct (proj1 (Forall_forall _ _) Hall c) as (r & g & b & Hr & Hg & Hb).
    { by eapply list_elem_of_lookup_2. }
    unfold bind at 1, stoi_at at 1, lift at 1. rewrite Hr. simpl.
    unfold bind at 1, stoi_at at 1, lift at 1. rewrite Hg. simpl.
    unfold bind at 1, stoi_at at 1, lift at 1. rewrite Hb. simpl.
    unfold bind at 1, ext at 1, lift at 1. rewrite Hset. simpl.
    apply IH. lia.
  - done.
Qed.

End Colours.

(** X21.  The colour loop of the three renderers, when no setter raises:
    [class_colors] completes exactly when [nb_classes] is a number [n] and
    each of the first [n] entries of [class_colors] has three numbers; with
    [n] at most zero no colour is set and the call completes, even without
    a [class_colors] field; and with readable colours but fewer of them than
    [n], the loop reads [colors[i]] past the end of the vector, which is
    undefined behaviour and not an exception that [pixelClassifier] could
    catch.  The state is never changed. *)
Theorem class_colors_completes_iff {F : Type} (w : World F) (setter : string)
    (modelMetadata : gmap string string) (st : RunState) (n : Z) :
  (∀ args, throws w setter args = None) →
  stoi (get modelMetadata "nb_classes") = Val n →
  let colors := splitCustom w (get modelMetadata "class_colors") ";" in
  ((class_colors w setter modelMetadata st).1 = Val tt
   ↔ ∀ k, (k < Z.to_nat n)%nat → ∃ c, colors !! k = Some c ∧ colour_reads w c)
  ∧ (n <= 0 → class_colors w setter modelMetadata st = (Val tt, st))
  ∧ (Forall (colour_reads w) colors → Z.of_nat (length colors) < n →
     class_colors w setter modelMetadata st = (Undef, st))
  ∧ (class_colors w setter modelMetadata st).2 = st.
Proof.
  intros Hset Hn colors.
  assert (class_colors w setter modelMetadata st
          = set_colors w setter colors (Z.to_nat n) 0 st) as ->.
  { unfold class_colors, bind, stoi_of, lift. by rewrite Hn. }
  split; [apply (set_colors_completes w setter colors (Z.to_nat n) 0 st Hset) |].
  split; [| split].
  - intros Hle. by replace (Z.to_nat n) with 0%nat by lia.
  - intros Hall Hshort. apply set_colors_past_the_end; [done | done | lia].
  - apply silent_set_colors.
Qed.

(** The theorem on the segmentation model with three classes and two
    colours. *)
Lemma class_colors_completes_iff_witness :
  let md := <["nb_classes" := "3"]> tumor_model in
  let w := host md ["tumor.onnx"] ["OpenVINO"] in
  class_colors w "someRenderer->setColor" md start = (Undef, start)
  ∧ (pixelClassifier RealFloat.ops w "tumor" start).1 = Undef.
Proof.
  intros md w.
  destruct (class_colors_completes_iff w "someRenderer->setColor" md start 3)
    as (_ & _ & Hpast & _).
  - done.
  - vm_compute. reflexivity.
  - split; [| vm_compute; reflexivity].
    apply Hpast.
    + assert (splitCustom w (get md "class_colors") ";" = ["0,0,0"; "255,0,0"]) as ->
        by (vm_compute; reflexivity).
      repeat constructor.
      * by exists 0, 0, 0.
      * by exists 255, 0, 0.
    + vm_compute. reflexivity.
Defined.

(** ** The nodes of the network *)

(** Lines 459-468: what is set for [TensorRT] with the [uff] format. *)
Definition TensorRT_nodes {F : Type} (w : World F) (modelMetadata : gmap string string)
  : M RunState unit :=
  let! c := stoi_of modelMetadata "nb_channels" in
  let! y := stoi_of modelMetadata "input_img_size_y" in
  let! y' := stoi_of modelMetadata "input_img_size_y" in
  run! ext w "network->setInputNode"
         [get modelMetadata "input_node"; "1"; to_string c; to_string y; to_string y'] in
  let! k := stoi_of modelMetadata "nb_classes" in
  ext w "network->setOutputNode" [get modelMetadata "output_node"; "1"; to_string k].

Lemma configure_nodes_TensorRT {F : Type} (w : World F)
    (modelMetadata : gmap string string) (st : RunState) :
  engine (network st) = "TensorRT" →
  configure_nodes w modelMetadata "uff" st = TensorRT_nodes w modelMetadata st.
Proof.
  intros Heng. unfold configure_nodes. unfold bind at 1. unfold gets.
  cbv beta iota. by rewrite Heng.
Qed.

(** X22.  The input and output nodes are set for two engine families only:
    for an engine that is neither [TensorFlow...] nor [TensorRT] with the
    [uff] format, [configure_nodes] makes no call and completes; and for
    [TensorRT] with [uff] the shape of the input node is built from
    [nb_channels] and twice [input_img_size_y]: [input_img_size_x] is never
    read, so two models that differ in it only are configured alike. *)
Theorem configure_nodes_by_engine {F : Type} (w : World F)
    (md1 md2 : gmap string string) (chosenIE : string) (st : RunState) :
  (String.substring 0 10 (engine (network st)) ≠ "TensorFlow" →
   ¬ (engine (network st) = "TensorRT" ∧ chosenIE = "uff") →
   configure_nodes w md1 chosenIE st = (Val tt, st))
  ∧ (engine (network st) = "TensorRT" → chosenIE = "uff" →
     (∀ key, key ≠ "input_img_size_x" → get md1 key = get md2 key) →
     configure_nodes w md1 chosenIE st = configure_nodes w md2 chosenIE st).
Proof.
  split.
  - intros Htf Htrt. unfold configure_nodes, bind, gets.
    destruct (String.eqb_spec (String.substring 0 10 (engine (network st))) "TensorFlow")
      as [? | _]; [done |].
    destruct (String.eqb_spec (engine (network st)) "TensorRT") as [Heng | _];
      [| done].
    destruct (String.eqb_spec chosenIE "uff") as [Hie | _]; [| done].
    by destruct Htrt.
  - intros Heng -> Hagree. rewrite !configure_nodes_TensorRT by done.
    unfold TensorRT_nodes, stoi_of.
    by rewrite !(Hagree "nb_channels"), !(Hagree "input_img_size_y"),
      !(Hagree "input_node"), !(Hagree "nb_classes"), !(Hagree "output_node").
Qed.

(** The theorem on two models of 256 by 256 and of 512 by 256 pixels. *)
Lemma configure_nodes_by_engine_witness :
  let w := host tumor_model ["tumor.uff"] ["TensorRT"] in
  let st := (network_setInferenceEngine w "TensorRT" start).2 in
  configure_nodes w tumor_model "uff" st
  = configure_nodes w (<["input_img_size_x" := "512"]> tumor_model) "uff" st.
Proof.
  intros w st.
  destruct (configure_nodes_by_engine w tumor_model
              (<["input_img_size_x" := "512"]> tumor_model) "uff" st) as [_ H].
  apply H; [reflexivity | reflexivity |].
  intros key Hkey. unfold get. by rewrite lookup_insert_ne.
Defined.

(** ** The patch level of a low-resolution model *)



(** ** A project that is read back as it was saved *)







Section Restore.

Variable splitCustom : string → string → list string.




End Restore.






(** ** Runs that succeed *)

(** [m] completes from every state and keeps the renderer map. *)
Definition runs {A : Type} (m : M RunState A) : Prop :=
  ∀ st, ∃ a st', m st = (Val a, st') ∧ renderers st' = renderers st.

Lemma runs_ret {A : Type} (a : A) : runs (ret a).
Proof. intros st. by exists a, st. Qed.

Lemma runs_lift {A : Type} (o : Out A) (a : A) : o = Val a → runs (lift o).
Proof. intros -> st. by exists a, st. Qed.

Lemma runs_gets {A : Type} (f : RunState → A) : runs (gets f).
Proof. intros st. by exists (f st), st. Qed.

Lemma runs_print (s : string) : runs (print s).
Proof. intros st. by eexists tt, _. Qed.

Lemma runs_modify (f : RunState → RunState) :
  (∀ st, renderers (f st) = renderers st) → runs (modify f).
Proof. intros H st. exists tt, (f st). by rewrite H. Qed.

Lemma runs_bind {A B : Type} (m : M RunState A) (k : A → M RunState B) :
  runs m → (∀ a, runs (k a)) → runs (bind m k).
Proof.
  intros Hm Hk st. destruct (Hm st) as (a & st1 & E1 & R1).
  destruct (Hk a st1) as (b & st2 & E2 & R2).
  exists b, st2. unfold bind. rewrite E1, E2. split; [done | congruence].
Qed.

Lemma runs_bind_lift {A B : Type} (o : Out A) (a : A) (k : A → M RunState B) :
  o = Val a → runs (k a) → runs (bind (lift o) k).
Proof.
  intros -> Hk st. destruct (Hk st) as (b & st' & E & R).
  exists b, st'. unfold bind, lift. by rewrite E.
Qed.

Lemma runs_if {A : Type} (c : bool) (m1 m2 : M RunState A) :
  runs m1 → runs m2 → runs (if c then m1 else m2).
Proof. by destruct c. Qed.

Lemma runs_if_eqb {A : Type} (a b : string) (m1 m2 : M RunState A) :
  (a = b → runs m1) → (a ≠ b → runs m2) →
  runs (if String.eqb a b then m1 else m2).
Proof. destruct (String.eqb_spec a b); auto. Qed.

Lemma runs_if_not_eqb {A : Type} (a b : string) (m1 m2 : M RunState A) :
  (a ≠ b → runs m1) → (a = b → runs m2) →
  runs (if negb (String.eqb a b) then m1 else m2).
Proof. destruct (String.eqb_spec a b); simpl; auto. Qed.

(** After a step that runs, what the rest of the code reaches from a state
    with the same renderer map. *)
Lemma bind_runs {A B : Type} (m : M RunState A) (k : A → M RunState B)
    (st : RunState) (P : Out B * RunState → Prop) :
  runs m →
  (∀ a st1, renderers st1 = renderers st → P (k a st1)) →
  P (bind m k st).
Proof.
  intros Hm Hk. destruct (Hm st) as (a & st1 & E1 & R1).
  unfold bind. rewrite E1. by apply Hk.
Qed.

(** The code completes and has registered a renderer of class [cls] under
    [name] in the renderer map of [st]. *)
Definition registered (cls name : string) (st : RunState) (r : Out unit * RunState) : Prop :=
  r.1 = Val tt ∧ renderers r.2 = <[name := cls]> (renderers st).

Lemma insert_renderer_registered (cls name : string) (st s : RunState) :
  renderers st !! name = None → renderers s = renderers st →
  registered cls name st (insert_renderer name cls s).
Proof.
  intros Hfree Rs. unfold registered, insert_renderer, modify, set_renderers. simpl.
  by rewrite Rs, Hfree.
Qed.

(** The numeric fields that every engine family may read. *)
Definition numeric_fields : list string :=
  ["cpu"; "input_img_size_x"; "input_img_size_y"; "nb_channels"; "nb_classes"].

(** A scale factor of two numbers around a slash. *)
Definition scale_reads {F : Type} (w : World F) (modelMetadata : gmap string string) : Prop :=
  ∃ num den,
    (let? s := at_ (splitCustom w (get modelMetadata "scale_factor") "/") 0 in stoi s)
    = Val num
    ∧ (let? s := at_ (splitCustom w (get modelMetadata "scale_factor") "/") 1 in stoi s)
      = Val den.

(** The metadata that every run reads: the numeric fields are numbers; the
    magnification level is absent or gives a patch level; the scale factor
    is absent or readable. *)
Definition readable {F : Type} (fl : Floats F) (w : World F)
    (modelMetadata : gmap string string) : Prop :=
  (∀ key, key ∈ numeric_fields → ∃ v, stoi (get modelMetadata key) = Val v)
  ∧ (get modelMetadata "magnification_level" = ""
     ∨ ∃ m ds pl,
         stoi (get modelMetadata "magnification_level") = Val m
         ∧ stof fl (get (image_metadata w) "openslide.level[1].downsample") = Val ds
         ∧ int_of_float fl
             (fdiv fl (flog fl (fdiv fl (magn_lvl w) (float_of_int fl m)))
                      (flog fl (fround fl ds))) = Val pl)
  ∧ (get modelMetadata "scale_factor" = "" ∨ scale_reads w modelMetadata).

(** The fields of the patch generator, read on high resolution: each is
    absent or readable. *)
Definition patches_readable {F : Type} (fl : Floats F)
    (modelMetadata : gmap string string) : Prop :=
  (get modelMetadata "tissue_threshold" = "none"
   ∨ get modelMetadata "tissue_threshold" = ""
   ∨ ∃ t, stoi (get modelMetadata "tissue_threshold") = Val t)
  ∧ (get modelMetadata "mask_threshold" = ""
     ∨ ∃ v, stof fl (get modelMetadata "mask_threshold") = Val v)
  ∧ (get modelMetadata "patch_overlap" = ""
     ∨ ∃ v, stof fl (get modelMetadata "patch_overlap") = Val v).

(** One colour of three numbers for each class. *)
Definition colours_readable {F : Type} (w : World F)
    (modelMetadata : gmap string string) : Prop :=
  ∀ n, stoi (get modelMetadata "nb_classes") = Val n →
  ∀ k, (k < Z.to_nat n)%nat →
    ∃ c, splitCustom w (get modelMetadata "class_colors") ";" !! k = Some c
         ∧ colour_reads w c.

(** Six readable pairs on each line of the anchor file. *)
Definition anchors_readable {F : Type} (w : World F) (lines : list string) : Prop :=
  Forall (fun line =>
            ∀ i, (i < 6)%nat →
              ∃ a, resize 6 (splitCustom w line " ") !! i = Some a ∧ pair_parses w a)
         lines.

Section Success.

Context {F : Type} (fl : Floats F) (w : World F).

(** No external call raises. *)
Hypothesis no_throw : ∀ name args, throws w name args = None.

Lemma runs_ext (name : string) (args : list string) : runs (ext w name args).
Proof. unfold ext. rewrite no_throw. by apply (runs_lift _ tt). Qed.

Ltac runs_step :=
  match goal with
  | |- runs (bind _ _) => apply runs_bind; [| intros ?]
  | |- runs (if String.eqb _ _ then _ else _) =>
      apply runs_if_eqb; intros ?; try congruence
  | |- runs (if negb (String.eqb _ _) then _ else _) =>
      apply runs_if_not_eqb; intros ?; try congruence
  | |- runs (if _ then _ else _) => apply runs_if
  | |- runs (ret _) => apply runs_ret
  | |- runs (print _) => apply runs_print
  | |- runs (ext _ _ _) => apply runs_ext
  | |- runs (gets _) => apply runs_gets
  | |- runs (modify _) => apply runs_modify; intros ?; reflexivity
  | |- runs (lift _) => eapply runs_lift; eassumption
  | |- runs (stoi_of _ _) => eapply runs_lift; eassumption
  | |- runs (stoi_at _ _) => eapply runs_lift; eassumption
  end.

Variable modelMetadata : gmap string string.

Hypothesis fields : readable fl w modelMetadata.

Lemma runs_stoi_of (key : string) :
  key ∈ numeric_fields → runs (stoi_of modelMetadata key).
Proof.
  intros Hkey. destruct fields as (Hnum & _).
  destruct (Hnum key Hkey) as [v Hv]. by apply (runs_lift _ v).
Qed.

Ltac numeric := solve [apply runs_stoi_of; unfold numeric_fields; repeat constructor].

Lemma runs_configure_network (process_name : string) (accepted : list string)
    (chosenIE : string) :
  runs (configure_network w process_name modelMetadata accepted chosenIE).
Proof.
  unfold configure_network, cpu_override, preselected_engine, configure_nodes, load_model,
    network_setInferenceEngine, network_setDeviceTypeCPU, network_load.
  repeat first [numeric | runs_step].
Qed.

Lemma runs_patch_lvl_model : runs (patch_lvl_model fl w modelMetadata).
Proof.
  unfold patch_lvl_model.
  destruct fields as (_ & [Hnone | (m & ds & pl & Hm & Hds & Hpl)] & _).
  - repeat runs_step.
  - runs_step; [| repeat runs_step].
    apply (runs_bind_lift _ m); [done |].
    apply (runs_bind_lift _ ds); [done |].
    by apply (runs_lift _ pl).
Qed.

Lemma runs_set_scale_factor (object : string) :
  scale_reads w modelMetadata → runs (set_scale_factor w object modelMetadata).
Proof.
  intros (num & den & Hnum & Hden). unfold set_scale_factor. repeat runs_step.
Qed.

Lemma runs_scale_input : runs (scale_input w modelMetadata).
Proof.
  unfold scale_input.
  destruct fields as (_ & _ & [Hs | Hs]).
  - repeat runs_step.
  - runs_step; [repeat runs_step | by apply runs_set_scale_factor].
Qed.

Lemma runs_new_network : runs (new_network w modelMetadata).
Proof. unfold new_network. repeat runs_step. Qed.

Lemma runs_network_setInferenceEngine (name : string) :
  runs (network_setInferenceEngine w name).
Proof. unfold network_setInferenceEngine. repeat runs_step. Qed.

(** *** The input of the network *)

Lemma runs_connect_input_high (patch_level : Z) :
  get modelMetadata "resolution" ≠ "low" →
  patches_readable fl modelMetadata →
  runs (connect_input fl w modelMetadata patch_level).
Proof.
  intros Hhigh ([Ht | [Ht | [t Ht]]] & [Hm | [v Hm]] & [Ho | [v' Ho]]);
    unfold connect_input; repeat first [numeric | runs_step].
Qed.

Lemma runs_connect_input_low (patch_level : Z) :
  get modelMetadata "resolution" = "low" →
  runs (connect_input fl w modelMetadata patch_level).
Proof. intros Hlow. unfold connect_input. repeat runs_step. Qed.

Lemma runs_low_resolution (l : Z) :
  low_res_currLvl (image_metadata w) modelMetadata = Val l → 0 <= l →
  runs (low_resolution w modelMetadata).
Proof.
  intros Hl Hpos. unfold low_resolution.
  apply (runs_bind_lift _ l); [done |].
  apply runs_bind; [apply runs_print | intros _].
  destruct (Z.ltb_spec l 0) as [? | _]; [lia |].
  repeat runs_step.
Qed.

(** *** The four tails of lines 564-802 *)

Lemma runs_set_colors (setter : string) (colors : list string) (n i : nat) :
  (∀ k, (k < n)%nat → ∃ c, colors !! (i + k)%nat = Some c ∧ colour_reads w c) →
  runs (set_colors w setter colors n i).
Proof.
  intros Hcolours st. exists tt, st. split; [| done].
  pose proof (proj2 (set_colors_completes w setter colors n i st
                       (fun args => no_throw setter args)) Hcolours) as Hval.
  pose proof (silent_set_colors w setter colors n i st) as Hst.
  destruct (set_colors w setter colors n i st) as [[[] | | |] st']; simpl in *; by subst.
Qed.

Lemma runs_class_colors (setter : string) :
  colours_readable w modelMetadata → runs (class_colors w setter modelMetadata).
Proof.
  intros Hcolours. unfold class_colors.
  destruct fields as (Hnum & _).
  destruct (Hnum "nb_classes") as [n Hn]; [unfold numeric_fields; repeat constructor |].
  apply (runs_bind_lift _ n); [done |].
  apply runs_set_colors. intros k Hk. by apply (Hcolours n).
Qed.

Lemma runs_read_anchors (anchorVector : list string) (n cntr : nat) :
  (∀ i, (i < n)%nat → ∃ a, anchorVector !! (cntr + i)%nat = Some a ∧ pair_parses w a) →
  runs (read_anchors w anchorVector n cntr).
Proof.
  revert cntr. induction n as [| n IH]; intros cntr Hpairs; simpl; [apply runs_ret |].
  destruct (Hpairs 0%nat) as (a & Ha & x & y & Hx & Hy); [lia |].
  rewrite Nat.add_0_r in Ha.
  apply (runs_bind_lift _ a); [unfold at_; by rewrite Ha |].
  apply runs_bind; [by apply (runs_lift _ x) | intros _].
  apply runs_bind; [by apply (runs_lift _ y) | intros _].
  apply IH. intros i Hi. replace (S cntr + i)%nat with (cntr + S i)%nat by lia.
  apply Hpairs. lia.
Qed.

Lemma runs_read_anchor_file (lines : list string) :
  anchors_readable w lines → runs (read_anchor_file w lines).
Proof.
  induction 1 as [| line lines Hline _ IH]; cbn [read_anchor_file]; [apply runs_ret |].
  apply runs_bind; [| done].
  apply runs_read_anchors. intros i Hi. by apply Hline.
Qed.

Section Tails.

Variable process_name : string.
Variable st : RunState.

Hypothesis free : renderers st !! get modelMetadata "model_name" = None.

Ltac tail_step :=
  match goal with
  | |- registered _ _ _ (insert_renderer _ _ _) =>
      apply insert_renderer_registered; [exact free | congruence]
  | |- registered _ _ _ (bind _ _ _) =>
      apply bind_runs; [| intros ? ? ?]
  end.

Lemma tail_classification (currLvl : Z) (s : RunState) :
  get modelMetadata "problem" = "classification" →
  get modelMetadata "resolution" = "high" →
  (∃ v, stoi (get modelMetadata "interpolation") = Val v) →
  colours_readable w modelMetadata →
  renderers s = renderers st →
  registered "HeatmapRenderer" (get modelMetadata "model_name") st
    (register_result fl w process_name modelMetadata currLvl s).
Proof.
  intros Hp Hr [v Hv] Hcolours Rs. unfold register_result. rewrite Hp, Hr.
  change (String.eqb "classification" "classification" && String.eqb "high" "high")
    with true.
  cbv iota.
  repeat first [tail_step | apply runs_ext | by apply runs_class_colors
                | by apply (runs_lift _ v)].
Qed.

Lemma tail_segmentation (currLvl : Z) (s : RunState) :
  get modelMetadata "problem" = "segmentation" →
  get modelMetadata "resolution" = "high" →
  colours_readable w modelMetadata →
  renderers s = renderers st →
  registered "SegmentationRenderer" (get modelMetadata "model_name") st
    (register_result fl w process_name modelMetadata currLvl s).
Proof.
  intros Hp Hr Hcolours Rs. unfold register_result. rewrite Hp, Hr.
  change (String.eqb "segmentation" "classification" && String.eqb "high" "high")
    with false.
  change (String.eqb "segmentation" "segmentation" && String.eqb "high" "high") with true.
  cbv iota.
  repeat first [tail_step | apply runs_ext | by apply runs_class_colors].
Qed.

Lemma tail_segmentation_low (currLvl : Z) (s : RunState) :
  get modelMetadata "problem" = "segmentation" →
  get modelMetadata "resolution" = "low" →
  colours_readable w modelMetadata →
  renderers s = renderers st →
  registered "SegmentationRenderer" (get modelMetadata "model_name") st
    (register_result fl w process_name modelMetadata currLvl s).
Proof.
  intros Hp Hr Hcolours Rs. unfold register_result. rewrite Hp, Hr.
  change (String.eqb "segmentation" "classification" && String.eqb "low" "high")
    with false.
  change (String.eqb "segmentation" "segmentation" && String.eqb "low" "high") with false.
  change (String.eqb "segmentation" "object_detection" && String.eqb "low" "high")
    with false.
  change (String.eqb "segmentation" "segmentation" && String.eqb "low" "low") with true.
  cbv iota.
  repeat first [tail_step | apply runs_ext | by apply runs_class_colors].
Qed.

Lemma runs_stof_or_default (key default_line object : string) :
  get modelMetadata key = "" ∨ (∃ v, stof fl (get modelMetadata "nms_threshold") = Val v) →
  runs (if String.eqb (get modelMetadata key) "" then print default_line
        else let! _ := lift (stof fl (get modelMetadata "nms_threshold")) in
             ext w object [get modelMetadata "nms_threshold"]).
Proof. intros [He | [v Hv]]; repeat runs_step. Qed.

Lemma tail_object_detection (currLvl : Z) (s : RunState) :
  get modelMetadata "problem" = "object_detection" →
  get modelMetadata "resolution" = "high" →
  (get modelMetadata "pred_threshold" = ""
   ∨ ∃ v, stof fl (get modelMetadata "nms_threshold") = Val v) →
  (get modelMetadata "nms_threshold" = ""
   ∨ ∃ v, stof fl (get modelMetadata "nms_threshold") = Val v) →
  anchors_readable w (anchors_lines w (model_path w process_name "anchors")) →
  scale_reads w modelMetadata →
  renderers s = renderers st →
  registered "BoundingBoxRenderer" (get modelMetadata "model_name") st
    (register_result fl w process_name modelMetadata currLvl s).
Proof.
  intros Hp Hr Hpred Hnms Hanchors Hscale Rs. unfold register_result. rewrite Hp, Hr.
  change (String.eqb "object_detection" "classification" && String.eqb "high" "high")
    with false.
  change (String.eqb "object_detection" "segmentation" && String.eqb "high" "high")
    with false.
  change (String.eqb "object_detection" "object_detection" && String.eqb "high" "high")
    with true.
  cbv iota. unfold object_detection, currNetwork_setInferenceEngine, currNetwork_load.
  repeat first [tail_step | apply runs_ext | apply runs_print | apply runs_gets
                | by apply runs_stof_or_default
                | by apply runs_read_anchor_file
                | by apply runs_set_scale_factor
                | solve [repeat runs_step]].
Qed.

End Tails.

(** *** From the tail to the whole run *)

Section Chain.

Variable cls : string.
Variable process_name : string.
Variable accepted : list string.

Hypothesis metadata : model_metadata w process_name = modelMetadata.
Hypothesis files : acceptedModels w process_name = Val accepted.
Hypothesis engine_found : (select_engine accepted (inference_engines w)).2 ≠ "".

Hypothesis level :
  runs (if String.eqb (get modelMetadata "resolution") "low"
        then low_resolution w modelMetadata else ret 0).

Hypothesis input : ∀ patch_level, runs (connect_input fl w modelMetadata patch_level).

Hypothesis tail :
  ∀ st currLvl s,
    renderers st !! get modelMetadata "model_name" = None →
    renderers s = renderers st →
    registered cls (get modelMetadata "model_name") st
      (register_result fl w process_name modelMetadata currLvl s).

Lemma run_model_succeeds (patch_level currLvl : Z) (st s : RunState) :
  renderers st !! get modelMetadata "model_name" = None →
  renderers s = renderers st →
  registered cls (get modelMetadata "model_name") st
    (run_model fl w process_name modelMetadata accepted patch_level currLvl s).
Proof.
  intros Hfree Rs. unfold run_model.
  unfold bind at 1, lift at 1, selectOptimalInferenceEngine. rewrite files. cbn [obind].
  rewrite (proj2 (String.eqb_neq _ _) engine_found).
  apply bind_runs; [apply runs_network_setInferenceEngine |]; intros [] s1 R1.
  apply bind_runs; [apply runs_print |]; intros [] s2 R2.
  apply bind_runs; [apply runs_configure_network |]; intros [] s3 R3.
  apply bind_runs; [apply input |]; intros [] s4 R4.
  apply bind_runs; [apply runs_scale_input |]; intros [] s5 R5.
  apply tail; [done | congruence].
Qed.

Lemma pixelClassifier_succeeds (st : RunState) :
  renderers st !! get modelMetadata "model_name" = None →
  ∃ st', pixelClassifier fl w process_name st = (Val tt, st')
         ∧ renderers st' = <[get modelMetadata "model_name" := cls]> (renderers st)
         ∧ last (cout st') = Some "Inference thread is finished...".
Proof.
  intros Hfree.
  assert (∃ st', pixelClassifier_try fl w process_name st = (Val tt, st')
                 ∧ renderers st' = <[get modelMetadata "model_name" := cls]> (renderers st)
                 ∧ last (cout st') = Some "Inference thread is finished...")
    as (st' & Htry & Hreg & Hlast);
    [| exists st'; unfold pixelClassifier; by rewrite Htry].
  unfold pixelClassifier_try. rewrite metadata. cbv zeta.
  apply bind_runs; [apply runs_ext |]; intros [] s1 R1.
  unfold bind at 1, has_renderer, gets.
  rewrite bool_decide_eq_false_2 by (rewrite R1, Hfree; by intros [? ?]).
  apply bind_runs; [apply runs_patch_lvl_model |]; intros pl s2 R2.
  apply bind_runs; [apply runs_print |]; intros [] s3 R3.
  apply bind_runs; [apply runs_ext |]; intros [] s4 R4.
  apply bind_runs; [apply runs_ext |]; intros [] s5 R5.
  apply bind_runs; [apply runs_ext |]; intros [] s6 R6.
  apply bind_runs; [apply level |]; intros lvl s7 R7.
  unfold bind at 1, lift at 1. rewrite files.
  apply bind_runs; [apply runs_new_network |]; intros [] s8 R8.
  destruct (run_model_succeeds pl lvl st s8 Hfree) as [Hval Hreg]; [congruence |].
  unfold bind.
  destruct (run_model fl w process_name modelMetadata accepted pl lvl s8) as [o s9].
  simpl in Hval, Hreg. subst o.
  eexists. split; [reflexivity |]. split; [exact Hreg |].
  simpl. by rewrite last_snoc.
Qed.

End Chain.

End Success.

(** What a successful run leaves: it completes, the renderer map is the old
    one with a renderer of class [cls] under the model's name, and the last
    line printed is that of line 804. *)
Definition succeeds {F : Type} (fl : Floats F) (w : World F) (process_name cls : string)
    (st : RunState) : Prop :=
  ∃ st', pixelClassifier fl w process_name st = (Val tt, st')
         ∧ renderers st'
           = <[get (model_metadata w process_name) "model_name" := cls]> (renderers st)
         ∧ last (cout st') = Some "Inference thread is finished...".

(** X25.  The run of a high-resolution segmentation model succeeds: when
    no external call raises, the model's name is not registered yet, the
    metadata is readable, the files of the model can be listed and the
    engine resolution finds a pair, [pixelClassifier] completes with a
    [SegmentationRenderer] registered under the model's name; whatever
    engine is resolved, pinned or forced on the CPU. *)
Theorem segmentation_run_registers {F : Type} (fl : Floats F) (w : World F)
    (process_name : string) (accepted : list string) (st : RunState) :
  let modelMetadata := model_metadata w process_name in
  (∀ name args, throws w name args = None) →
  renderers st !! get modelMetadata "model_name" = None →
  get modelMetadata "problem" = "segmentation" →
  get modelMetadata "resolution" = "high" →
  readable fl w modelMetadata →
  patches_readable fl modelMetadata →
  colours_readable w modelMetadata →
  acceptedModels w process_name = Val accepted →
  (select_engine accepted (inference_engines w)).2 ≠ "" →
  succeeds fl w process_name "SegmentationRenderer" st.
Proof.
  intros md Hthrow Hfree Hp Hr Hfields Hpatches Hcolours Hfiles Hengine.
  apply (pixelClassifier_succeeds fl w Hthrow md Hfields "SegmentationRenderer"
           process_name accepted eq_refl Hfiles Hengine); [| | | exact Hfree].
  - rewrite Hr. apply runs_ret.
  - intros pl. apply runs_connect_input_high; [done | done | congruence | done].
  - intros st0 lvl s Hfree0 Rs. by apply tail_segmentation.
Qed.

(** X26.  The run of a high-resolution classification model succeeds under
    the same conditions when, in addition, [interpolation] is a number: a
    [HeatmapRenderer] is registered under the model's name. *)
Theorem classification_run_registers {F : Type} (fl : Floats F) (w : World F)
    (process_name : string) (accepted : list string) (st : RunState) :
  let modelMetadata := model_metadata w process_name in
  (∀ name args, throws w name args = None) →
  renderers st !! get modelMetadata "model_name" = None →
  get modelMetadata "problem" = "classification" →
  get modelMetadata "resolution" = "high" →
  (∃ v, stoi (get modelMetadata "interpolation") = Val v) →
  readable fl w modelMetadata →
  patches_readable fl modelMetadata →
  colours_readable w modelMetadata →
  acceptedModels w process_name = Val accepted →
  (select_engine accepted (inference_engines w)).2 ≠ "" →
  succeeds fl w process_name "HeatmapRenderer" st.
Proof.
  intros md Hthrow Hfree Hp Hr Hinter Hfields Hpatches Hcolours Hfiles Hengine.
  apply (pixelClassifier_succeeds fl w Hthrow md Hfields "HeatmapRenderer"
           process_name accepted eq_refl Hfiles Hengine); [| | | exact Hfree].
  - rewrite Hr. apply runs_ret.
  - intros pl. apply runs_connect_input_high; [done | done | congruence | done].
  - intros st0 lvl s Hfree0 Rs. by apply tail_classification.
Qed.

(** X27.  The run of a high-resolution object-detection model succeeds
    when, in addition to the common conditions, the scale factor is given
    (the detection network reads it without the test for absence of line
    550), [nms_threshold] is readable whenever it or [pred_threshold] is
    given, and every line of the anchor file has six readable pairs: a
    [BoundingBoxRenderer] is registered under the model's name. *)
Theorem object_detection_run_registers {F : Type} (fl : Floats F) (w : World F)
    (process_name : string) (accepted : list string) (st : RunState) :
  let modelMetadata := model_metadata w process_name in
  (∀ name args, throws w name args = None) →
  renderers st !! get modelMetadata "model_name" = None →
  get modelMetadata "problem" = "object_detection" →
  get modelMetadata "resolution" = "high" →
  readable fl w modelMetadata →
  patches_readable fl modelMetadata →
  scale_reads w modelMetadata →
  (get modelMetadata "pred_threshold" = ""
   ∨ ∃ v, stof fl (get modelMetadata "nms_threshold") = Val v) →
  (get modelMetadata "nms_threshold" = ""
   ∨ ∃ v, stof fl (get modelMetadata "nms_threshold") = Val v) →
  anchors_readable w (anchors_lines w (model_path w process_name "anchors")) →
  acceptedModels w process_name = Val accepted →
  (select_engine accepted (inference_engines w)).2 ≠ "" →
  succeeds fl w process_name "BoundingBoxRenderer" st.
Proof.
  intros md Hthrow Hfree Hp Hr Hfields Hpatches Hscale Hpred Hnms Hanchors Hfiles Hengine.
  apply (pixelClassifier_succeeds fl w Hthrow md Hfields "BoundingBoxRenderer"
           process_name accepted eq_refl Hfiles Hengine); [| | | exact Hfree].
  - rewrite Hr. apply runs_ret.
  - intros pl. apply runs_connect_input_high; [done | done | congruence | done].
  - intros st0 lvl s Hfree0 Rs. by apply tail_object_detection.
Qed.

(** X28.  The run of a low-resolution segmentation model succeeds when the
    image has a level (the level used, the level count minus one, is not
    negative) and the common conditions hold; the fields of the patch
    generator are not read.  A [SegmentationRenderer] is registered under
    the model's name. *)
Theorem low_resolution_run_registers {F : Type} (fl : Floats F) (w : World F)
    (process_name : string) (accepted : list string) (st : RunState) (l : Z) :
  let modelMetadata := model_metadata w process_name in
  (∀ name args, throws w name args = None) →
  renderers st !! get modelMetadata "model_name" = None →
  get modelMetadata "problem" = "segmentation" →
  get modelMetadata "resolution" = "low" →
  low_res_currLvl (image_metadata w) modelMetadata = Val l → 0 <= l →
  readable fl w modelMetadata →
  colours_readable w modelMetadata →
  acceptedModels w process_name = Val accepted →
  (select_engine accepted (inference_engines w)).2 ≠ "" →
  succeeds fl w process_name "SegmentationRenderer" st.
Proof.
  intros md Hthrow Hfree Hp Hr Hl Hpos Hfields Hcolours Hfiles Hengine.
  apply (pixelClassifier_succeeds fl w Hthrow md Hfields "SegmentationRenderer"
           process_name accepted eq_refl Hfiles Hengine); [| | | exact Hfree].
  - rewrite Hr. by apply (runs_low_resolution w Hthrow md l).
  - intros pl. by apply runs_connect_input_low.
  - intros st0 lvl s Hfree0 Rs. by apply tail_segmentation_low.
Qed.

(** A high-resolution classification model and a low-resolution
    segmentation model. *)
Definition grade_model : gmap string string :=
  <["problem" := "classification"]> (<["interpolation" := "1"]> tumor_model).

Definition overview_model : gmap string string :=
  <["resolution" := "low"]> tumor_model.

(** The conditions on the models of the runs below, by evaluation. *)
Ltac numbers_by_evaluation :=
  let key := fresh "key" in
  let Hkey := fresh "Hkey" in
  intros key Hkey; unfold numeric_fields in Hkey;
  repeat (apply elem_of_cons in Hkey as [-> | Hkey]);
  [.. | by apply elem_of_nil in Hkey]; eexists; vm_compute; reflexivity.

Ltac readable_by_evaluation :=
  split; [numbers_by_evaluation |];
  split; [by left |];
  right; eexists _, _; split; vm_compute; reflexivity.

Ltac colours_by_evaluation :=
  let n := fresh "n" in
  let Hn := fresh "Hn" in
  let k := fresh "k" in
  let Hk := fresh "Hk" in
  intros n Hn k Hk; vm_compute in Hn; injection Hn as <-;
  destruct k as [| [| k]]; [| | simpl in Hk; lia];
  (eexists; split; [vm_compute; reflexivity |];
   eexists _, _, _; repeat split; vm_compute; reflexivity).

(** The theorem on the run of the tumour model with OpenVINO. *)
Lemma segmentation_run_registers_witness :
  succeeds RealFloat.ops (host tumor_model ["tumor.onnx"] ["OpenVINO"]) "tumor"
    "SegmentationRenderer" start.
Proof.
  apply (segmentation_run_registers RealFloat.ops
           (host tumor_model ["tumor.onnx"] ["OpenVINO"]) "tumor" [".onnx"] start);
    try reflexivity.
  - readable_by_evaluation.
  - split; [by left |]. split; by left.
  - colours_by_evaluation.
  - vm_compute. discriminate.
Defined.

(** The theorem on the run of the classification model with OpenVINO. *)
Lemma classification_run_registers_witness :
  succeeds RealFloat.ops (host grade_model ["tumor.onnx"] ["OpenVINO"]) "tumor"
    "HeatmapRenderer" start.
Proof.
  apply (classification_run_registers RealFloat.ops
           (host grade_model ["tumor.onnx"] ["OpenVINO"]) "tumor" [".onnx"] start);
    try reflexivity.
  - exists 1. vm_compute. reflexivity.
  - readable_by_evaluation.
  - split; [by left |]. split; by left.
  - colours_by_evaluation.
  - vm_compute. discriminate.
Defined.

(** The theorem on the run of the detection model with OpenVINO. *)
Lemma object_detection_run_registers_witness :
  succeeds RealFloat.ops (host nuclei_model ["nuclei.xml"] ["OpenVINO"]) "nuclei"
    "BoundingBoxRenderer" start.
Proof.
  apply (object_detection_run_registers RealFloat.ops
           (host nuclei_model ["nuclei.xml"] ["OpenVINO"]) "nuclei" [".xml"] start);
    try reflexivity.
  - readable_by_evaluation.
  - split; [by left |]. split; by left.
  - eexists _, _. split; vm_compute; reflexivity.
  - by left.
  - by left.
  - constructor; [| constructor].
    intros i Hi.
    destruct i as [| [| [| [| [| [| i]]]]]]; [.. | lia];
      (eexists; split; [vm_compute; reflexivity |];
       eexists _, _; split; vm_compute; reflexivity).
  - vm_compute. discriminate.
Defined.

(** The theorem on the run of the low-resolution model on the pyramid of
    three levels. *)
Lemma low_resolution_run_registers_witness :
  succeeds RealFloat.ops (host overview_model ["tumor.onnx"] ["OpenVINO"]) "tumor"
    "SegmentationRenderer" start.
Proof.
  apply (low_resolution_run_registers RealFloat.ops
           (host overview_model ["tumor.onnx"] ["OpenVINO"]) "tumor" [".onnx"] start 2);
    try reflexivity.
  - lia.
  - readable_by_evaluation.
  - colours_by_evaluation.
  - vm_compute. discriminate.
Defined.
